(** * KTX2-Parse: the [write] serializer of [src/write.ts]

    A shallow embedding of [write(container, options)] and the layout
    properties of the KTX 2.0 file it produces.

    Conventions of the embedding.
    - A JavaScript [number] that the code treats as an integer (sizes,
      offsets, header fields) is a [Z]; non-integral numbers are outside the
      model.
    - A [Uint8Array] / [ArrayBuffer] is a [list byte].
    - A JavaScript string is the list of its UTF-16 code units.
    - A [throw] is the [Throw] constructor of [result]. *)

From Stdlib Require Import ZArith List Lia Bool String Ascii.
From Stdlib Require Import Strings.Byte.
From Stdlib Require Import Sorted Permutation.
From stdpp Require Import base list sorting.

Import ListNotations.
Local Open Scope Z_scope.

(** ** Exceptions *)

Inductive JsError : Type :=
| Error (message : string)
| RangeError
| TypeError.

Inductive result (A : Type) : Type :=
| Ok (a : A)
| Throw (e : JsError).
Arguments Ok {A} a.
Arguments Throw {A} e.

Definition bind {A B} (m : result A) (f : A -> result B) : result B :=
  match m with
  | Ok a => f a
  | Throw e => Throw e
  end.

Notation "'do' x <- m ; k" := (bind m (fun x => k))
  (at level 10, x name, m at level 100, k at level 200).

Definition is_ok {A} (m : result A) : bool :=
  match m with Ok _ => true | Throw _ => false end.

(** ** Bytes and little-endian integers *)

Definition byte_of_Z (z : Z) : byte :=
  match Byte.of_N (Z.to_N (z mod 256)) with
  | Some b => b
  | None => x00
  end.

Definition Z_of_byte (b : byte) : Z := Z.of_N (Byte.to_N b).

(** The [n] low-order bytes of [v], least significant first. *)
Fixpoint le_bytes (n : nat) (v : Z) : list byte :=
  match n with
  | O => []
  | S n' => byte_of_Z v :: le_bytes n' (v / 256)
  end.

(** The unsigned integer a little-endian byte string denotes. *)
Fixpoint le_value (bs : list byte) : Z :=
  match bs with
  | [] => 0
  | b :: bs' => Z_of_byte b + 256 * le_value bs'
  end.

(** ECMAScript integer conversions, on integral numbers. *)
Definition ToUint8 (v : Z) : Z := v mod 2 ^ 8.
Definition ToUint16 (v : Z) : Z := v mod 2 ^ 16.
Definition ToUint32 (v : Z) : Z := v mod 2 ^ 32.
Definition ToInt32 (v : Z) : Z := (v + 2 ^ 31) mod 2 ^ 32 - 2 ^ 31.
Definition ToBigUint64 (v : Z) : Z := v mod 2 ^ 64.

(** An array element read [l[i]]; [None] is [undefined], the value of a read
    past the end of the array. *)
Definition element (l : list Z) (i : nat) : option Z := l !! i.

(** The conversion of an element by [setUint8]: [undefined] converts to
    [NaN], which is stored as [0]. *)
Definition ToUint8_elt (v : option Z) : Z :=
  match v with
  | Some z => ToUint8 z
  | None => 0
  end.

(** ** ArrayBuffer, DataView, concat *)

Definition ArrayBuffer (n : Z) : list byte := replicate (Z.to_nat n) x00.

Definition byteLength (b : list byte) : Z := Z.of_nat (length b).

(** A [DataView] store of the bytes [bs] at [byteOffset]: a [RangeError]
    unless the bytes lie inside the buffer. *)
Definition dv_store (byteOffset : Z) (bs : list byte) (buf : list byte)
  : result (list byte) :=
  if (0 <=? byteOffset) && (byteOffset + byteLength bs <=? byteLength buf)
  then Ok (take (Z.to_nat byteOffset) buf ++ bs
           ++ drop (Z.to_nat byteOffset + length bs) buf)
  else Throw RangeError.

Definition setUint8 (byteOffset : Z) (v : Z) :=
  dv_store byteOffset (le_bytes 1 (ToUint8 v)).
Definition setUint8_elt (byteOffset : Z) (v : option Z) :=
  dv_store byteOffset (le_bytes 1 (ToUint8_elt v)).
Definition setUint16 (byteOffset : Z) (v : Z) :=
  dv_store byteOffset (le_bytes 2 (ToUint16 v)).
Definition setUint32 (byteOffset : Z) (v : Z) :=
  dv_store byteOffset (le_bytes 4 (ToUint32 v)).
Definition setInt32 (byteOffset : Z) (v : Z) :=
  dv_store byteOffset (le_bytes 4 (ToInt32 v)).
Definition setBigUint64 (byteOffset : Z) (v : Z) :=
  dv_store byteOffset (le_bytes 8 (ToBigUint64 v)).

(** [buf.slice(start, stop)] for [0 <= start <= stop], and the [DataView]
    reads (little-endian), used to state what a reader finds in the
    output. *)
Definition slice (buf : list byte) (start stop : Z) : list byte :=
  take (Z.to_nat (stop - start)) (drop (Z.to_nat start) buf).
Definition getUint32 (buf : list byte) (off : Z) : Z := le_value (slice buf off (off + 4)).
Definition getBigUint64 (buf : list byte) (off : Z) : Z := le_value (slice buf off (off + 8)).
Definition getInt32 (buf : list byte) (off : Z) : Z :=
  ToInt32 (le_value (slice buf off (off + 4))).

(** Modelled from the spec: [concat] of [util.js], which is not among the
    sources; the spec says it concatenates the buffers it is given, in
    order. *)
Definition concat (buffers : list (list byte)) : list byte :=
  List.concat buffers.

(** [concat] of [util.js], not among the sources, is made for
    [ArrayBuffer]s and [Uint8Array]s; [write] hands it a [Uint32Array] as
    well (line 83). This is what [concat] stores for a [Uint32Array] of the
    elements [a]: it gives every argument its [byteLength], four bytes an
    element here, in a zeroed result and copies [new Uint8Array(argument)]
    to that place; of a typed array that constructor makes one byte per
    element, the element converted to a byte, and not the four bytes of its
    storage. So the argument contributes the elements modulo 256, one byte
    each, and zero bytes up to its [byteLength]. *)
Definition concat_Uint32Array (a : list Z) : list byte :=
  map (fun v => byte_of_Z (ToUint8 (ToUint32 v))) a
  ++ ArrayBuffer (3 * Z.of_nat (length a)).

(** ** JavaScript strings *)

(** A string is the sequence of its UTF-16 code units. *)
Definition jsstring : Type := list Z.

(** The string of a literal whose characters are below U+0100. *)
Definition jsstr (s : string) : jsstring :=
  map (fun a => Z.of_N (N_of_ascii a)) (list_ascii_of_string s).

(** [a < b] on strings: lexicographic on code units, a proper prefix being
    smaller (ECMAScript IsLessThan on two strings). *)
Fixpoint js_string_lt (a b : jsstring) : bool :=
  match a, b with
  | _, [] => false
  | [], _ :: _ => true
  | x :: a', y :: b' =>
      if x <? y then true
      else if y <? x then false
      else js_string_lt a' b'
  end.

Definition js_string_gt (a b : jsstring) : bool := js_string_lt b a.

Fixpoint js_string_eqb (a b : jsstring) : bool :=
  match a, b with
  | [], [] => true
  | x :: a', y :: b' => (x =? y) && js_string_eqb a' b'
  | _, _ => false
  end.

Definition is_high_surrogate (u : Z) : bool := (0xD800 <=? u) && (u <=? 0xDBFF).
Definition is_low_surrogate (u : Z) : bool := (0xDC00 <=? u) && (u <=? 0xDFFF).

(** The UTF-8 bytes of one Unicode scalar value. *)
Definition utf8_scalar (cp : Z) : list byte :=
  if cp <? 0x80 then [byte_of_Z cp]
  else if cp <? 0x800 then
    [byte_of_Z (Z.lor 0xC0 (Z.shiftr cp 6));
     byte_of_Z (Z.lor 0x80 (Z.land cp 0x3F))]
  else if cp <? 0x10000 then
    [byte_of_Z (Z.lor 0xE0 (Z.shiftr cp 12));
     byte_of_Z (Z.lor 0x80 (Z.land (Z.shiftr cp 6) 0x3F));
     byte_of_Z (Z.lor 0x80 (Z.land cp 0x3F))]
  else
    [byte_of_Z (Z.lor 0xF0 (Z.shiftr cp 18));
     byte_of_Z (Z.lor 0x80 (Z.land (Z.shiftr cp 12) 0x3F));
     byte_of_Z (Z.lor 0x80 (Z.land (Z.shiftr cp 6) 0x3F));
     byte_of_Z (Z.lor 0x80 (Z.land cp 0x3F))].

(** Modelled from the spec: [encodeText] of [util.js], which is not among
    the sources; the spec calls it the UTF-8 encoding of a text. The code
    units are read as UTF-16: a surrogate pair is one scalar value and an
    unpaired surrogate is encoded as U+FFFD, as [TextEncoder] does. *)
Fixpoint encodeText (s : jsstring) : list byte :=
  match s with
  | [] => []
  | u :: rest =>
      if is_high_surrogate u then
        match rest with
        | v :: rest' =>
            if is_low_surrogate v then
              utf8_scalar (0x10000 + (u - 0xD800) * 0x400 + (v - 0xDC00))
                ++ encodeText rest'
            else utf8_scalar 0xFFFD ++ encodeText rest
        | [] => utf8_scalar 0xFFFD
        end
      else if is_low_surrogate u then utf8_scalar 0xFFFD ++ encodeText rest
      else utf8_scalar u ++ encodeText rest
  end.

(** Byte-wise (ordinal) order on byte strings, for comparison with the
    order the code sorts by. *)
Fixpoint bytes_lt (a b : list byte) : bool :=
  match a, b with
  | _, [] => false
  | [], _ :: _ => true
  | x :: a', y :: b' =>
      if Z_of_byte x <? Z_of_byte y then true
      else if Z_of_byte y <? Z_of_byte x then false
      else bytes_lt a' b'
  end.

(** ** Arrays: [Array.prototype.sort] *)

(** [sort] with a comparator, as the insertion sort that places an element
    before the first one it compares smaller than. The elements sorted in
    [write] have pairwise distinct keys, on which every comparison sort
    returns the same array (lemma [Array_sort_unique] below). *)
Fixpoint sort_insert {A} (comparefn : A -> A -> Z) (x : A) (l : list A) : list A :=
  match l with
  | [] => [x]
  | y :: l' =>
      if comparefn x y <? 0 then x :: y :: l'
      else y :: sort_insert comparefn x l'
  end.

Definition Array_sort {A} (comparefn : A -> A -> Z) (l : list A) : list A :=
  fold_left (fun acc x => sort_insert comparefn x acc) l [].

(** ** Objects used as string-keyed maps *)

(** The own enumerable properties of an object, in creation order. *)
Definition JsObject (V : Type) : Type := list (jsstring * V).

(** [o[k] = v]: an existing property keeps its place, a new one is added
    last. *)
Fixpoint obj_set {V} (k : jsstring) (v : V) (o : JsObject V) : JsObject V :=
  match o with
  | [] => [(k, v)]
  | (k', v') :: o' =>
      if js_string_eqb k k' then (k', v) :: o'
      else (k', v') :: obj_set k v o'
  end.

(** One spread element [...source] of an object literal: every property of
    [source] is set on the object under construction, in order. *)
Definition obj_spread {V} (target source : JsObject V) : JsObject V :=
  fold_left (fun t kv => obj_set (fst kv) (snd kv) t) source target.

(** [Object.entries]. (An engine lists integer-like keys first; [write]
    sorts the entries by key right away, and the sorted array is the same
    for every order of the entries: lemma [keyValueList_order_irrelevant].) *)
Definition Object_entries {V} (o : JsObject V) : list (jsstring * V) := o.

(** ** Numbers *)

(** [a % b]; [None] is [NaN], the remainder by zero. *)
Definition js_rem (a b : Z) : option Z :=
  if b =? 0 then None else Some (Z.rem a b).

(** Truthiness of a number: [0] and [NaN] are falsy. *)
Definition truthy (v : option Z) : bool :=
  match v with
  | Some z => negb (z =? 0)
  | None => false
  end.

(** Modelled from the spec: [getPadding] of [util.js], not among the
    sources: the number of bytes that pad [v] up to the next multiple of
    [n]. *)
Definition getPadding (v n : Z) : Z := (n - v mod n) mod n.

(** Modelled from the spec: [leastCommonMultiple] of [util.js], not among
    the sources. *)
Definition leastCommonMultiple (a b : Z) : Z := Z.lcm a b.

(** Modelled from the spec: [NUL] of [constants-internal.js], the single
    zero byte that ends a key and a text value. *)
Definition NUL : list byte := [x00].

(** Modelled from the spec: [HEADER_BYTE_LENGTH] of [constants-internal.js];
    the header is nine u32 fields, two (u32, u32) pairs and one (u64, u64)
    pair. *)
Definition HEADER_BYTE_LENGTH : Z := 9 * 4 + 2 * (4 + 4) + (8 + 8).

(** ** The container *)

Record KTX2Level := {
  levelData : list byte;
  uncompressedByteLength : Z;
}.

Record KTX2BasicFormatSample := {
  bitOffset : Z;
  bitLength : Z;
  channelType : Z;
  samplePosition : list Z;
  sampleLower : Z;
  sampleUpper : Z;
}.

(** [texelBlockDimension] is an array; the legacy form was one number. *)
Inductive TexelBlockDimension : Type :=
| TBD_array (a : list Z)
| TBD_number (n : Z).

Record KTX2DataFormatDescriptorBasicFormat := {
  vendorId : Z;
  descriptorType : Z;
  versionNumber : Z;
  colorModel : Z;
  colorPrimaries : Z;
  transferFunction : Z;
  flags : Z;
  texelBlockDimension : TexelBlockDimension;
  bytesPlane : list Z;
  samples : list KTX2BasicFormatSample;
}.

Record KTX2GlobalDataBasisLZImageDesc := {
  imageFlags : Z;
  rgbSliceByteOffset : Z;
  rgbSliceByteLength : Z;
  alphaSliceByteOffset : Z;
  alphaSliceByteLength : Z;
}.

Record KTX2GlobalDataBasisLZ := {
  endpointCount : Z;
  selectorCount : Z;
  imageDescs : list KTX2GlobalDataBasisLZImageDesc;
  endpointsData : list byte;
  selectorsData : list byte;
  tablesData : list byte;
  extendedData : list byte;
}.

(** A key/value entry holds a text or raw bytes. *)
Inductive KVValue : Type :=
| KVString (s : jsstring)
| KVBytes (b : list byte).

Record KTX2Container := {
  vkFormat : Z;
  typeSize : Z;
  pixelWidth : Z;
  pixelHeight : Z;
  pixelDepth : Z;
  layerCount : Z;
  faceCount : Z;
  supercompressionScheme : Z;
  levels : list KTX2Level;
  dataFormatDescriptor : list KTX2DataFormatDescriptorBasicFormat;
  keyValue : JsObject KVValue;
  globalData : option KTX2GlobalDataBasisLZ;
}.

(** [keepWriter?: boolean]: [None] is the absent property. *)
Record WriteOptions := { keepWriter : option bool }.

Definition DEFAULT_OPTIONS : WriteOptions := {| keepWriter := Some false |}.

(** [{ ...DEFAULT_OPTIONS, ...options }] *)
Definition merge_options (defaults options : WriteOptions) : WriteOptions :=
  {| keepWriter := match keepWriter options with
                   | Some b => Some b
                   | None => keepWriter defaults
                   end |}.

Definition truthy_flag (b : option bool) : bool :=
  match b with Some true => true | _ => false end.

(** ** Loops *)

(** [for (let i = start; i < start + l.length; i++) body(i, l[i - start])] *)
Fixpoint for_indexed {A St} (body : nat -> A -> St -> result St)
    (i : nat) (l : list A) (s : St) : result St :=
  match l with
  | [] => Ok s
  | x :: l' => do s' <- body i x s; for_indexed body (S i) l' s'
  end.

(** [for (let i = start; i < start + n; i++) body(i)] *)
Fixpoint for_range {St} (body : nat -> St -> result St)
    (i n : nat) (s : St) : result St :=
  match n with
  | O => Ok s
  | S n' => do s' <- body i s; for_range body (S i) n' s'
  end.

(** ** Sample inputs

    Concrete values for the imports that are not among the sources, and
    small containers, on which the model is run. *)

Definition sample_KTX2_ID : list Z :=
  [0xAB; 0x4B; 0x54; 0x58; 0x20; 0x32; 0x30; 0xBB; 0x0D; 0x0A; 0x1A; 0x0A].
Definition sample_KTX_WRITER : jsstring := jsstr "KTX-Parse v1.0.0".
Definition sample_BASICFORMAT : Z := 0.
Definition sample_SIGNED : Z := 0x40.
Definition sample_NONE : Z := 0.
Definition sample_getBlockByteLength (container : KTX2Container) : Z := 16.

Definition sample_dfd : KTX2DataFormatDescriptorBasicFormat :=
  {| vendorId := 0; descriptorType := 0; versionNumber := 2;
     colorModel := 1; colorPrimaries := 1; transferFunction := 2; flags := 0;
     texelBlockDimension := TBD_array [0; 0; 0; 0];
     bytesPlane := [4; 0; 0; 0; 0; 0; 0; 0];
     samples := [ {| bitOffset := 0; bitLength := 31; channelType := 0;
                     samplePosition := [0; 0; 0; 0];
                     sampleLower := 0; sampleUpper := 255 |} ] |}.

(** One level of four bytes, one key/value pair, no global data: the
    scenario of section 8 of the spec. *)
Definition scenario_container : KTX2Container :=
  {| vkFormat := 37; typeSize := 1;
     pixelWidth := 1; pixelHeight := 1; pixelDepth := 0;
     layerCount := 0; faceCount := 1;
     supercompressionScheme := 0;
     levels := [ {| levelData := [x01; x02; x03; x04];
                    uncompressedByteLength := 4 |} ];
     dataFormatDescriptor := [sample_dfd];
     keyValue := [(jsstr "Orientation", KVString (jsstr "S"))];
     globalData := None |}.

Definition sample_globalData : KTX2GlobalDataBasisLZ :=
  {| endpointCount := 2; selectorCount := 3;
     imageDescs := [ {| imageFlags := 0; rgbSliceByteOffset := 0;
                        rgbSliceByteLength := 5; alphaSliceByteOffset := 5;
                        alphaSliceByteLength := 3 |} ];
     endpointsData := [x0a; x0b];
     selectorsData := [x0c];
     tablesData := [x0d; x0e; x0f];
     extendedData := [] |}.

(** Two levels, global data and a supercompression scheme. *)
Definition sample_container : KTX2Container :=
  {| vkFormat := 0; typeSize := 1;
     pixelWidth := 2; pixelHeight := 2; pixelDepth := 0;
     layerCount := 0; faceCount := 1;
     supercompressionScheme := 1;
     levels := [ {| levelData := [x11; x12; x13; x14; x15];
                    uncompressedByteLength := 16 |};
                 {| levelData := [x21; x22; x23];
                    uncompressedByteLength := 4 |} ];
     dataFormatDescriptor := [sample_dfd];
     keyValue := [(jsstr "b", KVBytes [x01; x02]); (jsstr "a", KVString (jsstr "x"))];
     globalData := Some sample_globalData |}.

(** The same container, its [keyValue] properties created in the other
    order. *)
Definition sample_container_reordered : KTX2Container :=
  {| vkFormat := 0; typeSize := 1;
     pixelWidth := 2; pixelHeight := 2; pixelDepth := 0;
     layerCount := 0; faceCount := 1;
     supercompressionScheme := 1;
     levels := [ {| levelData := [x11; x12; x13; x14; x15];
                    uncompressedByteLength := 16 |};
                 {| levelData := [x21; x22; x23];
                    uncompressedByteLength := 4 |} ];
     dataFormatDescriptor := [sample_dfd];
     keyValue := [(jsstr "a", KVString (jsstr "x")); (jsstr "b", KVBytes [x01; x02])];
     globalData := Some sample_globalData |}.

(** A level payload of 2^32 zero bytes, and a container whose level 1 holds
    it: level 0 is stored after it, at an offset of 2^32 or more. *)
Definition huge_payload : list byte := replicate (Z.to_nat (2 ^ 32)) x00.

Definition huge_container : KTX2Container :=
  {| vkFormat := 0; typeSize := 1;
     pixelWidth := 65536; pixelHeight := 65536; pixelDepth := 0;
     layerCount := 0; faceCount := 1;
     supercompressionScheme := 1;
     levels := [ {| levelData := [x07]; uncompressedByteLength := 1 |};
                 {| levelData := huge_payload;
                    uncompressedByteLength := 2 ^ 32 |} ];
     dataFormatDescriptor := [sample_dfd];
     keyValue := [];
     globalData := None |}.

(** The caller supplies its own "KTXwriter" entry. *)
Definition writer_container : KTX2Container :=
  {| vkFormat := 37; typeSize := 1;
     pixelWidth := 1; pixelHeight := 1; pixelDepth := 0;
     layerCount := 0; faceCount := 1;
     supercompressionScheme := 0;
     levels := [ {| levelData := [x01; x02; x03; x04];
                    uncompressedByteLength := 4 |} ];
     dataFormatDescriptor := [sample_dfd];
     keyValue := [(jsstr "KTXwriter", KVString (jsstr "my-tool"))];
     globalData := None |}.

(** [texelBlockDimension] is an array of three elements. *)
Definition short_dimension_container : KTX2Container :=
  {| vkFormat := 37; typeSize := 1;
     pixelWidth := 1; pixelHeight := 1; pixelDepth := 0;
     layerCount := 0; faceCount := 1;
     supercompressionScheme := 0;
     levels := [ {| levelData := [x01; x02; x03; x04];
                    uncompressedByteLength := 4 |} ];
     dataFormatDescriptor :=
       [ {| vendorId := 0; descriptorType := 0; versionNumber := 2;
            colorModel := 1; colorPrimaries := 1; transferFunction := 2;
            flags := 0;
            texelBlockDimension := TBD_array [0; 0; 0];
            bytesPlane := [4; 0; 0; 0; 0; 0; 0; 0];
            samples := [] |} ];
     keyValue := [];
     globalData := None |}.

(** Two keys outside ASCII: U+FF5E, and U+1F600 as its surrogate pair. *)
Definition unicode_container : KTX2Container :=
  {| vkFormat := 37; typeSize := 1;
     pixelWidth := 1; pixelHeight := 1; pixelDepth := 0;
     layerCount := 0; faceCount := 1;
     supercompressionScheme := 0;
     levels := [ {| levelData := [x01; x02; x03; x04];
                    uncompressedByteLength := 4 |} ];
     dataFormatDescriptor := [sample_dfd];
     keyValue := [([0xFF5E], KVString (jsstr "tilde"));
                  ([0xD83D; 0xDE00], KVString (jsstr "face"))];
     globalData := None |}.

(** The sample container with the text value of "a" given as raw bytes:
    the bytes of "x" and a NUL. *)
Definition bytes_value_container : KTX2Container :=
  {| vkFormat := 0; typeSize := 1;
     pixelWidth := 2; pixelHeight := 2; pixelDepth := 0;
     layerCount := 0; faceCount := 1;
     supercompressionScheme := 1;
     levels := [ {| levelData := [x11; x12; x13; x14; x15];
                    uncompressedByteLength := 16 |};
                 {| levelData := [x21; x22; x23];
                    uncompressedByteLength := 4 |} ];
     dataFormatDescriptor := [sample_dfd];
     keyValue := [(jsstr "b", KVBytes [x01; x02]); (jsstr "a", KVBytes [x78; x00])];
     globalData := Some sample_globalData |}.

(** A container read from a file that this writer produced: it holds the
    "KTXwriter" entry with the writer string. *)
Definition stamped_container : KTX2Container :=
  {| vkFormat := 37; typeSize := 1;
     pixelWidth := 1; pixelHeight := 1; pixelDepth := 0;
     layerCount := 0; faceCount := 1;
     supercompressionScheme := 0;
     levels := [ {| levelData := [x01; x02; x03; x04];
                    uncompressedByteLength := 4 |} ];
     dataFormatDescriptor := [sample_dfd];
     keyValue := [(jsstr "Orientation", KVString (jsstr "S"));
                  (jsstr "KTXwriter", KVString sample_KTX_WRITER)];
     globalData := None |}.

(** A descriptor with a signed sample whose lower bound is negative and
    an unsigned sample whose upper bound is 2^32 - 1. *)
Definition signed_dfd : KTX2DataFormatDescriptorBasicFormat :=
  {| vendorId := 0; descriptorType := 0; versionNumber := 2;
     colorModel := 1; colorPrimaries := 1; transferFunction := 1; flags := 0;
     texelBlockDimension := TBD_array [0; 0; 0; 0];
     bytesPlane := [2; 0; 0; 0; 0; 0; 0; 0];
     samples := [ {| bitOffset := 0; bitLength := 7; channelType := 0x40;
                     samplePosition := [0; 0; 0; 0];
                     sampleLower := -128; sampleUpper := 127 |};
                  {| bitOffset := 8; bitLength := 7; channelType := 1;
                     samplePosition := [0; 0; 0; 0];
                     sampleLower := 0; sampleUpper := 4294967295 |} ] |}.

(** [texelBlockDimension] in the legacy form, one number. *)
Definition legacy_dimension_container : KTX2Container :=
  {| vkFormat := 37; typeSize := 1;
     pixelWidth := 1; pixelHeight := 1; pixelDepth := 0;
     layerCount := 0; faceCount := 1;
     supercompressionScheme := 0;
     levels := [ {| levelData := [x01; x02; x03; x04];
                    uncompressedByteLength := 4 |} ];
     dataFormatDescriptor :=
       [ {| vendorId := 0; descriptorType := 0; versionNumber := 2;
            colorModel := 1; colorPrimaries := 1; transferFunction := 2;
            flags := 0;
            texelBlockDimension := TBD_number 0;
            bytesPlane := [4; 0; 0; 0; 0; 0; 0; 0];
            samples := [] |} ];
     keyValue := [];
     globalData := None |}.

(** A descriptor of another type than the basic format, which has the
    legacy [texelBlockDimension] as well. *)
Definition foreign_descriptor_container : KTX2Container :=
  {| vkFormat := 37; typeSize := 1;
     pixelWidth := 1; pixelHeight := 1; pixelDepth := 0;
     layerCount := 0; faceCount := 1;
     supercompressionScheme := 0;
     levels := [ {| levelData := [x01; x02; x03; x04];
                    uncompressedByteLength := 4 |} ];
     dataFormatDescriptor :=
       [ {| vendorId := 0; descriptorType := 1; versionNumber := 2;
            colorModel := 1; colorPrimaries := 1; transferFunction := 2;
            flags := 0;
            texelBlockDimension := TBD_number 0;
            bytesPlane := [4; 0; 0; 0; 0; 0; 0; 0];
            samples := [] |} ];
     keyValue := [];
     globalData := None |}.

(** No levels, a supercompression scheme and global data. *)
Definition no_levels_container : KTX2Container :=
  {| vkFormat := 0; typeSize := 1;
     pixelWidth := 2; pixelHeight := 2; pixelDepth := 0;
     layerCount := 0; faceCount := 1;
     supercompressionScheme := 1;
     levels := [];
     dataFormatDescriptor := [sample_dfd];
     keyValue := [];
     globalData := Some sample_globalData |}.

(** One entry whose key, NUL and value take 260 bytes, and two entries of
    4 and 252 bytes: the value of the first holds the bytes that the
    second entry of the other container is stored as. *)
Definition long_record_container : KTX2Container :=
  {| vkFormat := 37; typeSize := 1;
     pixelWidth := 1; pixelHeight := 1; pixelDepth := 0;
     layerCount := 0; faceCount := 1;
     supercompressionScheme := 0;
     levels := [ {| levelData := [x01; x02; x03; x04];
                    uncompressedByteLength := 4 |} ];
     dataFormatDescriptor := [sample_dfd];
     keyValue :=
       [(jsstr "a",
         KVBytes ([x01; x02; xfc; x00; x00; x00; x62; x00]
                  ++ replicate 250 x00))];
     globalData := None |}.

Definition split_record_container : KTX2Container :=
  {| vkFormat := 37; typeSize := 1;
     pixelWidth := 1; pixelHeight := 1; pixelDepth := 0;
     layerCount := 0; faceCount := 1;
     supercompressionScheme := 0;
     levels := [ {| levelData := [x01; x02; x03; x04];
                    uncompressedByteLength := 4 |} ];
     dataFormatDescriptor := [sample_dfd];
     keyValue := [(jsstr "a", KVBytes [x01; x02]);
                  (jsstr "b", KVBytes (replicate 250 x00))];
     globalData := None |}.

(** ** [write] *)

Section Write.

(** Imports of [write.ts] that are not among the sources: the file
    identifier and the writer string of [constants-internal.js], three
    enumeration values of [constants.js], and [getBlockByteLength] of
    [util.js]. Every theorem below holds for all their values.
    [getBlockByteLength] is the value of a call of the helper that returns;
    the calls that do not are kept apart by [block_byte_length_readable]
    below. *)
Variable KTX2_ID : list Z.
Variable KTX_WRITER : jsstring.
Variable KHR_DF_KHR_DESCRIPTORTYPE_BASICFORMAT : Z.
Variable KHR_DF_SAMPLE_DATATYPE_SIGNED : Z.
Variable KHR_SUPERCOMPRESSION_NONE : Z.
Variable getBlockByteLength : KTX2Container -> Z.

(** *** Supercompression Global Data (SGD) *)

Definition sgd_write_imageDesc (i : nat)
    (imageDesc : KTX2GlobalDataBasisLZImageDesc) (view : list byte)
  : result (list byte) :=
  do view <- setUint32 (20 + Z.of_nat i * 5 * 4 + 0) (imageFlags imageDesc) view;
  do view <- setUint32 (20 + Z.of_nat i * 5 * 4 + 4) (rgbSliceByteOffset imageDesc) view;
  do view <- setUint32 (20 + Z.of_nat i * 5 * 4 + 8) (rgbSliceByteLength imageDesc) view;
  do view <- setUint32 (20 + Z.of_nat i * 5 * 4 + 12) (alphaSliceByteOffset imageDesc) view;
  setUint32 (20 + Z.of_nat i * 5 * 4 + 16) (alphaSliceByteLength imageDesc) view.

Definition sgdHeaderBuffer (g : KTX2GlobalDataBasisLZ) : result (list byte) :=
  let view := ArrayBuffer (20 + Z.of_nat (length (imageDescs g)) * 5 * 4) in
  do view <- setUint16 0 (endpointCount g) view;
  do view <- setUint16 2 (selectorCount g) view;
  do view <- setUint32 4 (byteLength (endpointsData g)) view;
  do view <- setUint32 8 (byteLength (selectorsData g)) view;
  do view <- setUint32 12 (byteLength (tablesData g)) view;
  do view <- setUint32 16 (byteLength (extendedData g)) view;
  for_indexed sgd_write_imageDesc 0 (imageDescs g) view.

Definition sgdBuffer (container : KTX2Container) : result (list byte) :=
  match globalData container with
  | None => Ok (ArrayBuffer 0)
  | Some g =>
      do header <- sgdHeaderBuffer g;
      Ok (concat [header; endpointsData g; selectorsData g;
                  tablesData g; extendedData g])
  end.

(** *** Key/Value Data (KVD) *)

Definition KTXwriter : jsstring := jsstr "KTXwriter".

(** [(a, b) => (a[0] > b[0] ? 1 : -1)] *)
Definition compare_keys (a b : jsstring * KVValue) : Z :=
  if js_string_gt (fst a) (fst b) then 1 else -1.

Definition keyValueList (container : KTX2Container) (options : WriteOptions)
  : list (jsstring * KVValue) :=
  Array_sort compare_keys
    (Object_entries
       (obj_spread
          (obj_spread [] (keyValue container))
          (if negb (truthy_flag (keepWriter options))
           then [(KTXwriter, KVString KTX_WRITER)]
           else []))).

(** The body of the loop over [keyValueList]: one KVD record. The length
    is handed to [concat] in a [Uint32Array] of one element, which takes
    four bytes of the record: the low byte of the length and three zero
    bytes. *)
Definition kvRecord (entry : jsstring * KVValue) : list byte :=
  let keyData := encodeText (fst entry) in
  let valueData :=
    match snd entry with
    | KVString value => concat [encodeText value; NUL]
    | KVBytes value => value
    end in
  let kvByteLength := byteLength keyData + 1 + byteLength valueData in
  let kvPadding := getPadding kvByteLength 4 in
  concat [concat_Uint32Array [kvByteLength];
          keyData;
          NUL;
          valueData;
          ArrayBuffer kvPadding].

Definition kvdBuffer (container : KTX2Container) (options : WriteOptions)
  : list byte :=
  concat (map kvRecord (keyValueList container options)).

(** *** Data Format Descriptor (DFD) *)

Definition dfd_check (container : KTX2Container)
  : result KTX2DataFormatDescriptorBasicFormat :=
  match dataFormatDescriptor container with
  | [dfd] =>
      if negb (descriptorType dfd =? KHR_DF_KHR_DESCRIPTORTYPE_BASICFORMAT)
      then Throw (Error "Only BASICFORMAT Data Format Descriptor output supported.")
      else Ok dfd
  | _ => Throw (Error "Only BASICFORMAT Data Format Descriptor output supported.")
  end.

(** [sample.channelType & KHR_DF_SAMPLE_DATATYPE_SIGNED], as a condition. *)
Definition sample_signed (sample : KTX2BasicFormatSample) : bool :=
  negb (Z.land (ToInt32 (channelType sample))
               (ToInt32 KHR_DF_SAMPLE_DATATYPE_SIGNED) =? 0).

Definition dfd_write_sample (i : nat) (sample : KTX2BasicFormatSample)
    (view : list byte) : result (list byte) :=
  let sampleByteOffset := 28 + Z.of_nat i * 16 in
  do view <- setUint16 (sampleByteOffset + 0) (bitOffset sample) view;
  do view <- setUint8 (sampleByteOffset + 2) (bitLength sample) view;
  do view <- setUint8 (sampleByteOffset + 3) (channelType sample) view;
  do view <- setUint8_elt (sampleByteOffset + 4) (element (samplePosition sample) 0) view;
  do view <- setUint8_elt (sampleByteOffset + 5) (element (samplePosition sample) 1) view;
  do view <- setUint8_elt (sampleByteOffset + 6) (element (samplePosition sample) 2) view;
  do view <- setUint8_elt (sampleByteOffset + 7) (element (samplePosition sample) 3) view;
  if sample_signed sample then
    do view <- setInt32 (sampleByteOffset + 8) (sampleLower sample) view;
    setInt32 (sampleByteOffset + 12) (sampleUpper sample) view
  else
    do view <- setUint32 (sampleByteOffset + 8) (sampleLower sample) view;
    setUint32 (sampleByteOffset + 12) (sampleUpper sample) view.

Definition dfdBuffer (dfd : KTX2DataFormatDescriptorBasicFormat)
  : result (list byte) :=
  let view := ArrayBuffer (28 + Z.of_nat (length (samples dfd)) * 16) in
  let descriptorBlockSize := 24 + Z.of_nat (length (samples dfd)) * 16 in
  do view <- setUint32 0 (byteLength view) view;
  do view <- setUint16 4 (vendorId dfd) view;
  do view <- setUint16 6 (descriptorType dfd) view;
  do view <- setUint16 8 (versionNumber dfd) view;
  do view <- setUint16 10 descriptorBlockSize view;
  do view <- setUint8 12 (colorModel dfd) view;
  do view <- setUint8 13 (colorPrimaries dfd) view;
  do view <- setUint8 14 (transferFunction dfd) view;
  do view <- setUint8 15 (flags dfd) view;
  match texelBlockDimension dfd with
  | TBD_number _ =>
      Throw (Error "texelBlockDimension is now an array. For dimensionality `d`, set `d - 1`.")
  | TBD_array dim =>
      do view <- setUint8_elt 16 (element dim 0) view;
      do view <- setUint8_elt 17 (element dim 1) view;
      do view <- setUint8_elt 18 (element dim 2) view;
      do view <- setUint8_elt 19 (element dim 3) view;
      do view <- for_range
                   (fun i => setUint8_elt (20 + Z.of_nat i) (element (bytesPlane dfd) i))
                   0 8 view;
      for_indexed dfd_write_sample 0 (samples dfd) view
  end.

(** *** Data alignment *)

Definition dfdByteOffset (container : KTX2Container) : Z :=
  Z.of_nat (length KTX2_ID) + HEADER_BYTE_LENGTH
  + Z.of_nat (length (levels container)) * 3 * 8.

Definition kvdByteOffset (container : KTX2Container) (dfdBuf : list byte) : Z :=
  dfdByteOffset container + byteLength dfdBuf.

Definition sgdByteOffset (kvdOff : Z) (kvdBuf sgdBuf : list byte) : Z :=
  let sgdByteOffset :=
    if byteLength sgdBuf >? 0 then kvdOff + byteLength kvdBuf else 0 in
  if negb (Z.rem sgdByteOffset 8 =? 0)
  then sgdByteOffset + (8 - Z.rem sgdByteOffset 8)
  else sgdByteOffset.

(** *** Level index *)

Definition levelAlign (container : KTX2Container) : Z :=
  if supercompressionScheme container =? KHR_SUPERCOMPRESSION_NONE
  then leastCommonMultiple (getBlockByteLength container) 4
  else 0.

(** The variables the packing loop updates: the chunks pushed to
    [levelData], the [Uint32Array] [levelDataByteOffsets] and the cursor
    [levelDataByteOffset]. *)
Record PackState := {
  ps_levelData : list (list byte);
  ps_levelDataByteOffsets : list Z;
  ps_levelDataByteOffset : Z;
}.

(** The level padding step at the top of the loop body. *)
Definition pack_padding (align : Z) (st : PackState) : PackState :=
  if truthy (js_rem (ps_levelDataByteOffset st) align) then
    let paddingBytes := getPadding (ps_levelDataByteOffset st) align in
    {| ps_levelData := ps_levelData st ++ [ArrayBuffer paddingBytes];
       ps_levelDataByteOffsets := ps_levelDataByteOffsets st;
       ps_levelDataByteOffset := ps_levelDataByteOffset st + paddingBytes |}
  else st.

(** The rest of the loop body, for level [i]; a store into a
    [Uint32Array] converts with [ToUint32]. *)
Definition pack_level (i : nat) (level : KTX2Level) (st : PackState) : PackState :=
  {| ps_levelData := ps_levelData st ++ [levelData level];
     ps_levelDataByteOffsets :=
       <[i := ToUint32 (ps_levelDataByteOffset st)]> (ps_levelDataByteOffsets st);
     ps_levelDataByteOffset :=
       ps_levelDataByteOffset st + byteLength (levelData level) |}.

(** [for (let i = k - 1; i >= 0; i--)]: [k] iterations are left. *)
Fixpoint pack_levels (lvls : list KTX2Level) (align : Z) (k : nat)
    (st : PackState) : PackState :=
  match k with
  | O => st
  | S i =>
      let st := pack_padding align st in
      match lvls !! i with
      | Some level => pack_levels lvls align i (pack_level i level st)
      | None => st
      end
  end.

Definition pack_init (container : KTX2Container) (start : Z) : PackState :=
  {| ps_levelData := [];
     ps_levelDataByteOffsets := replicate (length (levels container)) 0;
     ps_levelDataByteOffset := start |}.

(** An element read of [levelDataByteOffsets] fed to [BigInt]; [BigInt] of
    [undefined] throws. *)
Definition levelIndex_write (offsets : list Z) (i : nat) (level : KTX2Level)
    (view : list byte) : result (list byte) :=
  match offsets !! i with
  | None => Throw TypeError
  | Some off =>
      do view <- setBigUint64 (Z.of_nat i * 24 + 0) off view;
      do view <- setBigUint64 (Z.of_nat i * 24 + 8) (byteLength (levelData level)) view;
      setBigUint64 (Z.of_nat i * 24 + 16) (uncompressedByteLength level) view
  end.

Definition levelIndex (container : KTX2Container) (offsets : list Z)
  : result (list byte) :=
  for_indexed (levelIndex_write offsets) 0 (levels container)
    (ArrayBuffer (Z.of_nat (length (levels container)) * 3 * 8)).

(** *** Header *)

Definition headerBuffer (container : KTX2Container)
    (dfdOff : Z) (dfdBuf : list byte) (kvdOff : Z) (kvdBuf : list byte)
    (sgdOff : Z) (sgdBuf : list byte) : result (list byte) :=
  let view := ArrayBuffer HEADER_BYTE_LENGTH in
  do view <- setUint32 0 (vkFormat container) view;
  do view <- setUint32 4 (typeSize container) view;
  do view <- setUint32 8 (pixelWidth container) view;
  do view <- setUint32 12 (pixelHeight container) view;
  do view <- setUint32 16 (pixelDepth container) view;
  do view <- setUint32 20 (layerCount container) view;
  do view <- setUint32 24 (faceCount container) view;
  do view <- setUint32 28 (Z.of_nat (length (levels container))) view;
  do view <- setUint32 32 (supercompressionScheme container) view;
  do view <- setUint32 36 dfdOff view;
  do view <- setUint32 40 (byteLength dfdBuf) view;
  do view <- setUint32 44 kvdOff view;
  do view <- setUint32 48 (byteLength kvdBuf) view;
  do view <- setBigUint64 52 (if byteLength sgdBuf >? 0 then sgdOff else 0) view;
  setBigUint64 60 (byteLength sgdBuf) view.

(** *** The function *)

(** [new Uint8Array(KTX2_ID)] *)
Definition Uint8Array_from (a : list Z) : list byte :=
  map (fun v => byte_of_Z (ToUint8 v)) a.

Definition write (container : KTX2Container) (options : WriteOptions)
  : result (list byte) :=
  let options := merge_options DEFAULT_OPTIONS options in
  do sgdBuf <- sgdBuffer container;
  let kvdBuf := kvdBuffer container options in
  do dfd <- dfd_check container;
  do dfdBuf <- dfdBuffer dfd;
  let dfdOff := dfdByteOffset container in
  let kvdOff := kvdByteOffset container dfdBuf in
  let sgdOff := sgdByteOffset kvdOff kvdBuf sgdBuf in
  let start :=
    (if sgdOff =? 0 then kvdOff + byteLength kvdBuf else sgdOff)
    + byteLength sgdBuf in
  let packed :=
    pack_levels (levels container) (levelAlign container)
      (length (levels container)) (pack_init container start) in
  do levelIndexBuf <- levelIndex container (ps_levelDataByteOffsets packed);
  do headerBuf <- headerBuffer container dfdOff dfdBuf kvdOff kvdBuf sgdOff sgdBuf;
  Ok (concat
        ([Uint8Array_from KTX2_ID;
          headerBuf;
          levelIndexBuf;
          dfdBuf;
          kvdBuf;
          (if sgdOff >? 0
           then ArrayBuffer (sgdOff - (kvdOff + byteLength kvdBuf))
           else ArrayBuffer 0);
          sgdBuf]
         ++ ps_levelData packed)).


(** ** The file layout in the words of the spec

    The definitions of this part follow sections 4 and 6 of the spec: each
    block is the concatenation of its fields. They are compared with what
    [write] stores through its [DataView]s. *)

Definition u8 (v : Z) : list byte := le_bytes 1 v.
Definition u16le (v : Z) : list byte := le_bytes 2 v.
Definition u32le (v : Z) : list byte := le_bytes 4 v.
Definition u64le (v : Z) : list byte := le_bytes 8 v.

(** The byte stored for an array element, [0] when the element is absent. *)
Definition u8_elt (v : option Z) : list byte := u8 (ToUint8_elt v).

Definition spec_imageDesc (d : KTX2GlobalDataBasisLZImageDesc) : list byte :=
  u32le (imageFlags d) ++ u32le (rgbSliceByteOffset d)
  ++ u32le (rgbSliceByteLength d) ++ u32le (alphaSliceByteOffset d)
  ++ u32le (alphaSliceByteLength d).

Definition spec_sgd_header (g : KTX2GlobalDataBasisLZ) : list byte :=
  u16le (endpointCount g) ++ u16le (selectorCount g)
  ++ u32le (byteLength (endpointsData g))
  ++ u32le (byteLength (selectorsData g))
  ++ u32le (byteLength (tablesData g))
  ++ u32le (byteLength (extendedData g)).

Definition spec_sgd_block (g : KTX2GlobalDataBasisLZ) : list byte :=
  spec_sgd_header g
  ++ List.concat (map spec_imageDesc (imageDescs g))
  ++ endpointsData g ++ selectorsData g ++ tablesData g ++ extendedData g.

Definition spec_sgd (container : KTX2Container) : list byte :=
  match globalData container with
  | None => []
  | Some g => spec_sgd_block g
  end.

Definition spec_sample (sample : KTX2BasicFormatSample) : list byte :=
  u16le (bitOffset sample) ++ u8 (bitLength sample) ++ u8 (channelType sample)
  ++ u8_elt (samplePosition sample !! 0%nat)
  ++ u8_elt (samplePosition sample !! 1%nat)
  ++ u8_elt (samplePosition sample !! 2%nat)
  ++ u8_elt (samplePosition sample !! 3%nat)
  ++ u32le (sampleLower sample) ++ u32le (sampleUpper sample).

Definition spec_dfd_block (dfd : KTX2DataFormatDescriptorBasicFormat)
    (dim : list Z) : list byte :=
  u32le (28 + 16 * Z.of_nat (length (samples dfd)))
  ++ u16le (vendorId dfd) ++ u16le (descriptorType dfd)
  ++ u16le (versionNumber dfd)
  ++ u16le (24 + 16 * Z.of_nat (length (samples dfd)))
  ++ u8 (colorModel dfd) ++ u8 (colorPrimaries dfd)
  ++ u8 (transferFunction dfd) ++ u8 (flags dfd)
  ++ u8_elt (dim !! 0%nat) ++ u8_elt (dim !! 1%nat)
  ++ u8_elt (dim !! 2%nat) ++ u8_elt (dim !! 3%nat)
  ++ List.concat (map (fun i => u8_elt (bytesPlane dfd !! i)) (seq 0 8))
  ++ List.concat (map spec_sample (samples dfd)).

(** The layout plan of section 4.4. *)
Definition spec_dfdOffset (container : KTX2Container) : Z :=
  Z.of_nat (length KTX2_ID) + 68 + 24 * Z.of_nat (length (levels container)).

Definition spec_kvdOffset (container : KTX2Container)
    (dfd : KTX2DataFormatDescriptorBasicFormat) : Z :=
  spec_dfdOffset container + (28 + 16 * Z.of_nat (length (samples dfd))).

Definition spec_kvdEnd (container : KTX2Container) (options : WriteOptions)
    (dfd : KTX2DataFormatDescriptorBasicFormat) : Z :=
  spec_kvdOffset container dfd
  + byteLength (kvdBuffer container (merge_options DEFAULT_OPTIONS options)).

(** [v] rounded up to the next multiple of [n]; [v] itself for [n = 0]. *)
Definition round_up (v n : Z) : Z :=
  if n =? 0 then v else v + (n - v mod n) mod n.

Definition spec_sgdOffset (container : KTX2Container) (options : WriteOptions)
    (dfd : KTX2DataFormatDescriptorBasicFormat) : Z :=
  match globalData container with
  | None => 0
  | Some _ => round_up (spec_kvdEnd container options dfd) 8
  end.

(** The zero bytes between the end of the KVD and an SGD. *)
Definition spec_sgdPadding (container : KTX2Container) (options : WriteOptions)
    (dfd : KTX2DataFormatDescriptorBasicFormat) : Z :=
  match globalData container with
  | None => 0
  | Some _ => round_up (spec_kvdEnd container options dfd) 8
              - spec_kvdEnd container options dfd
  end.

(** Where the level data region starts: after the SGD. *)
Definition spec_levelsStart (container : KTX2Container) (options : WriteOptions)
    (dfd : KTX2DataFormatDescriptorBasicFormat) : Z :=
  spec_kvdEnd container options dfd
  + spec_sgdPadding container options dfd
  + byteLength (spec_sgd container).

(** The level packer of section 4.5, on the levels from some index on:
    [level_end] is the cursor once all of them are stored (the later a
    level is in the list, the earlier it is stored), [level_region] the
    bytes stored for them. *)
Fixpoint level_end (align start : Z) (lvls : list KTX2Level) : Z :=
  match lvls with
  | [] => start
  | level :: rest =>
      round_up (level_end align start rest) align + byteLength (levelData level)
  end.

Fixpoint level_region (align start : Z) (lvls : list KTX2Level) : list byte :=
  match lvls with
  | [] => []
  | level :: rest =>
      level_region align start rest
      ++ ArrayBuffer (round_up (level_end align start rest) align
                      - level_end align start rest)
      ++ levelData level
  end.

(** The byte offset at which the payload of level [i] is stored. *)
Definition level_offset (align start : Z) (lvls : list KTX2Level) (i : nat) : Z :=
  round_up (level_end align start (drop (S i) lvls)) align.

Definition spec_levelIndex_entry (align start : Z) (lvls : list KTX2Level)
    (i : nat) (level : KTX2Level) : list byte :=
  u64le (ToUint32 (level_offset align start lvls i))
  ++ u64le (byteLength (levelData level))
  ++ u64le (uncompressedByteLength level).

Definition spec_levelIndex (align start : Z) (lvls : list KTX2Level) : list byte :=
  List.concat (imap (spec_levelIndex_entry align start lvls) lvls).

Definition spec_header (container : KTX2Container) (options : WriteOptions)
    (dfd : KTX2DataFormatDescriptorBasicFormat) : list byte :=
  u32le (vkFormat container) ++ u32le (typeSize container)
  ++ u32le (pixelWidth container) ++ u32le (pixelHeight container)
  ++ u32le (pixelDepth container) ++ u32le (layerCount container)
  ++ u32le (faceCount container)
  ++ u32le (Z.of_nat (length (levels container)))
  ++ u32le (supercompressionScheme container)
  ++ u32le (spec_dfdOffset container)
  ++ u32le (28 + 16 * Z.of_nat (length (samples dfd)))
  ++ u32le (spec_kvdOffset container dfd)
  ++ u32le (byteLength (kvdBuffer container (merge_options DEFAULT_OPTIONS options)))
  ++ u64le (spec_sgdOffset container options dfd)
  ++ u64le (byteLength (spec_sgd container)).

(** The file of section 4.7. *)
Definition spec_file (container : KTX2Container) (options : WriteOptions)
    (dfd : KTX2DataFormatDescriptorBasicFormat) (dim : list Z) : list byte :=
  Uint8Array_from KTX2_ID
  ++ spec_header container options dfd
  ++ spec_levelIndex (levelAlign container)
       (spec_levelsStart container options dfd) (levels container)
  ++ spec_dfd_block dfd dim
  ++ kvdBuffer container (merge_options DEFAULT_OPTIONS options)
  ++ ArrayBuffer (spec_sgdPadding container options dfd)
  ++ spec_sgd container
  ++ level_region (levelAlign container)
       (spec_levelsStart container options dfd) (levels container).

(** ** Vocabulary of the claims *)

(** The two checks of [write] pass: the descriptor collection is one block
    [dfd] of the basic-format type, whose [texelBlockDimension] is the array
    [dim]. *)
Definition valid_container (container : KTX2Container)
    (dfd : KTX2DataFormatDescriptorBasicFormat) (dim : list Z) : Prop :=
  dataFormatDescriptor container = [dfd]
  /\ descriptorType dfd = KHR_DF_KHR_DESCRIPTORTYPE_BASICFORMAT
  /\ texelBlockDimension dfd = TBD_array dim.

(** Two containers with the same content: every field is the same, and the
    two [keyValue] objects have the same properties, in whatever order. *)
Definition same_container (c1 c2 : KTX2Container) : Prop :=
  vkFormat c1 = vkFormat c2
  /\ typeSize c1 = typeSize c2
  /\ pixelWidth c1 = pixelWidth c2
  /\ pixelHeight c1 = pixelHeight c2
  /\ pixelDepth c1 = pixelDepth c2
  /\ layerCount c1 = layerCount c2
  /\ faceCount c1 = faceCount c2
  /\ supercompressionScheme c1 = supercompressionScheme c2
  /\ levels c1 = levels c2
  /\ dataFormatDescriptor c1 = dataFormatDescriptor c2
  /\ globalData c1 = globalData c2
  /\ Permutation (obj_spread [] (keyValue c1)) (obj_spread [] (keyValue c2)).

(** Order of two entries by their keys, as code-unit strings and as UTF-8
    byte strings. *)
Definition key_lt (a b : jsstring * KVValue) : Prop :=
  js_string_lt (fst a) (fst b) = true.

(** [a] does not come after [b]. *)
Definition key_le (a b : jsstring * KVValue) : Prop :=
  js_string_gt (fst a) (fst b) = false.

(** A code unit that is not a surrogate: a scalar value of the Basic
    Multilingual Plane. *)
Definition is_scalar_unit (u : Z) : Prop :=
  0 <= u < 0xD800 \/ 0xE000 <= u < 0x10000.

Definition utf8_key_lt (a b : jsstring * KVValue) : Prop :=
  bytes_lt (encodeText (fst a)) (encodeText (fst b)) = true.

(** The file offset of the level index entry of level [i]. *)
Definition levelIndex_entry_offset (i : nat) : Z :=
  Z.of_nat (length KTX2_ID) + 68 + 24 * Z.of_nat i.

(** [write] calls [getBlockByteLength] for the scheme NONE and for no
    other (lines 173 to 175), after its two checks. The helper measures the
    payload of level 0 of the container: called on a container without
    levels it fails with a [TypeError] of its own, and [write] with it. A
    container is in the scope of the model of that call when the call, if
    there is one, has a level 0 to read. *)
Definition block_byte_length_readable (container : KTX2Container) : Prop :=
  supercompressionScheme container = KHR_SUPERCOMPRESSION_NONE ->
  levels container <> [].

(** The bytes a record holds for the value of an entry (a text is followed
    by [NUL], raw bytes are stored as they are), and the length the record
    declares: key, [NUL] and value, without the padding. *)
Definition kv_valueData (value : KVValue) : list byte :=
  match value with
  | KVString text => encodeText text ++ NUL
  | KVBytes bytes => bytes
  end.

Definition kv_byteLength (entry : jsstring * KVValue) : Z :=
  byteLength (encodeText (fst entry)) + 1 + byteLength (kv_valueData (snd entry)).

(** The end of what is stored before level [i]: the end of the payload of
    level [i + 1], or the start of the level data for the last level. *)
Definition level_gap_start (container : KTX2Container) (options : WriteOptions)
    (dfd : KTX2DataFormatDescriptorBasicFormat) (i : nat) : Z :=
  match levels container !! S i with
  | Some next =>
      level_offset (levelAlign container)
        (spec_levelsStart container options dfd) (levels container) (S i)
      + byteLength (levelData next)
  | None => spec_levelsStart container options dfd
  end.

(** The file offset of the record of entry [j] of the key/value data: the
    records of the entries before it lie between the start of the
    key/value data and it. *)
Definition kv_record_offset (container : KTX2Container) (options : WriteOptions)
    (dfd : KTX2DataFormatDescriptorBasicFormat) (j : nat) : Z :=
  spec_kvdOffset container dfd
  + byteLength
      (concat
         (map kvRecord
            (take j (keyValueList container
                       (merge_options DEFAULT_OPTIONS options))))).

(** * Properties *)

(** ** Bytes *)

Lemma Z_of_byte_range (b : byte) : 0 <= Z_of_byte b < 256.
Proof.
  unfold Z_of_byte. pose proof (Byte.to_N_bounded b). lia.
Qed.

Lemma Z_of_byte_of_Z (z : Z) : Z_of_byte (byte_of_Z z) = z mod 256.
Proof.
  unfold Z_of_byte, byte_of_Z.
  pose proof (Z.mod_pos_bound z 256 ltac:(lia)) as Hz.
  destruct (Byte.of_N (Z.to_N (z mod 256))) as [b|] eqn:E.
  - apply Byte.to_of_N in E. rewrite E. lia.
  - apply Byte.of_N_None_iff in E. lia.
Qed.

Lemma byte_of_Z_of_byte (b : byte) : byte_of_Z (Z_of_byte b) = b.
Proof.
  unfold byte_of_Z, Z_of_byte.
  pose proof (Byte.to_N_bounded b).
  rewrite Z.mod_small by lia. rewrite N2Z.id, Byte.of_to_N. reflexivity.
Qed.

Lemma Z_of_byte_inj (a b : byte) : Z_of_byte a = Z_of_byte b -> a = b.
Proof.
  intros H. rewrite <- (byte_of_Z_of_byte a), <- (byte_of_Z_of_byte b).
  now rewrite H.
Qed.

Lemma length_le_bytes (n : nat) (v : Z) : length (le_bytes n v) = n.
Proof.
  revert v; induction n as [|n IH]; intros v; simpl; [reflexivity|].
  now rewrite IH.
Qed.

Lemma le_value_le_bytes (n : nat) (v : Z) :
  le_value (le_bytes n v) = v mod 256 ^ Z.of_nat n.
Proof.
  revert v; induction n as [|n IH]; intros v.
  - simpl. now rewrite Z.mod_1_r.
  - cbn [le_bytes le_value]. rewrite Z_of_byte_of_Z, IH.
    rewrite Nat2Z.inj_succ, Z.pow_succ_r by lia.
    rewrite Z.rem_mul_r by lia. reflexivity.
Qed.

Lemma length_ArrayBuffer (n : Z) : length (ArrayBuffer n) = Z.to_nat n.
Proof. unfold ArrayBuffer. apply length_replicate. Qed.

Lemma byteLength_ArrayBuffer (n : Z) : 0 <= n -> byteLength (ArrayBuffer n) = n.
Proof. intros Hn. unfold byteLength. rewrite length_ArrayBuffer. lia. Qed.

Lemma ArrayBuffer_0 : ArrayBuffer 0 = [].
Proof. reflexivity. Qed.

(** ** Slices of a concatenation *)

Lemma slice_app_middle (pre mid post : list byte) (a b : Z) :
  a = Z.of_nat (length pre) ->
  b = a + Z.of_nat (length mid) ->
  slice (pre ++ mid ++ post) a b = mid.
Proof.
  intros -> ->. unfold slice.
  rewrite Nat2Z.id.
  replace (Z.to_nat (Z.of_nat (length pre) + Z.of_nat (length mid)
                     - Z.of_nat (length pre))) with (length mid) by lia.
  rewrite drop_app_length. apply take_app_length.
Qed.

(** ** DataView stores that fill a zeroed buffer front to back *)

Lemma dv_store_fill (off : Z) (bs done : list byte) (k : nat) :
  off = Z.of_nat (length done) ->
  (length bs <= k)%nat ->
  dv_store off bs (done ++ replicate k x00)
  = Ok ((done ++ bs) ++ replicate (k - length bs) x00).
Proof.
  intros -> Hk. unfold dv_store, byteLength.
  rewrite length_app, length_replicate.
  destruct (Z.leb_spec 0 (Z.of_nat (length done))); [|lia].
  destruct (Z.leb_spec (Z.of_nat (length done) + Z.of_nat (length bs))
                       (Z.of_nat (length done + k)%nat)); [|lia].
  cbn [andb]. f_equal.
  rewrite Nat2Z.id, take_app_length.
  rewrite drop_app_add by reflexivity.
  rewrite <- app_assoc. do 2 f_equal.
  rewrite drop_replicate. reflexivity.
Qed.

Lemma dv_store_fill_start (n : Z) : ArrayBuffer n = [] ++ replicate (Z.to_nat n) x00.
Proof. reflexivity. Qed.

Lemma le_bytes_congr (n : nat) (a b : Z) :
  a mod 256 ^ Z.of_nat n = b mod 256 ^ Z.of_nat n ->
  le_bytes n a = le_bytes n b.
Proof.
  revert a b; induction n as [|n IH]; intros a b H; [reflexivity|].
  rewrite Nat2Z.inj_succ, Z.pow_succ_r in H by lia.
  rewrite !Z.rem_mul_r in H by lia.
  pose proof (Z.mod_pos_bound a 256 ltac:(lia)) as Ba.
  pose proof (Z.mod_pos_bound b 256 ltac:(lia)) as Bb.
  assert (a mod 256 = b mod 256
          /\ (a / 256) mod 256 ^ Z.of_nat n = (b / 256) mod 256 ^ Z.of_nat n)
    as [E1 E2] by lia.
  cbn [le_bytes]. f_equal.
  - apply Z_of_byte_inj. now rewrite !Z_of_byte_of_Z.
  - now apply IH.
Qed.


Lemma le_bytes_ToUint8 v : le_bytes 1 (ToUint8 v) = u8 v.
Proof. apply le_bytes_congr. unfold ToUint8. apply Z.mod_mod. lia. Qed.

Lemma le_bytes_ToUint16 v : le_bytes 2 (ToUint16 v) = u16le v.
Proof. apply le_bytes_congr. unfold ToUint16. apply Z.mod_mod. lia. Qed.

Lemma le_bytes_ToUint32 v : le_bytes 4 (ToUint32 v) = u32le v.
Proof. apply le_bytes_congr. unfold ToUint32. apply Z.mod_mod. lia. Qed.

Lemma le_bytes_ToBigUint64 v : le_bytes 8 (ToBigUint64 v) = u64le v.
Proof. apply le_bytes_congr. unfold ToBigUint64. apply Z.mod_mod. lia. Qed.

(** A signed and an unsigned 32-bit store write the same four bytes. *)
Lemma le_bytes_ToInt32 v : le_bytes 4 (ToInt32 v) = u32le v.
Proof.
  apply le_bytes_congr. unfold ToInt32.
  change (256 ^ Z.of_nat 4) with (2 ^ 32).
  rewrite <- Zminus_mod_idemp_l, Z.mod_mod by lia.
  rewrite Zminus_mod_idemp_l. f_equal. lia.
Qed.

Lemma length_u8 v : length (u8 v) = 1%nat.
Proof. apply length_le_bytes. Qed.
Lemma length_u8_elt v : length (u8_elt v) = 1%nat.
Proof. apply length_le_bytes. Qed.
Lemma length_u16le v : length (u16le v) = 2%nat.
Proof. apply length_le_bytes. Qed.
Lemma length_u32le v : length (u32le v) = 4%nat.
Proof. apply length_le_bytes. Qed.
Lemma length_u64le v : length (u64le v) = 8%nat.
Proof. apply length_le_bytes. Qed.

Ltac len :=
  rewrite ?length_app, ?length_u8, ?length_u8_elt, ?length_u16le,
    ?length_u32le, ?length_u64le, ?length_le_bytes, ?length_replicate,
    ?length_ArrayBuffer;
  cbn [length]; lia.

(** One store of a chain of stores into a buffer filled so far up to the
    store's offset. *)
Ltac fill_step :=
  unfold setUint8, setUint8_elt, setUint16, setUint32, setInt32, setBigUint64;
  rewrite dv_store_fill by len;
  cbn [bind];
  rewrite ?le_bytes_ToUint8, ?le_bytes_ToUint16, ?le_bytes_ToUint32,
    ?le_bytes_ToInt32, ?le_bytes_ToBigUint64.

(** The buffer after the stores is the concatenation of what was stored. *)
Ltac fill_finish :=
  rewrite ?length_u8, ?length_u8_elt, ?length_u16le, ?length_u32le,
    ?length_u64le;
  rewrite <- ?app_assoc;
  repeat (f_equal; try lia).

(** The same when the stores have filled the whole buffer. *)
Ltac fill_close :=
  rewrite ?length_u8, ?length_u8_elt, ?length_u16le, ?length_u32le,
    ?length_u64le;
  match goal with
  | |- Ok (_ ++ replicate ?n _) = _ => replace n with 0%nat by lia
  end;
  cbn [replicate];
  rewrite app_nil_r, <- ?app_assoc, ?app_nil_l;
  reflexivity.

Lemma for_indexed_fill {A} (body : nat -> A -> list byte -> result (list byte))
    (enc : nat -> A -> list byte) (base width : nat) (l : list A) :
  forall (i : nat) (done : list byte) (k : nat),
  (forall j x done k,
      l !! j = Some x ->
      length done = (base + (i + j) * width)%nat ->
      (width <= k)%nat ->
      body (i + j)%nat x (done ++ replicate k x00)
      = Ok ((done ++ enc (i + j)%nat x) ++ replicate (k - width) x00)
      /\ length (enc (i + j)%nat x) = width) ->
  length done = (base + i * width)%nat ->
  (length l * width <= k)%nat ->
  for_indexed body i l (done ++ replicate k x00)
  = Ok ((done ++ List.concat (imap (fun j => enc (i + j)%nat) l))
        ++ replicate (k - length l * width) x00).
Proof.
  induction l as [|x l IH]; intros i done k Hbody Hdone Hk.
  - cbn. rewrite app_nil_r, Nat.sub_0_r. reflexivity.
  - cbn [for_indexed]. cbn [length] in Hk.
    destruct (Hbody 0%nat x done k) as [Hx Hlen];
      [reflexivity | lia | lia |].
    rewrite Nat.add_0_r in Hx, Hlen. rewrite Hx. cbn [bind].
    rewrite IH.
    + cbn [imap List.concat]. rewrite Nat.add_0_r.
      rewrite <- !app_assoc.
      replace (k - width - length l * width)%nat
        with (k - S (length l) * width)%nat by lia.
      do 5 f_equal. apply imap_ext. intros j y _. cbn. f_equal. lia.
    + intros j y done' k' Hj Hd Hk'.
      replace (S i + j)%nat with (i + S j)%nat by lia.
      apply Hbody; [exact Hj | lia | lia].
    + rewrite length_app, Hlen. lia.
    + lia.
Qed.

Lemma imap_const_map {A B} (f : A -> B) (l : list A) :
  imap (fun _ => f) l = map f l.
Proof.
  induction l as [|x l IH]; [reflexivity|].
  cbn [imap map]. f_equal. exact IH.
Qed.

(** ** The SGD block is the one the spec describes *)

Lemma length_spec_imageDesc d : length (spec_imageDesc d) = 20%nat.
Proof. unfold spec_imageDesc. len. Qed.

Lemma length_spec_sgd_header g : length (spec_sgd_header g) = 20%nat.
Proof. unfold spec_sgd_header. len. Qed.

Lemma length_concat_fixed {A} (f : A -> list byte) (w : nat) (l : list A) :
  (forall x, length (f x) = w) ->
  length (List.concat (map f l)) = (length l * w)%nat.
Proof.
  intros Hf. induction l as [|x l IH]; [reflexivity|].
  cbn [map List.concat length]. rewrite length_app, Hf, IH. lia.
Qed.

Lemma sgd_write_imageDesc_fill (i : nat) d (done : list byte) (k : nat) :
  length done = (20 + i * 20)%nat ->
  (20 <= k)%nat ->
  sgd_write_imageDesc i d (done ++ replicate k x00)
  = Ok ((done ++ spec_imageDesc d) ++ replicate (k - 20) x00).
Proof.
  intros Hdone Hk. unfold sgd_write_imageDesc, spec_imageDesc.
  do 5 fill_step. fill_finish.
Qed.

Lemma sgdHeaderBuffer_eq (g : KTX2GlobalDataBasisLZ) :
  sgdHeaderBuffer g
  = Ok (spec_sgd_header g ++ List.concat (map spec_imageDesc (imageDescs g))).
Proof.
  unfold sgdHeaderBuffer, spec_sgd_header.
  rewrite dv_store_fill_start.
  do 6 fill_step.
  rewrite (for_indexed_fill _ (fun _ => spec_imageDesc) 20 20).
  - rewrite imap_const_map. fill_close.
  - intros j d done k _ Hd Hk. split.
    + apply sgd_write_imageDesc_fill; lia.
    + apply length_spec_imageDesc.
  - len.
  - len.
Qed.

Lemma sgdBuffer_eq (container : KTX2Container) :
  sgdBuffer container = Ok (spec_sgd container).
Proof.
  unfold sgdBuffer, spec_sgd, spec_sgd_block.
  destruct (globalData container) as [g|]; [|reflexivity].
  rewrite sgdHeaderBuffer_eq. cbn [bind concat List.concat].
  rewrite app_nil_r, <- !app_assoc. reflexivity.
Qed.

(** ** The DFD block is the one the spec describes *)

Lemma length_spec_sample sample : length (spec_sample sample) = 16%nat.
Proof. unfold spec_sample. len. Qed.

Lemma dfd_write_sample_fill (i : nat) sample (done : list byte) (k : nat) :
  length done = (28 + i * 16)%nat ->
  (16 <= k)%nat ->
  dfd_write_sample i sample (done ++ replicate k x00)
  = Ok ((done ++ spec_sample sample) ++ replicate (k - 16) x00).
Proof.
  intros Hdone Hk. unfold dfd_write_sample, spec_sample, element.
  do 7 fill_step.
  destruct (sample_signed sample); do 2 fill_step; fill_finish.
Qed.

Lemma dfdBuffer_array (dfd : KTX2DataFormatDescriptorBasicFormat) (dim : list Z) :
  texelBlockDimension dfd = TBD_array dim ->
  dfdBuffer dfd = Ok (spec_dfd_block dfd dim).
Proof.
  intros Hdim. unfold dfdBuffer, spec_dfd_block, element.
  rewrite byteLength_ArrayBuffer by lia.
  rewrite dv_store_fill_start.
  do 9 fill_step. rewrite Hdim. do 4 fill_step.
  cbn [for_range]. do 8 fill_step.
  rewrite (for_indexed_fill _ (fun _ => spec_sample) 28 16).
  - rewrite imap_const_map. cbn [seq map List.concat].
    replace (28 + Z.of_nat (length (samples dfd)) * 16)
      with (28 + 16 * Z.of_nat (length (samples dfd))) by lia.
    replace (24 + Z.of_nat (length (samples dfd)) * 16)
      with (24 + 16 * Z.of_nat (length (samples dfd))) by lia.
    fill_close.
  - intros j sample done k _ Hd Hk. split.
    + apply dfd_write_sample_fill; lia.
    + apply length_spec_sample.
  - len.
  - len.
Qed.

Lemma dfdBuffer_number (dfd : KTX2DataFormatDescriptorBasicFormat) (n : Z) :
  texelBlockDimension dfd = TBD_number n ->
  dfdBuffer dfd
  = Throw (Error "texelBlockDimension is now an array. For dimensionality `d`, set `d - 1`.").
Proof.
  intros Hdim. unfold dfdBuffer.
  rewrite dv_store_fill_start.
  do 9 fill_step. rewrite Hdim. reflexivity.
Qed.

Lemma length_spec_dfd_block dfd dim :
  length (spec_dfd_block dfd dim) = (28 + 16 * length (samples dfd))%nat.
Proof.
  unfold spec_dfd_block. cbn [seq map List.concat].
  rewrite !length_app, (length_concat_fixed _ 16) by apply length_spec_sample.
  len.
Qed.

(** ** The header *)

Lemma headerBuffer_eq container dfdOff dfdBuf kvdOff kvdBuf sgdOff sgdBuf :
  headerBuffer container dfdOff dfdBuf kvdOff kvdBuf sgdOff sgdBuf
  = Ok (u32le (vkFormat container) ++ u32le (typeSize container)
        ++ u32le (pixelWidth container) ++ u32le (pixelHeight container)
        ++ u32le (pixelDepth container) ++ u32le (layerCount container)
        ++ u32le (faceCount container)
        ++ u32le (Z.of_nat (length (levels container)))
        ++ u32le (supercompressionScheme container)
        ++ u32le dfdOff ++ u32le (byteLength dfdBuf)
        ++ u32le kvdOff ++ u32le (byteLength kvdBuf)
        ++ u64le (if byteLength sgdBuf >? 0 then sgdOff else 0)
        ++ u64le (byteLength sgdBuf)).
Proof.
  unfold headerBuffer.
  rewrite dv_store_fill_start.
  change (Z.to_nat HEADER_BYTE_LENGTH) with 68%nat.
  do 15 fill_step. fill_close.
Qed.

(** ** Rounding up *)

Lemma round_up_spec (v n : Z) :
  0 < n ->
  v <= round_up v n < v + n /\ (round_up v n) mod n = 0.
Proof.
  intros Hn. unfold round_up.
  destruct (Z.eqb_spec n 0) as [->|_]; [lia|].
  pose proof (Z.mod_pos_bound v n Hn) as Hv.
  destruct (Z.eq_dec (v mod n) 0) as [E|E].
  - rewrite E, Z.sub_0_r, Z_mod_same_full. split; [lia|].
    now rewrite Z.add_0_r.
  - rewrite (Z.mod_small (n - v mod n) n) by lia. split; [lia|].
    rewrite (Z.div_mod v n) at 1 by lia.
    replace (n * (v / n) + v mod n + (n - v mod n)) with ((v / n + 1) * n) by lia.
    apply Z_mod_mult.
Qed.

Lemma round_up_ge (v n : Z) : 0 <= n -> v <= round_up v n.
Proof.
  intros Hn. destruct (Z.eq_dec n 0) as [->|Hn0].
  - unfold round_up. cbn. lia.
  - apply round_up_spec. lia.
Qed.

Lemma round_up_0 (v : Z) : round_up v 0 = v.
Proof. reflexivity. Qed.

(** ** The level packer *)

Lemma level_end_ge (align start : Z) (lvls : list KTX2Level) :
  0 <= align -> start <= level_end align start lvls.
Proof.
  intros Ha. induction lvls as [|level rest IH]; cbn [level_end]; [lia|].
  pose proof (round_up_ge (level_end align start rest) align Ha).
  unfold byteLength. lia.
Qed.

Lemma pack_padding_eq (align : Z) (st : PackState) :
  0 <= align -> 0 <= ps_levelDataByteOffset st ->
  concat (ps_levelData (pack_padding align st))
  = concat (ps_levelData st)
    ++ ArrayBuffer (round_up (ps_levelDataByteOffset st) align
                    - ps_levelDataByteOffset st)
  /\ ps_levelDataByteOffsets (pack_padding align st) = ps_levelDataByteOffsets st
  /\ ps_levelDataByteOffset (pack_padding align st)
     = round_up (ps_levelDataByteOffset st) align.
Proof.
  intros Ha Hc. unfold pack_padding, js_rem, truthy, round_up, getPadding.
  destruct (Z.eqb_spec align 0) as [->|Hne].
  - rewrite Z.sub_diag, ArrayBuffer_0, app_nil_r. auto.
  - rewrite Z.rem_mod_nonneg by lia.
    destruct (Z.eqb_spec (ps_levelDataByteOffset st mod align) 0) as [E|E];
      cbn [negb].
    + rewrite E, Z.sub_0_r, Z_mod_same_full, Z.add_0_r, Z.sub_diag.
      rewrite ArrayBuffer_0, app_nil_r. auto.
    + cbn [ps_levelData ps_levelDataByteOffsets ps_levelDataByteOffset].
      unfold concat. rewrite concat_app. cbn [List.concat].
      rewrite app_nil_r. repeat split. do 2 f_equal. lia.
Qed.

Lemma pack_levels_spec (lvls : list KTX2Level) (align start : Z) :
  0 <= align -> 0 <= start ->
  forall (k : nat) (st : PackState),
  (k <= length lvls)%nat ->
  ps_levelDataByteOffset st = level_end align start (drop k lvls) ->
  concat (ps_levelData st) = level_region align start (drop k lvls) ->
  concat (ps_levelData (pack_levels lvls align k st))
  = level_region align start lvls
  /\ forall j,
      ps_levelDataByteOffsets (pack_levels lvls align k st) !! j
      = if (j <? k)%nat
        then (fun _ => ToUint32 (level_offset align start lvls j))
             <$> ps_levelDataByteOffsets st !! j
        else ps_levelDataByteOffsets st !! j.
Proof.
  intros Ha Hs. induction k as [|i IH]; intros st Hk Hcur Hdata.
  - cbn [pack_levels]. rewrite drop_0 in Hdata. split; [exact Hdata|].
    intros j. reflexivity.
  - cbn [pack_levels].
    destruct (lookup_lt_is_Some_2 lvls i ltac:(lia)) as [level Hlevel].
    rewrite Hlevel.
    pose proof (level_end_ge align start (drop (S i) lvls) Ha) as Hge.
    destruct (pack_padding_eq align st Ha ltac:(lia)) as (Hp1 & Hp2 & Hp3).
    pose proof (drop_S lvls level i Hlevel) as Hdrop.
    destruct (IH (pack_level i level (pack_padding align st))) as [Hr Ho].
    + lia.
    + cbn [pack_level ps_levelDataByteOffset]. rewrite Hp3, Hcur, Hdrop.
      reflexivity.
    + cbn [pack_level ps_levelData]. unfold concat in *.
      rewrite concat_app, Hp1, Hdata, Hcur, Hdrop. cbn [List.concat level_region].
      rewrite app_nil_r, <- app_assoc. reflexivity.
    + split; [exact Hr|]. intros j. rewrite Ho.
      cbn [pack_level ps_levelDataByteOffsets]. rewrite Hp2, Hp3, Hcur.
      destruct (Nat.ltb_spec j i) as [Hji|Hji].
      * destruct (Nat.ltb_spec j (S i)); [|lia].
        rewrite list_lookup_insert_ne by lia. reflexivity.
      * destruct (Nat.ltb_spec j (S i)) as [Hjs|Hjs].
        -- assert (j = i) as -> by lia.
           destruct (ps_levelDataByteOffsets st !! i) as [x|] eqn:Ex.
           ++ rewrite list_lookup_insert_eq by (eapply lookup_lt_Some; eauto).
              reflexivity.
           ++ rewrite list_insert_ge by (now apply lookup_ge_None).
              rewrite Ex. reflexivity.
        -- rewrite list_lookup_insert_ne by lia. reflexivity.
Qed.

Lemma pack_levels_init (container : KTX2Container) (align start : Z) :
  0 <= align -> 0 <= start ->
  let packed := pack_levels (levels container) align
                  (length (levels container)) (pack_init container start) in
  concat (ps_levelData packed) = level_region align start (levels container)
  /\ forall j, (j < length (levels container))%nat ->
       ps_levelDataByteOffsets packed !! j
       = Some (ToUint32 (level_offset align start (levels container) j)).
Proof.
  intros Ha Hs packed.
  destruct (pack_levels_spec (levels container) align start Ha Hs
              (length (levels container)) (pack_init container start))
    as [Hr Ho].
  - lia.
  - rewrite drop_all. reflexivity.
  - rewrite drop_all. reflexivity.
  - split; [exact Hr|]. intros j Hj. subst packed. rewrite Ho.
    destruct (Nat.ltb_spec j (length (levels container))); [|lia].
    cbn [pack_init ps_levelDataByteOffsets].
    rewrite lookup_replicate_2 by lia. reflexivity.
Qed.

Lemma length_spec_levelIndex_entry align start lvls i level :
  length (spec_levelIndex_entry align start lvls i level) = 24%nat.
Proof. unfold spec_levelIndex_entry. len. Qed.

Lemma levelIndex_eq (container : KTX2Container) (align start : Z)
    (offsets : list Z) :
  (forall j, (j < length (levels container))%nat ->
     offsets !! j
     = Some (ToUint32 (level_offset align start (levels container) j))) ->
  levelIndex container offsets
  = Ok (spec_levelIndex align start (levels container)).
Proof.
  intros Hoff. unfold levelIndex, spec_levelIndex.
  rewrite dv_store_fill_start.
  rewrite (for_indexed_fill _
             (spec_levelIndex_entry align start (levels container)) 0 24).
  - cbn [Nat.add]. fill_close.
  - intros j level done k Hj Hd Hk. cbn [Nat.add]. split.
    + unfold levelIndex_write, spec_levelIndex_entry.
      rewrite Hoff by (eapply lookup_lt_Some; eauto).
      do 3 fill_step. fill_finish.
    + apply length_spec_levelIndex_entry.
  - reflexivity.
  - len.
Qed.

(** ** The layout plan *)

Lemma byteLength_nonneg (b : list byte) : 0 <= byteLength b.
Proof. unfold byteLength. lia. Qed.

Lemma byteLength_spec_dfd_block dfd dim :
  byteLength (spec_dfd_block dfd dim) = 28 + 16 * Z.of_nat (length (samples dfd)).
Proof. unfold byteLength. rewrite length_spec_dfd_block. lia. Qed.

Lemma dfdByteOffset_eq container : dfdByteOffset container = spec_dfdOffset container.
Proof.
  unfold dfdByteOffset, spec_dfdOffset.
  change HEADER_BYTE_LENGTH with 68. lia.
Qed.

Lemma byteLength_spec_sgd_pos container g :
  globalData container = Some g -> 20 <= byteLength (spec_sgd container).
Proof.
  intros Hg. unfold spec_sgd, spec_sgd_block, byteLength. rewrite Hg.
  rewrite length_app, length_spec_sgd_header. lia.
Qed.

Lemma spec_kvdEnd_pos container options dfd :
  96 <= spec_kvdEnd container options dfd.
Proof.
  unfold spec_kvdEnd, spec_kvdOffset, spec_dfdOffset, byteLength. lia.
Qed.

Lemma sgdByteOffset_eq container options dfd dim :
  sgdByteOffset (kvdByteOffset container (spec_dfd_block dfd dim))
    (kvdBuffer container (merge_options DEFAULT_OPTIONS options))
    (spec_sgd container)
  = spec_sgdOffset container options dfd.
Proof.
  unfold sgdByteOffset, spec_sgdOffset, kvdByteOffset.
  rewrite dfdByteOffset_eq, byteLength_spec_dfd_block.
  fold (spec_kvdOffset container dfd). fold (spec_kvdEnd container options dfd).
  pose proof (spec_kvdEnd_pos container options dfd) as Hpos.
  destruct (globalData container) as [g|] eqn:Hg.
  - pose proof (byteLength_spec_sgd_pos container g Hg) as Hlen.
    destruct (Z.gtb_spec (byteLength (spec_sgd container)) 0); [|lia].
    rewrite Z.rem_mod_nonneg by lia. unfold round_up. cbn [Z.eqb].
    destruct (Z.eqb_spec (spec_kvdEnd container options dfd mod 8) 0) as [E|E];
      cbn [negb].
    + rewrite E, Z.sub_0_r, Z_mod_same_full. lia.
    + pose proof (Z.mod_pos_bound (spec_kvdEnd container options dfd) 8 ltac:(lia)).
      rewrite (Z.mod_small (8 - _) 8) by lia. reflexivity.
  - unfold spec_sgd. rewrite Hg. reflexivity.
Qed.

Lemma levelAlign_nonneg container : 0 <= levelAlign container.
Proof.
  unfold levelAlign, leastCommonMultiple.
  destruct (supercompressionScheme container =? KHR_SUPERCOMPRESSION_NONE);
    [apply Z.lcm_nonneg | lia].
Qed.

Lemma spec_sgdPadding_nonneg container options dfd :
  0 <= spec_sgdPadding container options dfd.
Proof.
  unfold spec_sgdPadding. destruct (globalData container); [|lia].
  pose proof (round_up_ge (spec_kvdEnd container options dfd) 8 ltac:(lia)). lia.
Qed.

Lemma spec_levelsStart_nonneg container options dfd :
  0 <= spec_levelsStart container options dfd.
Proof.
  unfold spec_levelsStart.
  pose proof (spec_kvdEnd_pos container options dfd).
  pose proof (spec_sgdPadding_nonneg container options dfd).
  pose proof (byteLength_nonneg (spec_sgd container)). lia.
Qed.

Lemma levelsStart_eq container options dfd :
  (if spec_sgdOffset container options dfd =? 0
   then spec_kvdEnd container options dfd
   else spec_sgdOffset container options dfd)
  + byteLength (spec_sgd container)
  = spec_levelsStart container options dfd.
Proof.
  unfold spec_levelsStart, spec_sgdOffset, spec_sgdPadding.
  pose proof (spec_kvdEnd_pos container options dfd) as Hpos.
  destruct (globalData container) as [g|].
  - pose proof (round_up_ge (spec_kvdEnd container options dfd) 8 ltac:(lia)).
    destruct (Z.eqb_spec (round_up (spec_kvdEnd container options dfd) 8) 0); lia.
  - cbn [Z.eqb]. lia.
Qed.

Lemma sgdPadding_eq container options dfd :
  (if spec_sgdOffset container options dfd >? 0
   then ArrayBuffer (spec_sgdOffset container options dfd
                     - spec_kvdEnd container options dfd)
   else ArrayBuffer 0)
  = ArrayBuffer (spec_sgdPadding container options dfd).
Proof.
  unfold spec_sgdOffset, spec_sgdPadding.
  pose proof (spec_kvdEnd_pos container options dfd) as Hpos.
  destruct (globalData container) as [g|]; [|reflexivity].
  pose proof (round_up_ge (spec_kvdEnd container options dfd) 8 ltac:(lia)).
  destruct (Z.gtb_spec (round_up (spec_kvdEnd container options dfd) 8) 0);
    [reflexivity | lia].
Qed.

Lemma header_sgdOffset_eq container options dfd :
  (if byteLength (spec_sgd container) >? 0
   then spec_sgdOffset container options dfd else 0)
  = spec_sgdOffset container options dfd.
Proof.
  destruct (Z.gtb_spec (byteLength (spec_sgd container)) 0) as [H|H];
    [reflexivity|].
  unfold spec_sgdOffset. destruct (globalData container) as [g|] eqn:Hg;
    [|reflexivity].
  pose proof (byteLength_spec_sgd_pos container g Hg). lia.
Qed.

(** ** What [write] returns *)

(** A container that passes the two checks of [write] is serialized to the
    file of the spec. *)
Lemma write_ok (container : KTX2Container) (options : WriteOptions)
    (dfd : KTX2DataFormatDescriptorBasicFormat) (dim : list Z) :
  dataFormatDescriptor container = [dfd] ->
  descriptorType dfd = KHR_DF_KHR_DESCRIPTORTYPE_BASICFORMAT ->
  texelBlockDimension dfd = TBD_array dim ->
  write container options = Ok (spec_file container options dfd dim).
Proof.
  intros Hdfd Htype Hdim. unfold write.
  rewrite sgdBuffer_eq. cbn [bind].
  unfold dfd_check. rewrite Hdfd, Htype, Z.eqb_refl. cbn [negb bind].
  rewrite (dfdBuffer_array dfd dim Hdim). cbn [bind].
  rewrite sgdByteOffset_eq.
  unfold kvdByteOffset. rewrite dfdByteOffset_eq, byteLength_spec_dfd_block.
  fold (spec_kvdOffset container dfd). fold (spec_kvdEnd container options dfd).
  rewrite levelsStart_eq, sgdPadding_eq.
  destruct (pack_levels_init container (levelAlign container)
              (spec_levelsStart container options dfd)
              (levelAlign_nonneg container)
              (spec_levelsStart_nonneg container options dfd)) as [Hr Ho].
  rewrite (levelIndex_eq container (levelAlign container)
             (spec_levelsStart container options dfd) _ Ho).
  cbn [bind].
  rewrite headerBuffer_eq. cbn [bind].
  rewrite header_sgdOffset_eq, byteLength_spec_dfd_block.
  unfold spec_file, spec_header, concat in *.
  rewrite concat_app, Hr. cbn [List.concat].
  rewrite app_nil_r, <- !app_assoc. reflexivity.
Qed.

(** ** Strings: the order [sort] compares keys by *)

Lemma js_string_eqb_eq (a b : jsstring) : js_string_eqb a b = true <-> a = b.
Proof.
  revert b; induction a as [|x a IH]; intros [|y b]; cbn; try easy.
  rewrite andb_true_iff, Z.eqb_eq, IH. split.
  - intros [-> ->]. reflexivity.
  - intros [= -> ->]. auto.
Qed.

Lemma js_string_eqb_refl (a : jsstring) : js_string_eqb a a = true.
Proof. now apply js_string_eqb_eq. Qed.

Lemma js_string_eqb_neq (a b : jsstring) : js_string_eqb a b = false <-> a <> b.
Proof.
  rewrite <- js_string_eqb_eq. destruct (js_string_eqb a b); split; congruence.
Qed.

Lemma js_string_lt_irrefl (a : jsstring) : js_string_lt a a = false.
Proof.
  induction a as [|x a IH]; [reflexivity|].
  cbn. rewrite Z.ltb_irrefl. exact IH.
Qed.

Lemma js_string_lt_trans (a b c : jsstring) :
  js_string_lt a b = true -> js_string_lt b c = true -> js_string_lt a c = true.
Proof.
  revert b c; induction a as [|x a IH]; intros [|y b] [|z c]; cbn; try easy.
  destruct (Z.ltb_spec x y), (Z.ltb_spec y x), (Z.ltb_spec y z),
    (Z.ltb_spec z y), (Z.ltb_spec x z), (Z.ltb_spec z x);
    try easy; try lia.
  apply IH.
Qed.

Lemma js_string_lt_total (a b : jsstring) :
  js_string_lt a b = false -> js_string_lt b a = false -> a = b.
Proof.
  revert b; induction a as [|x a IH]; intros [|y b]; cbn; try easy.
  destruct (Z.ltb_spec x y), (Z.ltb_spec y x); try easy; try lia.
  intros Hab Hba. f_equal; [lia | now apply IH].
Qed.

Lemma js_string_lt_asym (a b : jsstring) :
  js_string_lt a b = true -> js_string_lt b a = false.
Proof.
  intros Hab. destruct (js_string_lt b a) eqn:Hba; [|reflexivity].
  pose proof (js_string_lt_trans a b a Hab Hba) as H.
  now rewrite js_string_lt_irrefl in H.
Qed.

(** ** [Array.prototype.sort] with the comparator of [write] *)

Lemma sort_insert_perm {A} (cmp : A -> A -> Z) (x : A) (l : list A) :
  Permutation (sort_insert cmp x l) (x :: l).
Proof.
  induction l as [|y l IH]; cbn; [reflexivity|].
  destruct (cmp x y <? 0); [reflexivity|].
  rewrite IH. apply perm_swap.
Qed.

Lemma Array_sort_perm {A} (cmp : A -> A -> Z) (l : list A) :
  Permutation (Array_sort cmp l) l.
Proof.
  unfold Array_sort.
  enough (forall acc, Permutation (fold_left (fun acc x => sort_insert cmp x acc) l acc)
                        (acc ++ l)) as H by apply (H []).
  induction l as [|x l IH]; intros acc; cbn.
  - now rewrite app_nil_r.
  - rewrite IH, sort_insert_perm. apply Permutation_middle.
Qed.

Lemma key_le_trans a b c : key_le a b -> key_le b c -> key_le a c.
Proof.
  unfold key_le, js_string_gt. intros Hab Hbc.
  destruct (js_string_lt (fst c) (fst a)) eqn:Hca; [|reflexivity].
  destruct (js_string_lt (fst b) (fst c)) eqn:Hbc'.
  - pose proof (js_string_lt_trans _ _ _ Hbc' Hca). congruence.
  - pose proof (js_string_lt_total _ _ Hbc Hbc') as E.
    rewrite E in Hca. congruence.
Qed.

Lemma compare_keys_neg a b : (compare_keys a b <? 0) = true <-> key_le a b.
Proof.
  unfold compare_keys, key_le. destruct (js_string_gt (fst a) (fst b)); easy.
Qed.

Lemma sort_insert_sorted x l :
  StronglySorted key_le l -> StronglySorted key_le (sort_insert compare_keys x l).
Proof.
  induction 1 as [|y l Hl IH Hy]; cbn.
  - repeat constructor.
  - destruct (compare_keys x y <? 0) eqn:E.
    + apply compare_keys_neg in E. constructor.
      * now constructor.
      * constructor; [exact E|].
        eapply Forall_impl; [exact Hy|]. intros z Hz. cbn in Hz.
        eapply key_le_trans; eauto.
    + assert (key_le y x) as Hyx.
      { unfold key_le, js_string_gt.
        unfold compare_keys, js_string_gt in E.
        destruct (js_string_lt (fst y) (fst x)) eqn:E1; [|discriminate].
        now apply js_string_lt_asym. }
      constructor; [exact IH|].
      rewrite (sort_insert_perm compare_keys x l). now constructor.
Qed.

Lemma Array_sort_sorted l : StronglySorted key_le (Array_sort compare_keys l).
Proof.
  unfold Array_sort.
  enough (forall acc, StronglySorted key_le acc ->
            StronglySorted key_le
              (fold_left (fun acc x => sort_insert compare_keys x acc) l acc)) as H
    by (apply H; constructor).
  induction l as [|x l IH]; intros acc Hacc; cbn; [exact Hacc|].
  apply IH, sort_insert_sorted, Hacc.
Qed.

Lemma sorted_distinct_keys (l : list (jsstring * KVValue)) :
  StronglySorted key_le l -> NoDup (map fst l) -> StronglySorted key_lt l.
Proof.
  induction 1 as [|x l Hl IH Hx]; intros Hnd; [constructor|].
  cbn in Hnd. apply NoDup_cons in Hnd as [Hx' Hnd].
  constructor; [now apply IH|].
  rewrite Forall_forall in *. intros y Hy. specialize (Hx y Hy).
  unfold key_le, js_string_gt, key_lt in *.
  destruct (js_string_lt (fst x) (fst y)) eqn:E; [reflexivity|].
  pose proof (js_string_lt_total _ _ E Hx) as Heq.
  exfalso. apply Hx'. rewrite Heq. apply list_elem_of_fmap_2. exact Hy.
Qed.

(** ** Objects *)

Lemma obj_set_fresh {V} (k : jsstring) (v : V) (o : JsObject V) :
  k ∉ map fst o -> obj_set k v o = o ++ [(k, v)].
Proof.
  induction o as [|[k' v'] o IH]; cbn; [reflexivity|].
  intros Hk. apply not_elem_of_cons in Hk as [Hne Hk].
  apply js_string_eqb_neq in Hne. rewrite Hne. f_equal. now apply IH.
Qed.

Lemma obj_set_keys_present {V} (k : jsstring) (v : V) (o : JsObject V) :
  k ∈ map fst o -> map fst (obj_set k v o) = map fst o.
Proof.
  induction o as [|[k' v'] o IH]; cbn; intros Hk.
  - now apply elem_of_nil in Hk.
  - destruct (js_string_eqb k k') eqn:E; [reflexivity|].
    apply js_string_eqb_neq in E. cbn. f_equal. apply IH.
    apply elem_of_cons in Hk as [Hk|Hk]; [contradiction|exact Hk].
Qed.

Lemma obj_set_nodup {V} (k : jsstring) (v : V) (o : JsObject V) :
  NoDup (map fst o) -> NoDup (map fst (obj_set k v o)).
Proof.
  intros Hnd. destruct (decide (k ∈ map fst o)) as [Hin|Hnin].
  - now rewrite obj_set_keys_present.
  - rewrite obj_set_fresh, map_app by exact Hnin. cbn.
    apply NoDup_app. repeat split; [exact Hnd| |apply NoDup_singleton].
    intros x Hx Hx'. apply list_elem_of_singleton in Hx'. now subst.
Qed.

Lemma obj_set_elem {V} (k : jsstring) (v : V) (o : JsObject V) k' v' :
  NoDup (map fst o) ->
  (k', v') ∈ obj_set k v o
  <-> (k' = k /\ v' = v) \/ (k' <> k /\ (k', v') ∈ o).
Proof.
  induction o as [|[k0 v0] o IH]; cbn; intros Hnd.
  - rewrite list_elem_of_singleton. split.
    + intros [= -> ->]. now left.
    + intros [[-> ->]|[_ H]]; [reflexivity|now apply elem_of_nil in H].
  - apply NoDup_cons in Hnd as [Hk0 Hnd].
    destruct (js_string_eqb k k0) eqn:E.
    + apply js_string_eqb_eq in E. subst k0.
      rewrite !elem_of_cons. split.
      * intros [[= -> ->]|H]; [now left|right].
        split; [|now right]. intros ->. apply Hk0.
        apply (list_elem_of_fmap_2 fst) in H. exact H.
      * intros [[-> ->]|[Hne [[= -> ->]|H]]];
          [now left | contradiction | now right].
    + apply js_string_eqb_neq in E.
      rewrite !elem_of_cons, (IH Hnd). split.
      * intros [[= -> ->]|[[-> ->]|[Hne H]]].
        -- right. split; [congruence|now left].
        -- now left.
        -- right. split; [exact Hne|now right].
      * intros [[-> ->]|[Hne [[= -> ->]|H]]].
        -- right. now left.
        -- now left.
        -- right. right. now split.
Qed.

Lemma obj_spread_nodup {V} (target source : JsObject V) :
  NoDup (map fst target) -> NoDup (map fst (obj_spread target source)).
Proof.
  unfold obj_spread. revert target.
  induction source as [|[k v] source IH]; intros target Hnd; cbn; [exact Hnd|].
  apply IH, obj_set_nodup, Hnd.
Qed.

(** Spreading an object into an empty literal copies it. *)
Lemma obj_spread_copy {V} (target source : JsObject V) :
  NoDup (map fst (target ++ source)) -> obj_spread target source = target ++ source.
Proof.
  unfold obj_spread. revert target.
  induction source as [|[k v] source IH]; intros target Hnd; cbn.
  - now rewrite app_nil_r.
  - rewrite obj_set_fresh.
    + rewrite IH; rewrite <- app_assoc; [reflexivity|exact Hnd].
    + rewrite map_app in Hnd. cbn in Hnd.
      apply NoDup_app in Hnd as (_ & Hdisj & _).
      intros Hk. apply (Hdisj k Hk). now left.
Qed.

(** ** The key/value entries *)

Lemma keyValueList_elem container options e :
  e ∈ keyValueList container options
  <-> e ∈ obj_spread (obj_spread [] (keyValue container))
            (if negb (truthy_flag (keepWriter options))
             then [(KTXwriter, KVString KTX_WRITER)] else []).
Proof.
  unfold keyValueList, Object_entries.
  now rewrite (Array_sort_perm compare_keys).
Qed.

Lemma keyValueList_nodup container options :
  NoDup (map fst (keyValueList container options)).
Proof.
  unfold keyValueList, Object_entries.
  rewrite (Array_sort_perm compare_keys).
  apply obj_spread_nodup, obj_spread_nodup. constructor.
Qed.

Lemma keyValueList_sorted container options :
  StronglySorted key_lt (keyValueList container options).
Proof.
  apply sorted_distinct_keys; [apply Array_sort_sorted|apply keyValueList_nodup].
Qed.

Lemma kvdBuffer_elem container options e :
  e ∈ keyValueList container options ->
  exists pre post, kvdBuffer container options = pre ++ kvRecord e ++ post.
Proof.
  intros He. apply list_elem_of_split in He as (l1 & l2 & Hl).
  unfold kvdBuffer, concat. rewrite Hl, map_app, concat_app. cbn.
  eauto.
Qed.

Lemma merged_keepWriter options :
  truthy_flag (keepWriter (merge_options DEFAULT_OPTIONS options))
  = truthy_flag (keepWriter options).
Proof. unfold merge_options. cbn. now destruct (keepWriter options). Qed.

(** C1 (as amended). Without [keepWriter], the only "KTXwriter" entry that
    is serialized holds the generated writer string, whatever "KTXwriter"
    value the caller supplied: the generated entry is spread last and
    overrides it. The caller's other entries are kept. With
    [keepWriter = true] nothing is generated and the caller's entries,
    a "KTXwriter" entry included, are the ones serialized. *)
Theorem kvd_writer_entry (container : KTX2Container) (options : WriteOptions) :
  (keepWriter options <> Some true ->
     (forall v, (KTXwriter, v) ∈ keyValueList container
                                  (merge_options DEFAULT_OPTIONS options)
                <-> v = KVString KTX_WRITER)
     /\ (forall k v, k <> KTXwriter ->
           (k, v) ∈ keyValueList container (merge_options DEFAULT_OPTIONS options)
           <-> (k, v) ∈ obj_spread [] (keyValue container))
     /\ exists pre post,
          kvdBuffer container (merge_options DEFAULT_OPTIONS options)
          = pre ++ kvRecord (KTXwriter, KVString KTX_WRITER) ++ post)
  /\ (keepWriter options = Some true ->
        forall k v,
          (k, v) ∈ keyValueList container (merge_options DEFAULT_OPTIONS options)
          <-> (k, v) ∈ obj_spread [] (keyValue container)).
Proof.
  assert (NoDup (map fst (obj_spread [] (keyValue container)))) as Hnd
    by (apply obj_spread_nodup; constructor).
  split.
  - intros Hkeep.
    assert (truthy_flag (keepWriter (merge_options DEFAULT_OPTIONS options)) = false)
      as Hflag.
    { rewrite merged_keepWriter.
      destruct (keepWriter options) as [[|]|]; cbn; congruence. }
    assert (forall k v,
              (k, v) ∈ keyValueList container (merge_options DEFAULT_OPTIONS options)
              <-> (k = KTXwriter /\ v = KVString KTX_WRITER)
                  \/ (k <> KTXwriter /\ (k, v) ∈ obj_spread [] (keyValue container)))
      as Hchar.
    { intros k v. rewrite keyValueList_elem, Hflag. cbn [negb].
      unfold obj_spread at 1. cbn [fold_left fst snd].
      now apply obj_set_elem. }
    split; [|split].
    + intros v. split.
      * intros Hv. apply Hchar in Hv as [[_ ->]|[Hne _]]; [reflexivity|].
        exfalso. now apply Hne.
      * intros ->. apply Hchar. now left.
    + intros k v Hk. split.
      * intros Hv. apply Hchar in Hv as [[-> _]|[_ Hv]]; [contradiction|exact Hv].
      * intros Hv. apply Hchar. right. now split.
    + apply kvdBuffer_elem, Hchar. now left.
  - intros Hkeep k v. rewrite keyValueList_elem, merged_keepWriter, Hkeep.
    reflexivity.
Qed.

(** C2 (as amended). On a structurally valid container, here one that has
    a level 0 when its scheme is NONE, so that the call of
    [getBlockByteLength] has a payload to measure, [write] throws exactly
    when the descriptor collection is not one block of the basic-format
    type, or that block's [texelBlockDimension] is the legacy number
    instead of an array. A [texelBlockDimension] array of any length, 4 or
    not, is accepted. *)
Theorem write_throws_iff (container : KTX2Container) (options : WriteOptions) :
  block_byte_length_readable container ->
  ((exists e, write container options = Throw e)
   <-> ((forall dfd, dataFormatDescriptor container = [dfd] ->
           descriptorType dfd <> KHR_DF_KHR_DESCRIPTORTYPE_BASICFORMAT)
        \/ (exists dfd n, dataFormatDescriptor container = [dfd]
                          /\ texelBlockDimension dfd = TBD_number n))).
Proof.
  intros _. split.
  - intros [e He].
    destruct (dataFormatDescriptor container) as [|dfd [|dfd' rest]] eqn:Hd;
      [left; intros ? [=] | | left; intros ? [=]].
    destruct (Z.eq_dec (descriptorType dfd) KHR_DF_KHR_DESCRIPTORTYPE_BASICFORMAT)
      as [Ht|Ht]; [|left; intros ? [= <-]; exact Ht].
    destruct (texelBlockDimension dfd) as [dim|n] eqn:Hdim; [|right; eauto].
    rewrite (write_ok container options dfd dim Hd Ht Hdim) in He. discriminate.
  - unfold write. rewrite sgdBuffer_eq. cbn [bind]. unfold dfd_check.
    intros [Hbad|(dfd & n & Hd & Hn)].
    + destruct (dataFormatDescriptor container) as [|dfd [|dfd' rest]]; eauto.
      specialize (Hbad dfd eq_refl). apply Z.eqb_neq in Hbad. rewrite Hbad.
      cbn. eauto.
    + rewrite Hd.
      destruct (descriptorType dfd =? KHR_DF_KHR_DESCRIPTORTYPE_BASICFORMAT);
        cbn [negb bind]; [|eauto].
      rewrite (dfdBuffer_number dfd n Hn). cbn. eauto.
Qed.

(** ** Reading the file back *)

Lemma slice_app_r (a l : list byte) (x y : Z) :
  Z.of_nat (length a) <= x ->
  slice (a ++ l) x y = slice l (x - Z.of_nat (length a)) (y - Z.of_nat (length a)).
Proof.
  intros Hx. unfold slice.
  replace (Z.to_nat x) with (length a + Z.to_nat (x - Z.of_nat (length a)))%nat by lia.
  rewrite drop_app_add by reflexivity. f_equal. lia.
Qed.

Lemma slice_here (mid post : list byte) (y : Z) :
  y = Z.of_nat (length mid) -> slice (mid ++ post) 0 y = mid.
Proof.
  intros ->. apply (slice_app_middle [] mid post); cbn; lia.
Qed.

Lemma slice_app_suffix (pre suffix : list byte) (a b : Z) :
  a = Z.of_nat (length pre) ->
  b = Z.of_nat (length (pre ++ suffix)) ->
  slice (pre ++ suffix) a b = suffix.
Proof.
  intros -> ->. rewrite <- (app_nil_r suffix) at 2.
  rewrite <- (app_nil_r suffix) at 1.
  apply slice_app_middle; [reflexivity|].
  rewrite !length_app. cbn [length]. lia.
Qed.

Lemma getUint32_skip (a l : list byte) (off : Z) :
  Z.of_nat (length a) <= off ->
  getUint32 (a ++ l) off = getUint32 l (off - Z.of_nat (length a)).
Proof.
  intros H. unfold getUint32. rewrite slice_app_r by exact H.
  do 2 f_equal. lia.
Qed.

Lemma getBigUint64_skip (a l : list byte) (off : Z) :
  Z.of_nat (length a) <= off ->
  getBigUint64 (a ++ l) off = getBigUint64 l (off - Z.of_nat (length a)).
Proof.
  intros H. unfold getBigUint64. rewrite slice_app_r by exact H.
  do 2 f_equal. lia.
Qed.

Lemma getUint32_here (v : Z) (post : list byte) (off : Z) :
  off = 0 -> getUint32 (u32le v ++ post) off = v mod 2 ^ 32.
Proof.
  intros ->. unfold getUint32. rewrite slice_here by (rewrite length_u32le; lia).
  unfold u32le. now rewrite le_value_le_bytes.
Qed.

Lemma getBigUint64_here (v : Z) (post : list byte) (off : Z) :
  off = 0 -> getBigUint64 (u64le v ++ post) off = v mod 2 ^ 64.
Proof.
  intros ->. unfold getBigUint64. rewrite slice_here by (rewrite length_u64le; lia).
  unfold u64le. now rewrite le_value_le_bytes.
Qed.

(** Lengths of the sections of the file. *)

Lemma length_Uint8Array_from (a : list Z) : length (Uint8Array_from a) = length a.
Proof. apply length_map. Qed.

Lemma length_spec_header container options dfd :
  length (spec_header container options dfd) = 68%nat.
Proof. unfold spec_header. len. Qed.

Lemma length_concat_imap_fixed {A} (f : nat -> A -> list byte) (w : nat) (l : list A) :
  (forall i x, length (f i x) = w) ->
  length (List.concat (imap f l)) = (length l * w)%nat.
Proof.
  intros Hf. revert f Hf. induction l as [|x l IH]; intros f Hf; [reflexivity|].
  cbn [imap List.concat length]. rewrite length_app, Hf, IH; [lia|].
  intros i y. apply Hf.
Qed.

Lemma length_spec_levelIndex align start lvls :
  length (spec_levelIndex align start lvls) = (length lvls * 24)%nat.
Proof.
  unfold spec_levelIndex. apply length_concat_imap_fixed.
  intros i x. apply length_spec_levelIndex_entry.
Qed.

Lemma length_level_region (align start : Z) (lvls : list KTX2Level) :
  0 <= align ->
  Z.of_nat (length (level_region align start lvls))
  = level_end align start lvls - start.
Proof.
  intros Ha. induction lvls as [|level rest IH]; cbn [level_region level_end].
  - cbn. lia.
  - rewrite !length_app, length_ArrayBuffer.
    pose proof (round_up_ge (level_end align start rest) align Ha).
    unfold byteLength. lia.
Qed.

(** The payload of level [i] lies in the level region at its offset. *)
Lemma level_region_payload (align start : Z) (lvls : list KTX2Level)
    (i : nat) (level : KTX2Level) :
  0 <= align ->
  lvls !! i = Some level ->
  exists pre post,
    level_region align start lvls = pre ++ levelData level ++ post
    /\ start + Z.of_nat (length pre) = level_offset align start lvls i.
Proof.
  intros Ha. revert i. induction lvls as [|l rest IH]; intros i Hi.
  - now rewrite lookup_nil in Hi.
  - destruct i as [|i]; cbn [level_region].
    + cbn in Hi. injection Hi as ->.
      exists (level_region align start rest
              ++ ArrayBuffer (round_up (level_end align start rest) align
                              - level_end align start rest)), [].
      split; [now rewrite app_nil_r, <- app_assoc|].
      unfold level_offset. cbn [drop].
      rewrite length_app, length_ArrayBuffer.
      pose proof (length_level_region align start rest Ha).
      pose proof (round_up_ge (level_end align start rest) align Ha).
      rewrite drop_0. lia.
    + cbn in Hi. destruct (IH i Hi) as (pre & post & Hreg & Hoff).
      exists pre, (post ++ ArrayBuffer (round_up (level_end align start rest) align
                                       - level_end align start rest)
                   ++ levelData l).
      split; [rewrite Hreg, <- !app_assoc; reflexivity|].
      rewrite Hoff. reflexivity.
Qed.

Lemma level_end_drop_mono (align start : Z) (lvls : list KTX2Level) (i j : nat) :
  0 <= align -> (i <= j)%nat ->
  level_end align start (drop j lvls) <= level_end align start (drop i lvls).
Proof.
  intros Ha. revert i j. induction lvls as [|l rest IH]; intros i j Hij.
  - rewrite !drop_nil. lia.
  - destruct j as [|j]; [replace i with 0%nat by lia; lia|].
    destruct i as [|i].
    + cbn [drop level_end].
      specialize (IH 0%nat j ltac:(lia)). rewrite drop_0 in IH.
      pose proof (round_up_ge (level_end align start rest) align Ha).
      unfold byteLength. lia.
    + cbn [drop]. apply IH. lia.
Qed.

(** A level with a larger index is stored before one with a smaller
    index. *)
Lemma level_offset_order (align start : Z) (lvls : list KTX2Level)
    (i j : nat) (level : KTX2Level) :
  0 <= align -> (i < j)%nat -> lvls !! j = Some level ->
  level_offset align start lvls j + byteLength (levelData level)
  <= level_offset align start lvls i.
Proof.
  intros Ha Hij Hj. unfold level_offset.
  pose proof (level_end_drop_mono align start lvls (S i) j Ha ltac:(lia)) as Hm.
  rewrite (drop_S lvls level j Hj) in Hm. cbn [level_end] in Hm.
  pose proof (round_up_ge (level_end align start (drop (S i) lvls)) align Ha).
  lia.
Qed.

(** The entry of level [i] in the level index. *)
Lemma spec_levelIndex_entry_at (align start : Z) (lvls : list KTX2Level)
    (i : nat) (level : KTX2Level) :
  lvls !! i = Some level ->
  exists pre post,
    spec_levelIndex align start lvls
    = pre ++ spec_levelIndex_entry align start lvls i level ++ post
    /\ length pre = (i * 24)%nat.
Proof.
  intros Hi. unfold spec_levelIndex.
  set (f := spec_levelIndex_entry align start lvls).
  assert (length (take i lvls) = i) as Hlen.
  { apply length_take_le, Nat.lt_le_incl. eapply lookup_lt_Some; eauto. }
  exists (List.concat (imap f (take i lvls))),
    (List.concat (imap (fun n => f (i + S n)%nat) (drop (S i) lvls))).
  split.
  - rewrite <- (take_drop_middle lvls i level Hi) at 1.
    rewrite imap_app, concat_app, Hlen. cbn [imap List.concat].
    rewrite Nat.add_0_r. reflexivity.
  - rewrite (length_concat_imap_fixed _ 24), Hlen; [reflexivity|].
    intros j x. apply length_spec_levelIndex_entry.
Qed.

(** ** Where the sections are in the file *)

Lemma spec_file_level_payload container options dfd dim i level :
  levels container !! i = Some level ->
  exists pre post,
    spec_file container options dfd dim = pre ++ levelData level ++ post
    /\ Z.of_nat (length pre)
       = level_offset (levelAlign container)
           (spec_levelsStart container options dfd) (levels container) i.
Proof.
  intros Hi.
  destruct (level_region_payload (levelAlign container)
              (spec_levelsStart container options dfd) (levels container)
              i level (levelAlign_nonneg container) Hi)
    as (rpre & rpost & Hreg & Hoff).
  unfold spec_file. rewrite Hreg.
  exists (Uint8Array_from KTX2_ID
          ++ spec_header container options dfd
          ++ spec_levelIndex (levelAlign container)
               (spec_levelsStart container options dfd) (levels container)
          ++ spec_dfd_block dfd dim
          ++ kvdBuffer container (merge_options DEFAULT_OPTIONS options)
          ++ ArrayBuffer (spec_sgdPadding container options dfd)
          ++ spec_sgd container ++ rpre), rpost.
  split; [rewrite <- !app_assoc; reflexivity|].
  rewrite <- Hoff.
  rewrite !length_app, length_Uint8Array_from, length_spec_header,
    length_spec_levelIndex, length_spec_dfd_block, length_ArrayBuffer.
  pose proof (spec_sgdPadding_nonneg container options dfd).
  unfold spec_levelsStart, spec_kvdEnd, spec_kvdOffset, spec_dfdOffset, byteLength.
  lia.
Qed.

Lemma spec_file_levelIndex_entry container options dfd dim i level :
  levels container !! i = Some level ->
  exists pre post,
    spec_file container options dfd dim
    = pre ++ spec_levelIndex_entry (levelAlign container)
               (spec_levelsStart container options dfd) (levels container)
               i level ++ post
    /\ Z.of_nat (length pre) = levelIndex_entry_offset i.
Proof.
  intros Hi.
  destruct (spec_levelIndex_entry_at (levelAlign container)
              (spec_levelsStart container options dfd) (levels container)
              i level Hi) as (ipre & ipost & Hidx & Hlen).
  unfold spec_file. rewrite Hidx.
  exists (Uint8Array_from KTX2_ID ++ spec_header container options dfd ++ ipre),
    (ipost
     ++ spec_dfd_block dfd dim
     ++ kvdBuffer container (merge_options DEFAULT_OPTIONS options)
     ++ ArrayBuffer (spec_sgdPadding container options dfd)
     ++ spec_sgd container
     ++ level_region (levelAlign container)
          (spec_levelsStart container options dfd) (levels container)).
  split; [rewrite <- !app_assoc; reflexivity|].
  rewrite !length_app, length_Uint8Array_from, length_spec_header, Hlen.
  unfold levelIndex_entry_offset. lia.
Qed.

Lemma levelIndex_entry_read (pre post : list byte) (a b c : Z) (off : Z) :
  off = Z.of_nat (length pre) ->
  let buf := pre ++ (u64le a ++ u64le b ++ u64le c) ++ post in
  getBigUint64 buf off = a mod 2 ^ 64
  /\ getBigUint64 buf (off + 8) = b mod 2 ^ 64
  /\ getBigUint64 buf (off + 16) = c mod 2 ^ 64.
Proof.
  intros -> buf. subst buf. rewrite <- !app_assoc. repeat split.
  - rewrite getBigUint64_skip by lia. apply getBigUint64_here. lia.
  - rewrite getBigUint64_skip by lia.
    rewrite getBigUint64_skip by (rewrite length_u64le; lia).
    apply getBigUint64_here. rewrite length_u64le. lia.
  - rewrite getBigUint64_skip by lia.
    rewrite getBigUint64_skip by (rewrite length_u64le; lia).
    rewrite getBigUint64_skip by (rewrite !length_u64le; lia).
    apply getBigUint64_here. rewrite !length_u64le. lia.
Qed.

Lemma write_valid container options dfd dim :
  valid_container container dfd dim ->
  write container options = Ok (spec_file container options dfd dim).
Proof. intros (Hd & Ht & Hdim). now apply write_ok. Qed.

Lemma write_ok_inv container options out :
  write container options = Ok out ->
  exists dfd dim,
    valid_container container dfd dim
    /\ out = spec_file container options dfd dim.
Proof.
  intros Hwrite.
  destruct (dataFormatDescriptor container) as [|dfd [|dfd' rest]] eqn:Hd;
    try (unfold write, dfd_check in Hwrite; rewrite sgdBuffer_eq, Hd in Hwrite;
         discriminate).
  destruct (Z.eq_dec (descriptorType dfd) KHR_DF_KHR_DESCRIPTORTYPE_BASICFORMAT)
    as [Ht|Ht].
  - destruct (texelBlockDimension dfd) as [dim|n] eqn:Hdim.
    + exists dfd, dim. split; [repeat split; assumption|].
      rewrite (write_ok container options dfd dim Hd Ht Hdim) in Hwrite.
      now injection Hwrite.
    + unfold write, dfd_check in Hwrite.
      rewrite sgdBuffer_eq, Hd, Ht, Z.eqb_refl in Hwrite. cbn [bind negb] in Hwrite.
      rewrite (dfdBuffer_number dfd n Hdim) in Hwrite. discriminate.
  - unfold write, dfd_check in Hwrite. rewrite sgdBuffer_eq, Hd in Hwrite.
    apply Z.eqb_neq in Ht. rewrite Ht in Hwrite. discriminate.
Qed.

Lemma ToUint32_range v : 0 <= ToUint32 v < 2 ^ 32.
Proof. unfold ToUint32. apply Z.mod_pos_bound. lia. Qed.

(** What a reader finds for level [i]: its payload at the offset the packer
    chose, and the three fields of its level index entry. *)
Lemma level_entry_fields container options dfd dim i level :
  levels container !! i = Some level ->
  let out := spec_file container options dfd dim in
  let offset := level_offset (levelAlign container)
                  (spec_levelsStart container options dfd)
                  (levels container) i in
  slice out offset (offset + byteLength (levelData level)) = levelData level
  /\ getBigUint64 out (levelIndex_entry_offset i) = offset mod 2 ^ 32
  /\ getBigUint64 out (levelIndex_entry_offset i + 8)
     = byteLength (levelData level) mod 2 ^ 64
  /\ getBigUint64 out (levelIndex_entry_offset i + 16)
     = uncompressedByteLength level mod 2 ^ 64
  /\ 0 <= offset
  /\ offset + byteLength (levelData level) <= byteLength out.
Proof.
  intros Hi out offset.
  destruct (spec_file_level_payload container options dfd dim i level Hi)
    as (pre & post & Hfile & Hpre).
  destruct (spec_file_levelIndex_entry container options dfd dim i level Hi)
    as (ipre & ipost & Hidx & Hipre).
  fold out in Hfile, Hidx. fold offset in Hpre.
  destruct (levelIndex_entry_read ipre ipost (ToUint32 offset)
              (byteLength (levelData level)) (uncompressedByteLength level)
              (levelIndex_entry_offset i) (eq_sym Hipre)) as (Ha & Hb & Hc).
  unfold spec_levelIndex_entry in Hidx. fold offset in Hidx.
  rewrite <- Hidx in Ha, Hb, Hc.
  pose proof (ToUint32_range offset) as Hr.
  rewrite Z.mod_small in Ha by lia.
  repeat split; try assumption.
  - rewrite Hfile. apply slice_app_middle; unfold byteLength; lia.
  - lia.
  - rewrite Hfile. unfold byteLength. rewrite !length_app. lia.
Qed.

(** C10. The offset field of every level index entry is the byte offset at
    which the level's payload is stored, reduced modulo 2^32: an offset of
    2^32 or more is recorded truncated in the 64-bit field, and [write]
    returns normally. *)
Theorem level_offsets_truncated (container : KTX2Container)
    (options : WriteOptions) (dfd : KTX2DataFormatDescriptorBasicFormat)
    (dim : list Z) :
  valid_container container dfd dim ->
  exists out,
    write container options = Ok out
    /\ forall i level,
         levels container !! i = Some level ->
         let offset := level_offset (levelAlign container)
                         (spec_levelsStart container options dfd)
                         (levels container) i in
         slice out offset (offset + byteLength (levelData level))
         = levelData level
         /\ getBigUint64 out (levelIndex_entry_offset i) = offset mod 2 ^ 32
         /\ (2 ^ 32 <= offset ->
             getBigUint64 out (levelIndex_entry_offset i) < offset).
Proof.
  intros Hvalid. exists (spec_file container options dfd dim).
  split; [now apply write_valid|].
  intros i level Hi offset.
  destruct (level_entry_fields container options dfd dim i level Hi)
    as (Hslice & Hfield & _).
  fold offset in Hslice, Hfield.
  split; [exact Hslice|]. split; [exact Hfield|].
  intros Hbig. rewrite Hfield.
  pose proof (Z.mod_pos_bound offset (2 ^ 32) ltac:(lia)). lia.
Qed.

(** X1. For a container that passes the checks of [write] and whose file
    is shorter than 2^32 bytes: the level index entry of level [i], at
    index [i] of the table, holds the offset and the length of the slice of
    the file that is the payload of level [i], and its uncompressed length;
    and the payload of every level with a larger index is stored before
    it. *)
Theorem level_index_correct (container : KTX2Container)
    (options : WriteOptions) (dfd : KTX2DataFormatDescriptorBasicFormat)
    (dim : list Z) :
  valid_container container dfd dim ->
  exists out,
    write container options = Ok out
    /\ (byteLength out < 2 ^ 32 ->
        forall i level,
          levels container !! i = Some level ->
          let offset := getBigUint64 out (levelIndex_entry_offset i) in
          let len := getBigUint64 out (levelIndex_entry_offset i + 8) in
          len = byteLength (levelData level)
          /\ slice out offset (offset + len) = levelData level
          /\ getBigUint64 out (levelIndex_entry_offset i + 16)
             = ToBigUint64 (uncompressedByteLength level)
          /\ forall j level',
               (i < j)%nat -> levels container !! j = Some level' ->
               getBigUint64 out (levelIndex_entry_offset j)
               + byteLength (levelData level') <= offset).
Proof.
  intros Hvalid. exists (spec_file container options dfd dim).
  split; [now apply write_valid|].
  intros Hsize i level Hi offset len.
  destruct (level_entry_fields container options dfd dim i level Hi)
    as (Hslice & Hoff & Hlen & Hunc & Hpos & Hend).
  pose proof (byteLength_nonneg (levelData level)) as Hl.
  rewrite Z.mod_small in Hoff by lia.
  rewrite Z.mod_small in Hlen by lia.
  subst offset len. rewrite Hoff, Hlen.
  split; [reflexivity|]. split; [exact Hslice|]. split; [exact Hunc|].
  intros j level' Hij Hj.
  destruct (level_entry_fields container options dfd dim j level' Hj)
    as (_ & Hoff' & _ & _ & Hpos' & Hend').
  pose proof (byteLength_nonneg (levelData level')).
  rewrite Z.mod_small in Hoff' by lia. rewrite Hoff'.
  apply level_offset_order; [apply levelAlign_nonneg|exact Hij|exact Hj].
Qed.

(** ** The header fields *)

Ltac skip_fields :=
  repeat first
    [ rewrite getUint32_skip
        by (rewrite ?length_u32le, ?length_u64le; lia)
    | rewrite getBigUint64_skip
        by (rewrite ?length_u32le, ?length_u64le; lia) ].

Lemma spec_header_read (pre post : list byte) container options dfd :
  let buf := pre ++ spec_header container options dfd ++ post in
  let T := Z.of_nat (length pre) in
  getUint32 buf (T + 28) = Z.of_nat (length (levels container)) mod 2 ^ 32
  /\ getUint32 buf (T + 36) = spec_dfdOffset container mod 2 ^ 32
  /\ getUint32 buf (T + 40)
     = (28 + 16 * Z.of_nat (length (samples dfd))) mod 2 ^ 32
  /\ getUint32 buf (T + 44) = spec_kvdOffset container dfd mod 2 ^ 32
  /\ getUint32 buf (T + 48)
     = byteLength (kvdBuffer container (merge_options DEFAULT_OPTIONS options))
       mod 2 ^ 32
  /\ getBigUint64 buf (T + 52) = spec_sgdOffset container options dfd mod 2 ^ 64
  /\ getBigUint64 buf (T + 60) = byteLength (spec_sgd container) mod 2 ^ 64.
Proof.
  intros buf T. subst buf T. unfold spec_header. rewrite <- !app_assoc.
  repeat split; skip_fields;
    first [ apply getUint32_here | apply getBigUint64_here ];
    rewrite ?length_u32le, ?length_u64le; lia.
Qed.

Lemma spec_file_header_read container options dfd dim :
  let out := spec_file container options dfd dim in
  let T := Z.of_nat (length KTX2_ID) in
  getUint32 out (T + 28) = Z.of_nat (length (levels container)) mod 2 ^ 32
  /\ getUint32 out (T + 36) = spec_dfdOffset container mod 2 ^ 32
  /\ getUint32 out (T + 40)
     = (28 + 16 * Z.of_nat (length (samples dfd))) mod 2 ^ 32
  /\ getUint32 out (T + 44) = spec_kvdOffset container dfd mod 2 ^ 32
  /\ getUint32 out (T + 48)
     = byteLength (kvdBuffer container (merge_options DEFAULT_OPTIONS options))
       mod 2 ^ 32
  /\ getBigUint64 out (T + 52) = spec_sgdOffset container options dfd mod 2 ^ 64
  /\ getBigUint64 out (T + 60) = byteLength (spec_sgd container) mod 2 ^ 64.
Proof.
  intros out T. subst out T. unfold spec_file.
  rewrite <- (length_Uint8Array_from KTX2_ID).
  apply spec_header_read.
Qed.

(** The sections of the file, each with the bytes before and after it. *)
Lemma spec_file_sections container options dfd dim :
  let out := spec_file container options dfd dim in
  let kvd := kvdBuffer container (merge_options DEFAULT_OPTIONS options) in
  slice out (spec_dfdOffset container)
    (spec_dfdOffset container + byteLength (spec_dfd_block dfd dim))
  = spec_dfd_block dfd dim
  /\ slice out (spec_kvdOffset container dfd)
       (spec_kvdOffset container dfd + byteLength kvd) = kvd
  /\ slice out (spec_kvdEnd container options dfd)
       (spec_kvdEnd container options dfd
        + spec_sgdPadding container options dfd)
     = ArrayBuffer (spec_sgdPadding container options dfd)
  /\ slice out (spec_kvdEnd container options dfd
                + spec_sgdPadding container options dfd)
       (spec_kvdEnd container options dfd
        + spec_sgdPadding container options dfd
        + byteLength (spec_sgd container))
     = spec_sgd container
  /\ slice out (spec_levelsStart container options dfd) (byteLength out)
     = level_region (levelAlign container)
         (spec_levelsStart container options dfd) (levels container)
  /\ spec_levelsStart container options dfd <= byteLength out.
Proof.
  intros out kvd. subst out kvd. unfold spec_file.
  set (s0 := Uint8Array_from KTX2_ID).
  set (s1 := spec_header container options dfd).
  set (s2 := spec_levelIndex _ _ _).
  set (s3 := spec_dfd_block dfd dim).
  set (s4 := kvdBuffer container _).
  set (s5 := ArrayBuffer _).
  set (s6 := spec_sgd container).
  set (s7 := level_region _ _ _).
  assert (length s0 = length KTX2_ID) as L0 by apply length_Uint8Array_from.
  assert (length s1 = 68%nat) as L1 by apply length_spec_header.
  assert (length s2 = (length (levels container) * 24)%nat) as L2
    by apply length_spec_levelIndex.
  assert (length s3 = (28 + 16 * length (samples dfd))%nat) as L3
    by apply length_spec_dfd_block.
  assert (Z.of_nat (length s5) = spec_sgdPadding container options dfd) as L5.
  { subst s5. rewrite length_ArrayBuffer.
    pose proof (spec_sgdPadding_nonneg container options dfd). lia. }
  unfold spec_levelsStart, spec_kvdEnd, spec_kvdOffset, spec_dfdOffset, byteLength.
  fold s3 s4 s6. rewrite <- L5.
  repeat split.
  - rewrite (app_assoc s0), (app_assoc (s0 ++ s1)).
    apply slice_app_middle; rewrite ?length_app; lia.
  - rewrite (app_assoc s0), (app_assoc (s0 ++ s1)), (app_assoc ((s0 ++ s1) ++ s2)).
    apply slice_app_middle; rewrite ?length_app; lia.
  - rewrite (app_assoc s0), (app_assoc (s0 ++ s1)), (app_assoc ((s0 ++ s1) ++ s2)),
      (app_assoc (((s0 ++ s1) ++ s2) ++ s3)).
    apply slice_app_middle; rewrite ?length_app; lia.
  - rewrite (app_assoc s0), (app_assoc (s0 ++ s1)), (app_assoc ((s0 ++ s1) ++ s2)),
      (app_assoc (((s0 ++ s1) ++ s2) ++ s3)),
      (app_assoc ((((s0 ++ s1) ++ s2) ++ s3) ++ s4)).
    apply slice_app_middle; rewrite ?length_app; lia.
  - rewrite (app_assoc s0), (app_assoc (s0 ++ s1)), (app_assoc ((s0 ++ s1) ++ s2)),
      (app_assoc (((s0 ++ s1) ++ s2) ++ s3)),
      (app_assoc ((((s0 ++ s1) ++ s2) ++ s3) ++ s4)),
      (app_assoc (((((s0 ++ s1) ++ s2) ++ s3) ++ s4) ++ s5)).
    apply slice_app_suffix; rewrite ?length_app; lia.
  - rewrite !length_app. lia.
Qed.

(** C4. For a container that passes the checks of [write] and fits the
    header (the KVD ends below 2^32, for the u32 fields; the file is shorter
    than 2^64 bytes, for the u64 fields), the header fields are the planned
    layout and locate the sections in the file: the DFD offset is
    tag + header + 24 * levelCount; the DFD length is the size of the
    emitted DFD block; the KVD offset is the DFD offset plus the DFD
    length; without global data the SGD offset and length are 0 and 0;
    with global data the SGD offset is the end of the KVD rounded up to a
    multiple of 8, the bytes between are zero, and the SGD block lies at
    that offset. *)
Theorem header_layout (container : KTX2Container) (options : WriteOptions)
    (dfd : KTX2DataFormatDescriptorBasicFormat) (dim : list Z) :
  valid_container container dfd dim ->
  exists out,
    write container options = Ok out
    /\ (spec_kvdEnd container options dfd < 2 ^ 32 ->
        byteLength out < 2 ^ 64 ->
        let T := Z.of_nat (length KTX2_ID) in
        let dfdOffset := getUint32 out (T + 36) in
        let dfdLength := getUint32 out (T + 40) in
        let kvdOffset := getUint32 out (T + 44) in
        let kvdLength := getUint32 out (T + 48) in
        let sgdOffset := getBigUint64 out (T + 52) in
        let sgdLength := getBigUint64 out (T + 60) in
        dfdOffset
        = T + HEADER_BYTE_LENGTH + 24 * Z.of_nat (length (levels container))
        /\ (exists dfdBuf,
              dfdBuffer dfd = Ok dfdBuf
              /\ dfdLength = byteLength dfdBuf
              /\ slice out dfdOffset (dfdOffset + dfdLength) = dfdBuf)
        /\ kvdOffset = dfdOffset + dfdLength
        /\ kvdLength
           = byteLength (kvdBuffer container (merge_options DEFAULT_OPTIONS options))
        /\ slice out kvdOffset (kvdOffset + kvdLength)
           = kvdBuffer container (merge_options DEFAULT_OPTIONS options)
        /\ (exists sgdBuf,
              sgdBuffer container = Ok sgdBuf
              /\ sgdLength = byteLength sgdBuf
              /\ slice out sgdOffset (sgdOffset + sgdLength) = sgdBuf)
        /\ match globalData container with
           | None => sgdOffset = 0 /\ sgdLength = 0
           | Some g =>
               sgdOffset mod 8 = 0
               /\ kvdOffset + kvdLength <= sgdOffset < kvdOffset + kvdLength + 8
               /\ slice out (kvdOffset + kvdLength) sgdOffset
                  = ArrayBuffer (sgdOffset - (kvdOffset + kvdLength))
               /\ 20 <= sgdLength
           end).
Proof.
  intros Hvalid. exists (spec_file container options dfd dim).
  split; [now apply write_valid|].
  intros Hkvdend Hsize
    T dfdOffset dfdLength kvdOffset kvdLength sgdOffset sgdLength.
  destruct (spec_file_header_read container options dfd dim)
    as (_ & H36 & H40 & H44 & H48 & H52 & H60).
  destruct (spec_file_sections container options dfd dim)
    as (Sdfd & Skvd & Spad & Ssgd & _ & Hstart).
  fold T in H36, H40, H44, H48, H52, H60.
  fold dfdOffset in H36. fold dfdLength in H40. fold kvdOffset in H44.
  fold kvdLength in H48. fold sgdOffset in H52. fold sgdLength in H60.
  pose proof (spec_sgdPadding_nonneg container options dfd) as Hpad.
  pose proof (byteLength_nonneg (spec_sgd container)) as Hsgd.
  pose proof (byteLength_nonneg
                (kvdBuffer container (merge_options DEFAULT_OPTIONS options)))
    as Hkvd.
  assert (0 <= spec_dfdOffset container
          /\ spec_kvdOffset container dfd
             = spec_dfdOffset container
               + (28 + 16 * Z.of_nat (length (samples dfd)))
          /\ spec_kvdEnd container options dfd
             = spec_kvdOffset container dfd
               + byteLength (kvdBuffer container
                               (merge_options DEFAULT_OPTIONS options))
          /\ spec_kvdEnd container options dfd
             + spec_sgdPadding container options dfd
             + byteLength (spec_sgd container)
             <= byteLength (spec_file container options dfd dim))
    as (B0 & B1 & B2 & B3).
  { unfold spec_levelsStart in Hstart.
    unfold spec_kvdEnd, spec_kvdOffset, spec_dfdOffset in *. lia. }
  rewrite Z.mod_small in H36, H40, H44, H48, H60 by lia.
  assert (spec_sgdOffset container options dfd
          = match globalData container with
            | None => 0
            | Some _ => spec_kvdEnd container options dfd
                        + spec_sgdPadding container options dfd
            end) as Hsgdoff.
  { unfold spec_sgdOffset, spec_sgdPadding.
    destruct (globalData container); lia. }
  assert (0 <= spec_sgdOffset container options dfd < 2 ^ 64) as Brange.
  { rewrite Hsgdoff. destruct (globalData container); lia. }
  rewrite Z.mod_small in H52 by lia.
  rewrite byteLength_spec_dfd_block in Sdfd.
  rewrite sgdBuffer_eq.
  destruct Hvalid as (_ & _ & Hdim). rewrite (dfdBuffer_array dfd dim Hdim).
  rewrite H36, H40, H44, H48, H52, H60.
  split; [unfold spec_dfdOffset; change HEADER_BYTE_LENGTH with 68; lia|].
  split.
  { exists (spec_dfd_block dfd dim). split; [reflexivity|].
    split; [now rewrite byteLength_spec_dfd_block|exact Sdfd]. }
  split; [exact B1|].
  split; [reflexivity|].
  split; [exact Skvd|].
  split.
  - exists (spec_sgd container). split; [reflexivity|]. split; [reflexivity|].
    rewrite Hsgdoff.
    destruct (globalData container) as [g|] eqn:Hg; [exact Ssgd|].
    unfold spec_sgd. rewrite Hg. reflexivity.
  - destruct (globalData container) as [g|] eqn:Hg.
    + assert (spec_sgdPadding container options dfd
              = round_up (spec_kvdEnd container options dfd) 8
                - spec_kvdEnd container options dfd) as Hp
        by (unfold spec_sgdPadding; now rewrite Hg).
      destruct (round_up_spec (spec_kvdEnd container options dfd) 8 ltac:(lia))
        as (Hr1 & Hr2).
      rewrite Hsgdoff, <- B2.
      replace (spec_kvdEnd container options dfd
               + spec_sgdPadding container options dfd
               - spec_kvdEnd container options dfd)
        with (spec_sgdPadding container options dfd) by lia.
      split; [rewrite Hp; rewrite <- Hr2; f_equal; lia|].
      split; [lia|]. split; [exact Spad|].
      apply (byteLength_spec_sgd_pos container g Hg).
    + rewrite Hsgdoff. unfold spec_sgd. rewrite Hg. split; reflexivity.
Qed.

(** C8. With global data, the SGD block is the 20-byte header (two u16
    counts, four u32 payload lengths), one 20-byte record of five u32
    fields per image description, and the four payloads in the order
    endpoints, selectors, tables, extended, with nothing in between; it is
    at least the header and the records long, also when the four payloads
    are empty; and when [write] returns a file, the block is stored in it,
    at a multiple of 8, right before the level data. *)
Theorem sgd_block_layout (container : KTX2Container) (options : WriteOptions)
    (g : KTX2GlobalDataBasisLZ) :
  globalData container = Some g ->
  exists block,
    sgdBuffer container = Ok block
    /\ block
       = (u16le (endpointCount g) ++ u16le (selectorCount g)
          ++ u32le (byteLength (endpointsData g))
          ++ u32le (byteLength (selectorsData g))
          ++ u32le (byteLength (tablesData g))
          ++ u32le (byteLength (extendedData g)))
         ++ List.concat
              (map (fun d =>
                      u32le (imageFlags d) ++ u32le (rgbSliceByteOffset d)
                      ++ u32le (rgbSliceByteLength d)
                      ++ u32le (alphaSliceByteOffset d)
                      ++ u32le (alphaSliceByteLength d))
                 (imageDescs g))
         ++ endpointsData g ++ selectorsData g ++ tablesData g
         ++ extendedData g
    /\ (length block
        = 20 + 20 * length (imageDescs g)
          + length (endpointsData g) + length (selectorsData g)
          + length (tablesData g) + length (extendedData g))%nat
    /\ forall out,
         write container options = Ok out ->
         exists pre levelData,
           out = pre ++ block ++ levelData
           /\ Z.of_nat (length pre) mod 8 = 0
           /\ getBigUint64 out (Z.of_nat (length KTX2_ID) + 52)
              = Z.of_nat (length pre) mod 2 ^ 64.
Proof.
  intros Hg. exists (spec_sgd_block g).
  assert (spec_sgd container = spec_sgd_block g) as Hsgd
    by (unfold spec_sgd; now rewrite Hg).
  split; [now rewrite sgdBuffer_eq, Hsgd|].
  split; [reflexivity|].
  split.
  - unfold spec_sgd_block. rewrite !length_app, length_spec_sgd_header.
    rewrite (length_concat_fixed _ 20) by apply length_spec_imageDesc. lia.
  - intros out Hwrite.
    destruct (write_ok_inv container options out Hwrite)
      as (dfd & dim & Hvalid & ->).
    exists (Uint8Array_from KTX2_ID
            ++ spec_header container options dfd
            ++ spec_levelIndex (levelAlign container)
                 (spec_levelsStart container options dfd) (levels container)
            ++ spec_dfd_block dfd dim
            ++ kvdBuffer container (merge_options DEFAULT_OPTIONS options)
            ++ ArrayBuffer (spec_sgdPadding container options dfd)),
      (level_region (levelAlign container)
         (spec_levelsStart container options dfd) (levels container)).
    split; [unfold spec_file; rewrite Hsgd, <- !app_assoc; reflexivity|].
    assert (Z.of_nat
              (length
                 (Uint8Array_from KTX2_ID
                  ++ spec_header container options dfd
                  ++ spec_levelIndex (levelAlign container)
                       (spec_levelsStart container options dfd)
                       (levels container)
                  ++ spec_dfd_block dfd dim
                  ++ kvdBuffer container (merge_options DEFAULT_OPTIONS options)
                  ++ ArrayBuffer (spec_sgdPadding container options dfd)))
            = round_up (spec_kvdEnd container options dfd) 8) as Hpre.
    { rewrite !length_app, length_Uint8Array_from, length_spec_header,
        length_spec_levelIndex, length_spec_dfd_block, length_ArrayBuffer.
      pose proof (spec_sgdPadding_nonneg container options dfd) as Hpad.
      unfold spec_sgdPadding in *. rewrite Hg in *.
      unfold spec_kvdEnd, spec_kvdOffset, spec_dfdOffset, byteLength in *. lia. }
    rewrite Hpre. split.
    + apply round_up_spec. lia.
    + destruct (spec_file_header_read container options dfd dim)
        as (_ & _ & _ & _ & _ & H52 & _).
      rewrite H52. unfold spec_sgdOffset. rewrite Hg. reflexivity.
Qed.

(** ** Alignment *)

Lemma level_region_unaligned (start : Z) (lvls : list KTX2Level) :
  level_region 0 start lvls = List.concat (map levelData (reverse lvls)).
Proof.
  induction lvls as [|level rest IH]; [reflexivity|].
  cbn [level_region]. rewrite round_up_0, Z.sub_diag, ArrayBuffer_0, IH.
  rewrite reverse_cons, map_app, concat_app. cbn. now rewrite app_nil_r.
Qed.

Lemma getPadding_aligned (v : Z) : (v + getPadding v 4) mod 4 = 0.
Proof.
  destruct (round_up_spec v 4 ltac:(lia)) as [_ H]. exact H.
Qed.

Lemma length_concat_Uint32Array (a : list Z) :
  length (concat_Uint32Array a) = (4 * length a)%nat.
Proof.
  unfold concat_Uint32Array.
  rewrite length_app, length_map, length_ArrayBuffer. lia.
Qed.

(** One element: the four bytes are those of the element modulo 256 as a
    little-endian u32. *)
Lemma concat_Uint32Array_1 (v : Z) :
  concat_Uint32Array [v] = u32le (v mod 256).
Proof.
  unfold concat_Uint32Array, u32le, ToUint8, ToUint32.
  pose proof (Z.mod_pos_bound v 256 ltac:(lia)) as Hv.
  cbn [map length le_bytes]. rewrite (Z.div_small (v mod 256) 256) by lia.
  cbn [app]. f_equal.
  apply Z_of_byte_inj. rewrite !Z_of_byte_of_Z.
  change (2 ^ 8) with 256. rewrite !Z.mod_mod by lia.
  apply Z.mod_mod_divide. exists (2 ^ 24). reflexivity.
Qed.

Lemma padded_record_aligned (keyData valueData : list byte) :
  let kvByteLength := byteLength keyData + 1 + byteLength valueData in
  (4 | Z.of_nat
         (length
            (concat [concat_Uint32Array [kvByteLength]; keyData; NUL;
                     valueData; ArrayBuffer (getPadding kvByteLength 4)]))).
Proof.
  intros kv. unfold concat. cbn [List.concat].
  rewrite !length_app, length_concat_Uint32Array, length_ArrayBuffer.
  apply Z.mod_divide; [lia|].
  assert (0 <= getPadding kv 4) as Hpad
    by (unfold getPadding; apply Z.mod_pos_bound; lia).
  match goal with
  | |- Z.of_nat ?n mod 4 = 0 =>
      replace (Z.of_nat n) with (kv + getPadding kv 4 + 1 * 4)
  end.
  - rewrite Z_mod_plus_full. apply getPadding_aligned.
  - set (p := getPadding kv 4) in *. clearbody p.
    subst kv. unfold byteLength, NUL. cbn [length]. lia.
Qed.

Lemma length_kvRecord_aligned (entry : jsstring * KVValue) :
  (4 | Z.of_nat (length (kvRecord entry))).
Proof. unfold kvRecord. apply padded_record_aligned. Qed.

(** C5. For a container that passes the checks of [write]: with the scheme
    NONE and a block byte length other than 0, every level payload starts
    at a multiple of lcm(blockByteLength, 4); with any other scheme the
    level data is the payloads alone, last level first, with no padding;
    and every KVD record, padding included, is a multiple of 4 bytes
    long. *)
Theorem alignment (container : KTX2Container) (options : WriteOptions)
    (dfd : KTX2DataFormatDescriptorBasicFormat) (dim : list Z) :
  valid_container container dfd dim ->
  exists out,
    write container options = Ok out
    /\ (supercompressionScheme container = KHR_SUPERCOMPRESSION_NONE ->
        getBlockByteLength container <> 0 ->
        forall i level,
          levels container !! i = Some level ->
          exists offset,
            slice out offset (offset + byteLength (levelData level))
            = levelData level
            /\ getBigUint64 out (levelIndex_entry_offset i) = offset mod 2 ^ 32
            /\ (leastCommonMultiple (getBlockByteLength container) 4 | offset))
    /\ (supercompressionScheme container <> KHR_SUPERCOMPRESSION_NONE ->
        slice out (spec_levelsStart container options dfd) (byteLength out)
        = List.concat (map levelData (reverse (levels container))))
    /\ kvdBuffer container (merge_options DEFAULT_OPTIONS options)
       = List.concat
           (map kvRecord
              (keyValueList container (merge_options DEFAULT_OPTIONS options)))
    /\ Forall (fun entry => (4 | Z.of_nat (length (kvRecord entry))))
         (keyValueList container (merge_options DEFAULT_OPTIONS options)).
Proof.
  intros Hvalid. exists (spec_file container options dfd dim).
  split; [now apply write_valid|].
  split; [|split; [|split]].
  - intros Hnone Hblock i level Hi.
    exists (level_offset (levelAlign container)
              (spec_levelsStart container options dfd) (levels container) i).
    destruct (level_entry_fields container options dfd dim i level Hi)
      as (Hslice & Hfield & _).
    split; [exact Hslice|]. split; [exact Hfield|].
    unfold level_offset, levelAlign. rewrite Hnone, Z.eqb_refl.
    unfold leastCommonMultiple.
    assert (0 < Z.lcm (getBlockByteLength container) 4) as Hpos.
    { pose proof (Z.lcm_nonneg (getBlockByteLength container) 4).
      assert (Z.lcm (getBlockByteLength container) 4 <> 0); [|lia].
      rewrite Z.lcm_eq_0. lia. }
    apply Z.mod_divide; [lia|]. now apply round_up_spec.
  - intros Hscheme.
    destruct (spec_file_sections container options dfd dim)
      as (_ & _ & _ & _ & Hlevels & _).
    rewrite Hlevels. unfold levelAlign.
    apply Z.eqb_neq in Hscheme. rewrite Hscheme.
    apply level_region_unaligned.
  - reflexivity.
  - apply Forall_forall. intros entry _. apply length_kvRecord_aligned.
Qed.

(** ** UTF-8 and the code-unit order

    On strings without surrogates the order of the code units is the
    byte-wise order of the UTF-8 encodings. *)

Lemma lor_add_small (a : Z) (n : nat) :
  forallb (fun v => Z.lor a v =? a + v) (map Z.of_nat (seq 0 n)) = true ->
  forall v, 0 <= v < Z.of_nat n -> Z.lor a v = a + v.
Proof.
  intros Hall v Hv. rewrite forallb_forall in Hall.
  apply Z.eqb_eq, Hall. rewrite <- (Z2Nat.id v) by lia.
  apply in_map, in_seq. lia.
Qed.

(** [lia] on goals with divisions and remainders by constants. *)
Ltac lia_div := Z.to_euclidean_division_equations; lia.

Lemma utf8_scalar_1 (u : Z) :
  0 <= u < 0x80 -> utf8_scalar u = [byte_of_Z u].
Proof.
  intros Hu. unfold utf8_scalar.
  destruct (Z.ltb_spec u 0x80); [reflexivity|lia].
Qed.

Lemma utf8_scalar_2 (u : Z) :
  0x80 <= u < 0x800 ->
  utf8_scalar u = [byte_of_Z (0xC0 + u / 64); byte_of_Z (0x80 + u mod 64)].
Proof.
  intros Hu. unfold utf8_scalar.
  destruct (Z.ltb_spec u 0x80); [lia|].
  destruct (Z.ltb_spec u 0x800); [|lia].
  rewrite Z.shiftr_div_pow2 by lia.
  change 0x3F with (Z.ones 6). rewrite Z.land_ones by lia.
  change (2 ^ 6) with 64.
  rewrite (lor_add_small 0xC0 32) by (reflexivity || lia_div).
  rewrite (lor_add_small 0x80 64) by (reflexivity || lia_div).
  reflexivity.
Qed.

Lemma utf8_scalar_3 (u : Z) :
  0x800 <= u < 0x10000 ->
  utf8_scalar u
  = [byte_of_Z (0xE0 + u / 4096); byte_of_Z (0x80 + (u / 64) mod 64);
     byte_of_Z (0x80 + u mod 64)].
Proof.
  intros Hu. unfold utf8_scalar.
  destruct (Z.ltb_spec u 0x80); [lia|].
  destruct (Z.ltb_spec u 0x800); [lia|].
  destruct (Z.ltb_spec u 0x10000); [|lia].
  rewrite !Z.shiftr_div_pow2 by lia.
  change 0x3F with (Z.ones 6). rewrite !Z.land_ones by lia.
  change (2 ^ 6) with 64. change (2 ^ 12) with 4096.
  rewrite (lor_add_small 0xE0 16) by (reflexivity || lia_div).
  rewrite !(lor_add_small 0x80 64) by (reflexivity || lia_div).
  reflexivity.
Qed.

Lemma bytes_lt_common_prefix (p a b : list byte) :
  bytes_lt (p ++ a) (p ++ b) = bytes_lt a b.
Proof.
  induction p as [|x p IH]; [reflexivity|].
  cbn. rewrite Z.ltb_irrefl. exact IH.
Qed.

Ltac bytes_lt_cases :=
  cbn [bytes_lt app];
  rewrite ?Z_of_byte_of_Z;
  repeat match goal with
         | |- context [(?a <? ?b)] => destruct (Z.ltb_spec a b)
         end;
  try reflexivity; try lia_div.

(** The encodings of two scalar values are ordered as the values, whatever
    follows them. *)
Lemma utf8_scalar_lt (x y : Z) (a b : list byte) :
  0 <= x -> x < y -> y < 0x10000 ->
  bytes_lt (utf8_scalar x ++ a) (utf8_scalar y ++ b) = true.
Proof.
  intros Hx Hxy Hy.
  destruct (Z.lt_ge_cases x 0x80), (Z.lt_ge_cases y 0x80);
    destruct (Z.lt_ge_cases x 0x800), (Z.lt_ge_cases y 0x800);
    try lia;
    rewrite ?(utf8_scalar_1 x), ?(utf8_scalar_2 x), ?(utf8_scalar_3 x),
      ?(utf8_scalar_1 y), ?(utf8_scalar_2 y), ?(utf8_scalar_3 y) by lia;
    bytes_lt_cases.
Qed.

Lemma encodeText_scalar (u : Z) (rest : jsstring) :
  is_scalar_unit u -> encodeText (u :: rest) = utf8_scalar u ++ encodeText rest.
Proof.
  intros Hu. cbn [encodeText]. unfold is_high_surrogate, is_low_surrogate.
  unfold is_scalar_unit in Hu.
  destruct (Z.leb_spec 0xD800 u), (Z.leb_spec u 0xDBFF),
    (Z.leb_spec 0xDC00 u), (Z.leb_spec u 0xDFFF);
    cbn [andb]; try reflexivity; lia.
Qed.

Lemma utf8_scalar_cons (u : Z) : exists b r, utf8_scalar u = b :: r.
Proof.
  unfold utf8_scalar.
  destruct (u <? 0x80), (u <? 0x800), (u <? 0x10000); eauto.
Qed.

Lemma encodeText_lt (a b : jsstring) :
  Forall is_scalar_unit a -> Forall is_scalar_unit b ->
  js_string_lt a b = true ->
  bytes_lt (encodeText a) (encodeText b) = true.
Proof.
  intros Ha. revert b.
  induction Ha as [|x a Hx Ha IH]; intros b Hb Hlt.
  - destruct Hb as [|y b Hy Hb]; [discriminate|].
    rewrite (encodeText_scalar y b Hy).
    destruct (utf8_scalar_cons y) as (c & r & ->). reflexivity.
  - destruct Hb as [|y b Hy Hb]; [discriminate|].
    rewrite (encodeText_scalar x a Hx), (encodeText_scalar y b Hy).
    cbn [js_string_lt] in Hlt.
    destruct (Z.ltb_spec x y) as [Hxy|Hxy].
    + apply utf8_scalar_lt; unfold is_scalar_unit in *; lia.
    + destruct (Z.ltb_spec y x) as [Hyx|Hyx]; [discriminate|].
      assert (x = y) as -> by lia.
      rewrite bytes_lt_common_prefix. now apply IH.
Qed.

(** C6 (as amended). The KVD section is the records of the entries in the
    strictly ascending order of their keys as strings of UTF-16 code units,
    which is how [>] compares two strings; it is not a locale order. When
    no key holds a surrogate code unit (every character is in the Basic
    Multilingual Plane, ASCII included), that order is the byte-wise order
    of the UTF-8 keys. *)
Theorem kvd_key_order (container : KTX2Container) (options : WriteOptions) :
  kvdBuffer container (merge_options DEFAULT_OPTIONS options)
  = List.concat
      (map kvRecord
         (keyValueList container (merge_options DEFAULT_OPTIONS options)))
  /\ StronglySorted key_lt
       (keyValueList container (merge_options DEFAULT_OPTIONS options))
  /\ (Forall (fun entry => Forall is_scalar_unit (fst entry))
        (keyValueList container (merge_options DEFAULT_OPTIONS options)) ->
      StronglySorted utf8_key_lt
        (keyValueList container (merge_options DEFAULT_OPTIONS options))).
Proof.
  split; [reflexivity|]. split; [apply keyValueList_sorted|].
  pose proof (keyValueList_sorted container
                (merge_options DEFAULT_OPTIONS options)) as Hsorted.
  induction Hsorted as [|e l Hl IH He]; intros Hscalar; [constructor|].
  apply Forall_cons in Hscalar as [Hes Hls].
  constructor; [now apply IH|].
  rewrite Forall_forall in *. intros e' He'.
  apply encodeText_lt; [exact Hes|now apply Hls|now apply He].
Qed.

(** ** Determinism *)

Lemma obj_set_perm {V} (k : jsstring) (v : V) (o1 o2 : JsObject V) :
  NoDup (map fst o1) -> Permutation o1 o2 ->
  Permutation (obj_set k v o1) (obj_set k v o2).
Proof.
  intros Hnd1 Hperm.
  assert (NoDup (map fst o2)) as Hnd2 by (now rewrite <- Hperm).
  apply NoDup_Permutation.
  - eapply NoDup_fmap_1, obj_set_nodup, Hnd1.
  - eapply NoDup_fmap_1, obj_set_nodup, Hnd2.
  - intros [k' v']. rewrite !obj_set_elem by assumption.
    now rewrite Hperm.
Qed.

Lemma keyValueList_perm c1 c2 o1 o2 :
  Permutation (obj_spread [] (keyValue c1)) (obj_spread [] (keyValue c2)) ->
  truthy_flag (keepWriter o1) = truthy_flag (keepWriter o2) ->
  keyValueList c1 o1 = keyValueList c2 o2.
Proof.
  intros Hperm Hflag.
  apply (StronglySorted_unique_strong key_lt).
  - intros x1 x2 _ _ H12 H21. unfold key_lt in *.
    rewrite (js_string_lt_asym _ _ H12) in H21. discriminate.
  - apply keyValueList_sorted.
  - apply keyValueList_sorted.
  - unfold keyValueList, Object_entries.
    rewrite !(Array_sort_perm compare_keys), Hflag.
    destruct (negb (truthy_flag (keepWriter o2))); [|exact Hperm].
    unfold obj_spread at 1 3. cbn [fold_left fst snd].
    apply obj_set_perm; [|exact Hperm].
    apply obj_spread_nodup. constructor.
Qed.

(** The order in which [Object.entries] lists the properties does not
    matter. *)
Lemma keyValueList_order_irrelevant container options entries :
  Permutation entries
    (obj_spread (obj_spread [] (keyValue container))
       (if negb (truthy_flag (keepWriter options))
        then [(KTXwriter, KVString KTX_WRITER)] else [])) ->
  Array_sort compare_keys entries = keyValueList container options.
Proof.
  intros Hperm.
  assert (NoDup (map fst entries)) as Hnd.
  { rewrite Hperm. apply obj_spread_nodup, obj_spread_nodup. constructor. }
  apply (StronglySorted_unique_strong key_lt).
  - intros x1 x2 _ _ H12 H21. unfold key_lt in *.
    rewrite (js_string_lt_asym _ _ H12) in H21. discriminate.
  - apply sorted_distinct_keys; [apply Array_sort_sorted|].
    now rewrite (Array_sort_perm compare_keys).
  - apply keyValueList_sorted.
  - unfold keyValueList, Object_entries.
    now rewrite !(Array_sort_perm compare_keys).
Qed.

(** Any sorted permutation of the entries is the array [sort] returns: the
    result does not depend on the sorting algorithm of the engine. *)
Lemma Array_sort_unique container options sorted :
  Permutation sorted
    (obj_spread (obj_spread [] (keyValue container))
       (if negb (truthy_flag (keepWriter options))
        then [(KTXwriter, KVString KTX_WRITER)] else [])) ->
  StronglySorted key_le sorted ->
  sorted = keyValueList container options.
Proof.
  intros Hperm Hsorted.
  apply (StronglySorted_unique_strong key_lt).
  - intros x1 x2 _ _ H12 H21. unfold key_lt in *.
    rewrite (js_string_lt_asym _ _ H12) in H21. discriminate.
  - apply sorted_distinct_keys; [exact Hsorted|].
    rewrite Hperm. apply obj_spread_nodup, obj_spread_nodup. constructor.
  - apply keyValueList_sorted.
  - unfold keyValueList, Object_entries.
    now rewrite (Array_sort_perm compare_keys).
Qed.

(** C9. The file depends on nothing but the content of the container and
    the options: two calls on containers with the same content (in
    particular on the same container) and with options that set
    [keepWriter] alike (in particular the same options) return the same
    result, byte for byte. *)
Theorem write_deterministic (c1 c2 : KTX2Container) (o1 o2 : WriteOptions) :
  same_container c1 c2 ->
  getBlockByteLength c1 = getBlockByteLength c2 ->
  truthy_flag (keepWriter (merge_options DEFAULT_OPTIONS o1))
  = truthy_flag (keepWriter (merge_options DEFAULT_OPTIONS o2)) ->
  write c1 o1 = write c2 o2.
Proof.
  intros (H1 & H2 & H3 & H4 & H5 & H6 & H7 & H8 & H9 & H10 & H11 & Hkv)
    Hblock Hflag.
  pose proof (keyValueList_perm c1 c2 _ _ Hkv Hflag) as Hlist.
  unfold write, kvdBuffer, sgdBuffer, dfd_check, kvdByteOffset, dfdByteOffset,
    levelAlign, pack_init, levelIndex, headerBuffer.
  rewrite Hlist, H1, H2, H3, H4, H5, H6, H7, H8, H9, H10, H11, Hblock.
  reflexivity.
Qed.

(** ** The scenario of section 8 *)

(** C7 (as amended). One level of four bytes, no global data, the scheme
    NONE, the map {"Orientation": "S"} and [keepWriter = false]: the level
    count in the header is 1; the KVD holds two records, "KTXwriter" (the
    generated entry) first and "Orientation" second, as 'K' < 'O'; the SGD
    offset and length are 0; the level index entry holds the end of the
    KVD rounded up to the level alignment, where the payload is. *)
Theorem scenario_layout (container : KTX2Container) (options : WriteOptions)
    (dfd : KTX2DataFormatDescriptorBasicFormat) (dim : list Z)
    (level : KTX2Level) :
  valid_container container dfd dim ->
  levels container = [level] ->
  length (levelData level) = 4%nat ->
  uncompressedByteLength level = 4 ->
  globalData container = None ->
  supercompressionScheme container = KHR_SUPERCOMPRESSION_NONE ->
  keyValue container = [(jsstr "Orientation", KVString (jsstr "S"))] ->
  keepWriter options = Some false ->
  exists out,
    write container options = Ok out
    /\ keyValueList container (merge_options DEFAULT_OPTIONS options)
       = [(jsstr "KTXwriter", KVString KTX_WRITER);
          (jsstr "Orientation", KVString (jsstr "S"))]
    /\ (byteLength out < 2 ^ 32 ->
        let T := Z.of_nat (length KTX2_ID) in
        let kvdOffset := getUint32 out (T + 44) in
        let kvdLength := getUint32 out (T + 48) in
        let levelOffset := getBigUint64 out (T + 68) in
        getUint32 out (T + 28) = 1
        /\ slice out kvdOffset (kvdOffset + kvdLength)
           = kvRecord (jsstr "KTXwriter", KVString KTX_WRITER)
             ++ kvRecord (jsstr "Orientation", KVString (jsstr "S"))
        /\ getBigUint64 out (T + 52) = 0
        /\ getBigUint64 out (T + 60) = 0
        /\ levelOffset
           = round_up (kvdOffset + kvdLength)
               (leastCommonMultiple (getBlockByteLength container) 4)
        /\ getBigUint64 out (T + 68 + 8) = 4
        /\ getBigUint64 out (T + 68 + 16) = 4
        /\ slice out levelOffset (levelOffset + 4) = levelData level).
Proof.
  intros Hvalid Hlevels Hlen Hunc Hglobal Hscheme Hkv Hkeep.
  exists (spec_file container options dfd dim).
  split; [now apply write_valid|].
  assert (keyValueList container (merge_options DEFAULT_OPTIONS options)
          = [(jsstr "KTXwriter", KVString KTX_WRITER);
             (jsstr "Orientation", KVString (jsstr "S"))]) as Hlist.
  { unfold keyValueList. rewrite Hkv, merged_keepWriter, Hkeep. reflexivity. }
  split; [exact Hlist|].
  intros Hsize T kvdOffset kvdLength levelOffset.
  destruct (spec_file_header_read container options dfd dim)
    as (H28 & _ & _ & H44 & H48 & H52 & H60).
  destruct (spec_file_sections container options dfd dim)
    as (_ & Skvd & _ & _ & _ & Hstart).
  assert (levels container !! 0%nat = Some level) as Hi by now rewrite Hlevels.
  destruct (level_entry_fields container options dfd dim 0 level Hi)
    as (Lslice & Loff & Llen & Lunc & Lpos & Lend).
  fold T in H28, H44, H48, H52, H60.
  fold kvdOffset in H44. fold kvdLength in H48.
  unfold levelIndex_entry_offset in Loff, Llen, Lunc.
  change (Z.of_nat 0) with 0 in Loff, Llen, Lunc.
  rewrite Z.mul_0_r, Z.add_0_r in Loff, Llen, Lunc.
  fold T in Loff, Llen, Lunc. fold levelOffset in Loff.
  pose proof (byteLength_nonneg
                (kvdBuffer container (merge_options DEFAULT_OPTIONS options)))
    as Hkvd.
  assert (spec_sgdPadding container options dfd = 0) as Hpad
    by (unfold spec_sgdPadding; now rewrite Hglobal).
  assert (spec_sgd container = []) as Hsgd
    by (unfold spec_sgd; now rewrite Hglobal).
  assert (spec_sgdOffset container options dfd = 0) as Hsgdoff
    by (unfold spec_sgdOffset; now rewrite Hglobal).
  assert (byteLength (levelData level) = 4) as Hlen'
    by (unfold byteLength; lia).
  assert (spec_levelsStart container options dfd
          = spec_kvdOffset container dfd
            + byteLength (kvdBuffer container
                            (merge_options DEFAULT_OPTIONS options)))
    as Hstart'.
  { unfold spec_levelsStart, spec_kvdEnd. rewrite Hpad, Hsgd.
    change (byteLength []) with 0. lia. }
  assert (0 <= spec_kvdOffset container dfd) as Hoff0
    by (unfold spec_kvdOffset, spec_dfdOffset; lia).
  rewrite Hstart' in Hstart.
  rewrite Z.mod_small in H44, H48 by lia.
  rewrite Hlevels in H28. cbn [length] in H28.
  rewrite Hsgdoff in H52. rewrite Hsgd in H60.
  rewrite Hlen' in Llen, Lslice, Lend. rewrite Hunc in Lunc.
  rewrite Z.mod_small in Loff by lia.
  assert (level_offset (levelAlign container)
            (spec_levelsStart container options dfd) (levels container) 0
          = round_up (kvdOffset + kvdLength)
              (leastCommonMultiple (getBlockByteLength container) 4)) as Hlo.
  { unfold level_offset, levelAlign. rewrite Hlevels, Hscheme, Z.eqb_refl.
    cbn [drop level_end]. rewrite Hstart', H44, H48. reflexivity. }
  rewrite Hlo in Loff, Lslice.
  repeat split.
  - exact H28.
  - rewrite H44, H48, Skvd. unfold kvdBuffer, concat. rewrite Hlist.
    cbn [map List.concat]. now rewrite app_nil_r.
  - exact H52.
  - exact H60.
  - exact Loff.
  - exact Llen.
  - exact Lunc.
  - rewrite Loff. exact Lslice.
Qed.

(** ** The records of the key/value data *)

(** The record of an entry: the low byte of its length as a u32, the key,
    a NUL, the value and the padding. *)
Lemma kvRecord_eq (entry : jsstring * KVValue) :
  kvRecord entry
  = u32le (kv_byteLength entry mod 256) ++ encodeText (fst entry) ++ [x00]
    ++ kv_valueData (snd entry)
    ++ replicate (Z.to_nat (getPadding (kv_byteLength entry) 4)) x00.
Proof.
  unfold kvRecord, kv_byteLength, kv_valueData, concat, NUL, ArrayBuffer.
  rewrite concat_Uint32Array_1.
  destruct (snd entry); cbn [List.concat]; rewrite ?app_nil_r; reflexivity.
Qed.

Lemma getPadding_range (v : Z) : 0 <= getPadding v 4 < 4.
Proof. unfold getPadding. apply Z.mod_pos_bound. lia. Qed.

Lemma kv_byteLength_pos (entry : jsstring * KVValue) : 1 <= kv_byteLength entry.
Proof. unfold kv_byteLength, byteLength. lia. Qed.

Lemma length_kvRecord (entry : jsstring * KVValue) :
  Z.of_nat (length (kvRecord entry))
  = 4 + kv_byteLength entry + getPadding (kv_byteLength entry) 4.
Proof.
  rewrite kvRecord_eq, !length_app, length_u32le, length_replicate.
  pose proof (getPadding_range (kv_byteLength entry)).
  unfold kv_byteLength, byteLength in *. cbn [length]. lia.
Qed.

Lemma kvRecord_length_field (entry : jsstring * KVValue) (post : list byte) :
  getUint32 (kvRecord entry ++ post) 0 = kv_byteLength entry mod 256.
Proof.
  rewrite kvRecord_eq, <- app_assoc.
  rewrite getUint32_here by reflexivity.
  pose proof (Z.mod_pos_bound (kv_byteLength entry) 256 ltac:(lia)).
  apply Z.mod_small. lia.
Qed.

(** Of two records with lengths below 256, neither is a proper prefix of
    the other: the length field tells where such a record ends. *)
Lemma kvRecord_prefix (e1 e2 : jsstring * KVValue) (r1 r2 : list byte) :
  kv_byteLength e1 < 256 -> kv_byteLength e2 < 256 ->
  kvRecord e1 ++ r1 = kvRecord e2 ++ r2 ->
  kv_byteLength e1 = kv_byteLength e2 /\ kvRecord e1 = kvRecord e2 /\ r1 = r2.
Proof.
  intros H1 H2 Heq.
  assert (kv_byteLength e1 = kv_byteLength e2) as Hlen.
  { pose proof (kvRecord_length_field e1 r1) as F1.
    pose proof (kvRecord_length_field e2 r2) as F2.
    rewrite Heq, F2 in F1.
    pose proof (kv_byteLength_pos e1). pose proof (kv_byteLength_pos e2).
    rewrite !Z.mod_small in F1 by lia. now symmetry. }
  split; [exact Hlen|].
  apply app_inj_1; [|exact Heq].
  apply Nat2Z.inj. rewrite !length_kvRecord, Hlen. reflexivity.
Qed.

(** X2. Key/value data whose records are short can be split into its
    records in one way only: the length field of a record holds the low
    byte of the length of key, NUL and value, which is that length when it
    is below 256; so when all these lengths are below 256, two key/value
    sections with the same bytes consist of the same records, one by one.
    (From 256 on the field no longer tells where a record ends:
    [kvd_ambiguous_from_256] below.) *)
Theorem kvd_uniquely_decodable (c1 c2 : KTX2Container) (o1 o2 : WriteOptions) :
  Forall (fun e => kv_byteLength e < 256) (keyValueList c1 o1) ->
  Forall (fun e => kv_byteLength e < 256) (keyValueList c2 o2) ->
  kvdBuffer c1 o1 = kvdBuffer c2 o2 ->
  map kvRecord (keyValueList c1 o1) = map kvRecord (keyValueList c2 o2).
Proof.
  unfold kvdBuffer, concat.
  generalize (keyValueList c1 o1) (keyValueList c2 o2). clear c1 c2 o1 o2.
  intros l1 l2 Hl1. revert l2.
  induction Hl1 as [|e1 l1 He1 _ IH]; intros l2 Hl2 Heq.
  - destruct Hl2 as [|e2 l2 _ _]; [reflexivity|].
    cbn [map List.concat] in Heq. apply (f_equal length) in Heq.
    rewrite length_app in Heq. pose proof (length_kvRecord e2).
    pose proof (kv_byteLength_pos e2).
    pose proof (getPadding_range (kv_byteLength e2)).
    cbn [length] in Heq. lia.
  - destruct Hl2 as [|e2 l2 He2 Hl2].
    + cbn [map List.concat] in Heq. apply (f_equal length) in Heq.
      rewrite length_app in Heq. pose proof (length_kvRecord e1).
      pose proof (kv_byteLength_pos e1).
      pose proof (getPadding_range (kv_byteLength e1)).
      cbn [length] in Heq. lia.
    + cbn [map List.concat] in Heq |- *.
      destruct (kvRecord_prefix e1 e2 _ _ He1 He2 Heq) as (_ & Hrec & Hrest).
      rewrite Hrec. f_equal. now apply IH.
Qed.

Lemma app_nul_inj (k1 k2 r1 r2 : list byte) :
  x00 ∉ k1 -> x00 ∉ k2 ->
  k1 ++ x00 :: r1 = k2 ++ x00 :: r2 -> k1 = k2 /\ r1 = r2.
Proof.
  revert k2. induction k1 as [|a k1 IH]; intros [|b k2] H1 H2 Heq;
    cbn [app] in Heq.
  - injection Heq as ->. auto.
  - injection Heq as <- _. exfalso. apply H2. left.
  - injection Heq as -> _. exfalso. apply H1. left.
  - injection Heq as -> Heq.
    apply not_elem_of_cons in H1 as [_ H1].
    apply not_elem_of_cons in H2 as [_ H2].
    destruct (IH k2 H1 H2 Heq) as [-> ->]. auto.
Qed.

(** X3. A record, taken as a whole, determines the bytes of its key and of
    its value, whatever their lengths: two entries whose keys hold no NUL
    byte and whose records are the same bytes have the same encoded key and
    the same stored value (the value bytes, with the NUL that ends a text).
    The low byte of the length, which the record holds, and the size of the
    record together give the length of key, NUL and value. *)
Theorem kvRecord_determines_entry (e1 e2 : jsstring * KVValue) :
  x00 ∉ encodeText (fst e1) -> x00 ∉ encodeText (fst e2) ->
  kvRecord e1 = kvRecord e2 ->
  encodeText (fst e1) = encodeText (fst e2)
  /\ kv_valueData (snd e1) = kv_valueData (snd e2).
Proof.
  intros Hk1 Hk2 Heq.
  assert (kv_byteLength e1 = kv_byteLength e2) as Hlen.
  { pose proof (kvRecord_length_field e1 []) as F1.
    pose proof (kvRecord_length_field e2 []) as F2.
    pose proof (length_kvRecord e1) as N1.
    pose proof (length_kvRecord e2) as N2.
    rewrite Heq, F2 in F1. rewrite Heq, N2 in N1.
    unfold getPadding in N1. clear - F1 N1. lia_div. }
  rewrite !kvRecord_eq in Heq.
  apply app_inj_1 in Heq as [_ Heq]; [|now rewrite !length_u32le].
  cbn [app] in Heq.
  destruct (app_nul_inj _ _ _ _ Hk1 Hk2 Heq) as [Hkey Hrest].
  split; [exact Hkey|].
  apply app_inj_1 in Hrest as [Hval _]; [exact Hval|].
  apply Nat2Z.inj. unfold kv_byteLength, byteLength in Hlen.
  rewrite Hkey in Hlen. lia.
Qed.

Lemma obj_set_length {V} (k : jsstring) (v : V) (o : JsObject V) :
  (1 <= length (obj_set k v o))%nat /\ (length o <= length (obj_set k v o))%nat.
Proof.
  induction o as [|[k' v'] o IH]; cbn; [lia|].
  destruct (js_string_eqb k k'); cbn; lia.
Qed.

Lemma obj_spread_length {V} (target source : JsObject V) :
  (length target <= length (obj_spread target source))%nat.
Proof.
  unfold obj_spread. revert target.
  induction source as [|[k v] source IH]; intros target; cbn; [lia|].
  pose proof (obj_set_length k v target). specialize (IH (obj_set k v target)).
  lia.
Qed.

Lemma obj_spread_nil {V} (source : JsObject V) :
  obj_spread [] source = [] -> source = [].
Proof.
  destruct source as [|[k v] source]; [reflexivity|].
  intros H. apply (f_equal length) in H. unfold obj_spread in H.
  cbn [fold_left fst snd] in H.
  pose proof (obj_spread_length (obj_set k v []) source) as Hlen.
  pose proof (obj_set_length k v []). unfold obj_spread in Hlen.
  rewrite H in Hlen. cbn [length] in Hlen. lia.
Qed.

(** X4. The key/value data is empty exactly when [keepWriter] is true and
    the container has no key/value entry: with the default options the
    writer entry is always there. *)
Theorem kvd_empty_iff (container : KTX2Container) (options : WriteOptions) :
  kvdBuffer container (merge_options DEFAULT_OPTIONS options) = []
  <-> keepWriter options = Some true /\ keyValue container = [].
Proof.
  split.
  - intros Hkvd.
    assert (keyValueList container (merge_options DEFAULT_OPTIONS options) = [])
      as Hlist.
    { unfold kvdBuffer, concat in Hkvd.
      destruct (keyValueList container (merge_options DEFAULT_OPTIONS options))
        as [|e l]; [reflexivity|].
      cbn [map List.concat] in Hkvd. apply (f_equal length) in Hkvd.
      rewrite length_app in Hkvd. pose proof (length_kvRecord e).
      pose proof (kv_byteLength_pos e).
      pose proof (getPadding_range (kv_byteLength e)).
      cbn [length] in Hkvd. lia. }
    unfold keyValueList, Object_entries in Hlist.
    pose proof (Array_sort_perm compare_keys
                  (obj_spread (obj_spread [] (keyValue container))
                     (if negb (truthy_flag
                                 (keepWriter (merge_options DEFAULT_OPTIONS options)))
                      then [(KTXwriter, KVString KTX_WRITER)] else []))) as Hperm.
    rewrite Hlist in Hperm. apply Permutation_nil in Hperm.
    rewrite merged_keepWriter in Hperm.
    destruct (keepWriter options) as [[|]|]; cbn [truthy_flag negb] in Hperm.
    + split; [reflexivity|]. now apply obj_spread_nil.
    + exfalso. apply (f_equal length) in Hperm.
      pose proof (obj_set_length KTXwriter (KVString KTX_WRITER)
                    (obj_spread [] (keyValue container))) as Hlen.
      unfold obj_spread at 1 in Hperm. cbn [fold_left fst snd] in Hperm.
      rewrite Hperm in Hlen. cbn [length] in Hlen. lia.
    + exfalso. apply (f_equal length) in Hperm.
      pose proof (obj_set_length KTXwriter (KVString KTX_WRITER)
                    (obj_spread [] (keyValue container))) as Hlen.
      unfold obj_spread at 1 in Hperm. cbn [fold_left fst snd] in Hperm.
      rewrite Hperm in Hlen. cbn [length] in Hlen. lia.
  - intros [Hkeep Hkv]. unfold kvdBuffer, keyValueList.
    rewrite merged_keepWriter, Hkeep, Hkv. reflexivity.
Qed.

Lemma obj_set_same {V} (k : jsstring) (v : V) (o : JsObject V) :
  NoDup (map fst o) -> (k, v) ∈ o -> obj_set k v o = o.
Proof.
  induction o as [|[k' v'] o IH]; cbn [obj_set map fst]; intros Hnd Hin.
  - now apply elem_of_nil in Hin.
  - apply NoDup_cons in Hnd as [Hk' Hnd].
    apply elem_of_cons in Hin as [Heq|Hin].
    + injection Heq as <- <-. now rewrite js_string_eqb_refl.
    + destruct (js_string_eqb k k') eqn:E.
      * apply js_string_eqb_eq in E. subst k'. exfalso. apply Hk'.
        apply (list_elem_of_fmap_2 fst) in Hin. exact Hin.
      * f_equal. now apply IH.
Qed.

(** X5. When the container already holds the "KTXwriter" entry with the
    writer string that [write] generates, the [keepWriter] option has no
    effect: every choice of options gives the same result. *)
Theorem keepWriter_redundant (container : KTX2Container)
    (o1 o2 : WriteOptions) :
  (KTXwriter, KVString KTX_WRITER) ∈ obj_spread [] (keyValue container) ->
  write container o1 = write container o2.
Proof.
  intros Hin.
  assert (forall o,
            keyValueList container (merge_options DEFAULT_OPTIONS o)
            = Array_sort compare_keys (obj_spread [] (keyValue container)))
    as Hlist.
  { intros o. unfold keyValueList, Object_entries.
    destruct (negb (truthy_flag (keepWriter (merge_options DEFAULT_OPTIONS o))));
      [|reflexivity].
    unfold obj_spread at 1. cbn [fold_left fst snd].
    rewrite obj_set_same; [reflexivity| |exact Hin].
    apply obj_spread_nodup. constructor. }
  unfold write, kvdBuffer. rewrite (Hlist o1), (Hlist o2). reflexivity.
Qed.

(** X6. The two errors of [write], by their messages. The first one is
    thrown exactly when the descriptor collection is not one block of the
    basic-format type; the second exactly when it is, and the block's
    [texelBlockDimension] is the legacy number. On a container that has a
    level 0 when its scheme is NONE, so that the call of
    [getBlockByteLength] has a payload to measure, [write] throws nothing
    else: no store of a [DataView] is out of range. *)
Theorem write_error_messages (container : KTX2Container) (options : WriteOptions) :
  (write container options
   = Throw (Error "Only BASICFORMAT Data Format Descriptor output supported.")
   <-> forall dfd, dataFormatDescriptor container = [dfd] ->
         descriptorType dfd <> KHR_DF_KHR_DESCRIPTORTYPE_BASICFORMAT)
  /\ (write container options
      = Throw (Error "texelBlockDimension is now an array. For dimensionality `d`, set `d - 1`.")
      <-> exists dfd n,
            dataFormatDescriptor container = [dfd]
            /\ descriptorType dfd = KHR_DF_KHR_DESCRIPTORTYPE_BASICFORMAT
            /\ texelBlockDimension dfd = TBD_number n)
  /\ (block_byte_length_readable container ->
      forall e,
        write container options = Throw e ->
        e = Error "Only BASICFORMAT Data Format Descriptor output supported."
        \/ e = Error "texelBlockDimension is now an array. For dimensionality `d`, set `d - 1`.").
Proof.
  assert ((forall dfd, dataFormatDescriptor container = [dfd] ->
             descriptorType dfd <> KHR_DF_KHR_DESCRIPTORTYPE_BASICFORMAT)
          /\ write container options
             = Throw (Error "Only BASICFORMAT Data Format Descriptor output supported.")
          \/ (exists dfd n,
                dataFormatDescriptor container = [dfd]
                /\ descriptorType dfd = KHR_DF_KHR_DESCRIPTORTYPE_BASICFORMAT
                /\ texelBlockDimension dfd = TBD_number n)
             /\ write container options
                = Throw (Error "texelBlockDimension is now an array. For dimensionality `d`, set `d - 1`.")
          \/ (exists dfd dim out,
                dataFormatDescriptor container = [dfd]
                /\ descriptorType dfd = KHR_DF_KHR_DESCRIPTORTYPE_BASICFORMAT
                /\ texelBlockDimension dfd = TBD_array dim
                /\ write container options = Ok out)) as Hcases.
  { destruct (dataFormatDescriptor container) as [|dfd [|dfd' rest]] eqn:Hd.
    - left. split; [intros ? [=]|].
      unfold write, dfd_check. rewrite sgdBuffer_eq, Hd. reflexivity.
    - destruct (Z.eq_dec (descriptorType dfd)
                  KHR_DF_KHR_DESCRIPTORTYPE_BASICFORMAT) as [Ht|Ht].
      + destruct (texelBlockDimension dfd) as [dim|n] eqn:Hdim.
        * right. right. exists dfd, dim, (spec_file container options dfd dim).
          split; [reflexivity|]. split; [exact Ht|]. split; [exact Hdim|].
          now apply write_ok.
        * right. left. split; [exists dfd, n; auto|].
          unfold write, dfd_check.
          rewrite sgdBuffer_eq, Hd, Ht, Z.eqb_refl. cbn [bind negb].
          now rewrite (dfdBuffer_number dfd n Hdim).
      + left. split; [intros ? [= <-]; exact Ht|].
        unfold write, dfd_check. rewrite sgdBuffer_eq, Hd.
        apply Z.eqb_neq in Ht. rewrite Ht. reflexivity.
    - left. split; [intros ? [=]|].
      unfold write, dfd_check. rewrite sgdBuffer_eq, Hd. reflexivity. }
  destruct Hcases as [[Hbad Hw]|[[(dfd & n & Hd & Ht & Hn) Hw]|
                                 (dfd & dim & out & Hd & Ht & Hdim & Hw)]];
    rewrite Hw.
  - split; [split; [intros _; exact Hbad|reflexivity]|]. split.
    + split; [discriminate|]. intros (dfd & n & Hd & Ht & _).
      exfalso. exact (Hbad dfd Hd Ht).
    + intros _ e [= <-]. now left.
  - split.
    + split; [discriminate|]. intros Hbad. exfalso. exact (Hbad dfd Hd Ht).
    + split; [split; [intros _; eauto|reflexivity]|].
      intros _ e [= <-]. now right.
  - split; [split; [discriminate|]|split; [split; [discriminate|]|intros _; discriminate]].
    + intros Hbad. exfalso. exact (Hbad dfd Hd Ht).
    + intros (dfd' & n & Hd' & _ & Hn). rewrite Hd in Hd'.
      injection Hd' as <-. rewrite Hdim in Hn. discriminate.
Qed.

Lemma kvRecords_aligned (l : list (jsstring * KVValue)) :
  (4 | byteLength (concat (map kvRecord l))).
Proof.
  unfold byteLength, concat. induction l as [|e l IH]; cbn [map List.concat].
  - apply Z.divide_0_r.
  - rewrite length_app, Nat2Z.inj_add.
    apply Z.divide_add_r; [apply length_kvRecord_aligned|exact IH].
Qed.

Lemma spec_file_kvd container options dfd dim :
  exists head tail,
    spec_file container options dfd dim
    = head ++ kvdBuffer container (merge_options DEFAULT_OPTIONS options) ++ tail
    /\ Z.of_nat (length head) = spec_kvdOffset container dfd.
Proof.
  exists (Uint8Array_from KTX2_ID
          ++ spec_header container options dfd
          ++ spec_levelIndex (levelAlign container)
               (spec_levelsStart container options dfd) (levels container)
          ++ spec_dfd_block dfd dim),
    (ArrayBuffer (spec_sgdPadding container options dfd)
     ++ spec_sgd container
     ++ level_region (levelAlign container)
          (spec_levelsStart container options dfd) (levels container)).
  split; [unfold spec_file; rewrite <- !app_assoc; reflexivity|].
  rewrite !length_app, length_Uint8Array_from, length_spec_header,
    length_spec_levelIndex, length_spec_dfd_block.
  unfold spec_kvdOffset, spec_dfdOffset. lia.
Qed.

(** X13. What a reader finds for entry [j] of the sorted key/value
    entries, [L] being the length of its key, NUL and value: its record
    starts a multiple of 4 bytes after the start of the key/value data; the
    u32 there is [L] modulo 256, so [L] itself when [L] is below 256 and a
    smaller number from 256 on; the [L] bytes that follow are the encoded
    key, a NUL and the value (a text with its final NUL, raw bytes as they
    are); then come fewer than 4 zero bytes, and right after them the
    record of the next entry. *)
Theorem kvd_record_fields (container : KTX2Container) (options : WriteOptions)
    (dfd : KTX2DataFormatDescriptorBasicFormat) (dim : list Z) :
  valid_container container dfd dim ->
  exists out,
    write container options = Ok out
    /\ forall j entry,
         keyValueList container (merge_options DEFAULT_OPTIONS options) !! j
         = Some entry ->
         let p := kv_record_offset container options dfd j in
         let L := kv_byteLength entry in
         (4 | p - spec_kvdOffset container dfd)
         /\ getUint32 out p = L mod 256
         /\ (L < 256 -> getUint32 out p = L)
         /\ (256 <= L -> getUint32 out p < L)
         /\ slice out (p + 4) (p + 4 + L)
            = encodeText (fst entry) ++ [x00] ++ kv_valueData (snd entry)
         /\ 0 <= getPadding L 4 < 4
         /\ slice out (p + 4 + L) (p + 4 + L + getPadding L 4)
            = replicate (Z.to_nat (getPadding L 4)) x00
         /\ kv_record_offset container options dfd (S j)
            = p + 4 + L + getPadding L 4.
Proof.
  intros Hvalid. exists (spec_file container options dfd dim).
  split; [now apply write_valid|].
  intros j entry Hj p L.
  destruct (spec_file_kvd container options dfd dim)
    as (head & tail & Hfile & Hhead).
  set (entries := keyValueList container (merge_options DEFAULT_OPTIONS options))
    in *.
  set (before := concat (map kvRecord (take j entries))).
  set (after := concat (map kvRecord (drop (S j) entries))).
  assert (kvdBuffer container (merge_options DEFAULT_OPTIONS options)
          = before ++ kvRecord entry ++ after) as Hkvd.
  { unfold kvdBuffer, concat. fold entries. subst before after.
    rewrite <- (take_drop_middle entries j entry Hj) at 1.
    rewrite map_app, concat_app. reflexivity. }
  assert (p = Z.of_nat (length head) + Z.of_nat (length before)) as Hp.
  { subst p. unfold kv_record_offset. fold entries. fold before.
    unfold byteLength. lia. }
  pose proof (kv_byteLength_pos entry) as Hpos. fold L in Hpos.
  pose proof (getPadding_range L) as Hpad.
  pose proof (Z.mod_pos_bound L 256 ltac:(lia)) as Hlow.
  set (body := encodeText (fst entry) ++ [x00] ++ kv_valueData (snd entry)).
  set (padding := replicate (Z.to_nat (getPadding L 4)) x00).
  assert (kvRecord entry = u32le (L mod 256) ++ body ++ padding) as Hrecord.
  { rewrite kvRecord_eq. subst body padding L. now rewrite <- !app_assoc. }
  assert (Z.of_nat (length body) = L) as Hbody.
  { subst body L. rewrite !length_app. unfold kv_byteLength, byteLength.
    cbn [length]. lia. }
  assert (spec_file container options dfd dim
          = (head ++ before) ++ u32le (L mod 256) ++ body ++ padding
            ++ after ++ tail) as Hout.
  { rewrite Hfile, Hkvd, Hrecord, <- !app_assoc. reflexivity. }
  assert (getUint32 (spec_file container options dfd dim) p = L mod 256)
    as Hfield.
  { rewrite Hout.
    rewrite getUint32_skip by (rewrite length_app; lia).
    rewrite getUint32_here by (rewrite length_app; lia).
    apply Z.mod_small. lia. }
  split.
  { replace (p - spec_kvdOffset container dfd) with (byteLength before)
      by (unfold byteLength; lia).
    apply kvRecords_aligned. }
  split; [exact Hfield|].
  split; [intros Hshort; rewrite Hfield; apply Z.mod_small; lia|].
  split; [intros Hlong; rewrite Hfield; lia|].
  split.
  { rewrite Hout, (app_assoc (head ++ before)).
    apply slice_app_middle; rewrite ?length_app, ?length_u32le; lia. }
  split; [exact Hpad|].
  split.
  { rewrite Hout, (app_assoc (head ++ before)),
      (app_assoc ((head ++ before) ++ u32le (L mod 256))).
    subst padding.
    apply slice_app_middle;
      rewrite ?length_app, ?length_u32le, ?length_replicate; lia. }
  unfold kv_record_offset. fold entries.
  rewrite (take_S_r entries j entry Hj), map_app. unfold concat.
  rewrite concat_app. cbn [map List.concat]. rewrite app_nil_r.
  fold (concat (map kvRecord (take j entries))). fold before.
  unfold byteLength. rewrite length_app, Nat2Z.inj_add, length_kvRecord.
  fold L. lia.
Qed.

(** ** The level data region *)

Lemma byteLength_spec_file container options dfd dim :
  byteLength (spec_file container options dfd dim)
  = level_end (levelAlign container)
      (spec_levelsStart container options dfd) (levels container).
Proof.
  unfold spec_file, byteLength.
  rewrite !length_app, length_Uint8Array_from, length_spec_header,
    length_spec_levelIndex, length_spec_dfd_block, length_ArrayBuffer.
  pose proof (length_level_region (levelAlign container)
                (spec_levelsStart container options dfd) (levels container)
                (levelAlign_nonneg container)) as Hregion.
  pose proof (spec_sgdPadding_nonneg container options dfd).
  unfold spec_levelsStart, spec_kvdEnd, spec_kvdOffset, spec_dfdOffset,
    byteLength in *.
  lia.
Qed.

(** X7. The file ends where the payload of level 0 ends: nothing is stored
    after the level data, and level 0 is stored last. This is for a
    container that passes the checks of [write] and has a level 0, and,
    when the scheme is NONE, a block byte length other than 0 for the
    alignment. A container without levels and with another scheme than
    NONE gives a file that ends with the global data (or, without global
    data, with the key/value data); with the scheme NONE such a container
    is not [block_byte_length_readable]: [write] has no level 0 to take the
    block byte length from. *)
Theorem file_ends_with_level_0 (container : KTX2Container)
    (options : WriteOptions) (dfd : KTX2DataFormatDescriptorBasicFormat)
    (dim : list Z) :
  valid_container container dfd dim ->
  (forall level,
     levels container !! 0%nat = Some level ->
     (supercompressionScheme container = KHR_SUPERCOMPRESSION_NONE ->
      getBlockByteLength container <> 0) ->
     exists out,
       write container options = Ok out
       /\ byteLength out
          = level_offset (levelAlign container)
              (spec_levelsStart container options dfd) (levels container) 0
            + byteLength (levelData level))
  /\ (levels container = [] ->
      supercompressionScheme container <> KHR_SUPERCOMPRESSION_NONE ->
      exists out,
        write container options = Ok out
        /\ byteLength out
           = spec_kvdEnd container options dfd
             + spec_sgdPadding container options dfd
             + byteLength (spec_sgd container)).
Proof.
  intros Hvalid.
  pose proof (write_valid container options dfd dim Hvalid) as Hwrite.
  pose proof (byteLength_spec_file container options dfd dim) as Hlen.
  split.
  - intros level Hlevel _. exists (spec_file container options dfd dim).
    split; [exact Hwrite|]. rewrite Hlen. unfold level_offset.
    destruct (levels container) as [|l rest]; [discriminate|].
    injection Hlevel as ->. cbn [level_end drop]. rewrite drop_0. reflexivity.
  - intros Hnone _. exists (spec_file container options dfd dim).
    split; [exact Hwrite|]. rewrite Hlen, Hnone. reflexivity.
Qed.

Lemma level_gap_start_eq container options dfd (i : nat) :
  level_gap_start container options dfd i
  = level_end (levelAlign container) (spec_levelsStart container options dfd)
      (drop (S i) (levels container)).
Proof.
  unfold level_gap_start.
  destruct (levels container !! S i) as [next|] eqn:E.
  - rewrite (drop_S _ _ _ E). reflexivity.
  - apply lookup_ge_None in E. rewrite drop_ge by lia. reflexivity.
Qed.

(** The padding before level [i], in the level data region. *)
Lemma level_region_gap (align start : Z) (lvls : list KTX2Level)
    (i : nat) (level : KTX2Level) :
  0 <= align ->
  lvls !! i = Some level ->
  exists pre post,
    level_region align start lvls
    = pre
      ++ ArrayBuffer (level_offset align start lvls i
                      - level_end align start (drop (S i) lvls))
      ++ post
    /\ start + Z.of_nat (length pre) = level_end align start (drop (S i) lvls).
Proof.
  intros Ha. revert i. induction lvls as [|l rest IH]; intros i Hi.
  - now rewrite lookup_nil in Hi.
  - destruct i as [|i]; cbn [level_region].
    + exists (level_region align start rest), (levelData l).
      unfold level_offset. cbn [drop]. rewrite drop_0.
      split; [reflexivity|].
      pose proof (length_level_region align start rest Ha). lia.
    + cbn in Hi. destruct (IH i Hi) as (pre & post & Hreg & Hoff).
      exists pre, (post ++ ArrayBuffer (round_up (level_end align start rest) align
                                       - level_end align start rest)
                   ++ levelData l).
      split; [rewrite Hreg, <- !app_assoc; reflexivity|].
      exact Hoff.
Qed.

Lemma spec_file_level_region container options dfd dim :
  exists head,
    spec_file container options dfd dim
    = head ++ level_region (levelAlign container)
                (spec_levelsStart container options dfd) (levels container)
    /\ Z.of_nat (length head) = spec_levelsStart container options dfd.
Proof.
  exists (Uint8Array_from KTX2_ID
          ++ spec_header container options dfd
          ++ spec_levelIndex (levelAlign container)
               (spec_levelsStart container options dfd) (levels container)
          ++ spec_dfd_block dfd dim
          ++ kvdBuffer container (merge_options DEFAULT_OPTIONS options)
          ++ ArrayBuffer (spec_sgdPadding container options dfd)
          ++ spec_sgd container).
  split; [unfold spec_file; rewrite <- !app_assoc; reflexivity|].
  rewrite !length_app, length_Uint8Array_from, length_spec_header,
    length_spec_levelIndex, length_spec_dfd_block, length_ArrayBuffer.
  pose proof (spec_sgdPadding_nonneg container options dfd).
  unfold spec_levelsStart, spec_kvdEnd, spec_kvdOffset, spec_dfdOffset, byteLength.
  lia.
Qed.

(** X8. The padding before a level payload is zero bytes and as short as
    the alignment allows: the payload of level [i] starts at or after the
    end of what is stored before it, fewer than [levelAlign] bytes later
    (right there when [levelAlign] is 0), and every byte in between is
    zero. *)
Theorem level_padding (container : KTX2Container) (options : WriteOptions)
    (dfd : KTX2DataFormatDescriptorBasicFormat) (dim : list Z) :
  valid_container container dfd dim ->
  exists out,
    write container options = Ok out
    /\ forall i level,
         levels container !! i = Some level ->
         let offset := level_offset (levelAlign container)
                         (spec_levelsStart container options dfd)
                         (levels container) i in
         let gap := level_gap_start container options dfd i in
         gap <= offset
         /\ (levelAlign container = 0 -> offset = gap)
         /\ (0 < levelAlign container -> offset < gap + levelAlign container)
         /\ slice out gap offset = replicate (Z.to_nat (offset - gap)) x00.
Proof.
  intros Hvalid. exists (spec_file container options dfd dim).
  split; [now apply write_valid|].
  intros i level Hi offset gap.
  pose proof (levelAlign_nonneg container) as Ha.
  assert (gap = level_end (levelAlign container)
                  (spec_levelsStart container options dfd)
                  (drop (S i) (levels container))) as Hgap
    by apply level_gap_start_eq.
  assert (offset = round_up gap (levelAlign container)) as Hoffset
    by (rewrite Hgap; reflexivity).
  split; [rewrite Hoffset; now apply round_up_ge|].
  split; [intros H0; rewrite Hoffset, H0; apply round_up_0|].
  split; [intros Hpos; rewrite Hoffset; now apply round_up_spec|].
  destruct (level_region_gap (levelAlign container)
              (spec_levelsStart container options dfd) (levels container)
              i level Ha Hi) as (pre & post & Hreg & Hpre).
  destruct (spec_file_level_region container options dfd dim)
    as (head & Hfile & Hhead).
  fold offset in Hreg. rewrite <- Hgap in Hreg, Hpre.
  rewrite Hfile, Hreg, app_assoc.
  pose proof (round_up_ge gap (levelAlign container) Ha) as Hge.
  rewrite <- Hoffset in Hge.
  apply slice_app_middle;
    rewrite ?length_app, ?length_ArrayBuffer, ?length_replicate; lia.
Qed.

(** X9. The length fields of a level index entry are not truncated to 32
    bits as the offset is: for a file of any size, the second and third
    fields of the entry of level [i] are the length of its payload and its
    [uncompressedByteLength], as 64-bit values. *)
Theorem level_lengths_exact (container : KTX2Container)
    (options : WriteOptions) (dfd : KTX2DataFormatDescriptorBasicFormat)
    (dim : list Z) :
  valid_container container dfd dim ->
  exists out,
    write container options = Ok out
    /\ forall i level,
         levels container !! i = Some level ->
         getBigUint64 out (levelIndex_entry_offset i + 8)
         = ToBigUint64 (byteLength (levelData level))
         /\ getBigUint64 out (levelIndex_entry_offset i + 16)
            = ToBigUint64 (uncompressedByteLength level).
Proof.
  intros Hvalid. exists (spec_file container options dfd dim).
  split; [now apply write_valid|].
  intros i level Hi.
  destruct (level_entry_fields container options dfd dim i level Hi)
    as (_ & _ & Hlen & Hunc & _).
  split; assumption.
Qed.

(** ** The identifier and the fields that describe the texture *)

(** X10. The file starts with the identifier, each of its elements stored
    as one byte, and the nine u32 fields that follow read back as the
    container's [vkFormat], [typeSize], [pixelWidth], [pixelHeight],
    [pixelDepth], [layerCount], [faceCount], the number of entries of
    [levels], and [supercompressionScheme], each reduced modulo 2^32. *)
Theorem header_scalar_fields (container : KTX2Container)
    (options : WriteOptions) (dfd : KTX2DataFormatDescriptorBasicFormat)
    (dim : list Z) :
  valid_container container dfd dim ->
  exists out,
    write container options = Ok out
    /\ let T := Z.of_nat (length KTX2_ID) in
       slice out 0 T = map (fun v => byte_of_Z (ToUint8 v)) KTX2_ID
       /\ getUint32 out (T + 0) = ToUint32 (vkFormat container)
       /\ getUint32 out (T + 4) = ToUint32 (typeSize container)
       /\ getUint32 out (T + 8) = ToUint32 (pixelWidth container)
       /\ getUint32 out (T + 12) = ToUint32 (pixelHeight container)
       /\ getUint32 out (T + 16) = ToUint32 (pixelDepth container)
       /\ getUint32 out (T + 20) = ToUint32 (layerCount container)
       /\ getUint32 out (T + 24) = ToUint32 (faceCount container)
       /\ getUint32 out (T + 28)
          = ToUint32 (Z.of_nat (length (levels container)))
       /\ getUint32 out (T + 32) = ToUint32 (supercompressionScheme container).
Proof.
  intros Hvalid. exists (spec_file container options dfd dim).
  split; [now apply write_valid|].
  intros T. subst T. unfold spec_file, spec_header, ToUint32.
  rewrite <- (length_Uint8Array_from KTX2_ID). rewrite <- !app_assoc.
  split; [now apply slice_here|].
  repeat split; skip_fields; apply getUint32_here;
    rewrite ?length_u32le; lia.
Qed.

(** ** The data format descriptor *)

Lemma u8_elt_default (v : option Z) : u8_elt v = u8 (default 0 v).
Proof.
  destruct v as [z|]; [|reflexivity].
  unfold u8_elt, ToUint8_elt. cbn [default]. apply le_bytes_ToUint8.
Qed.

(** X11. For a [texelBlockDimension] array, the DFD block is, in this
    order: its total size 28 + 16 * samples (u32), the vendor id, the
    descriptor type, the version number and the descriptor block size
    24 + 16 * samples (u16 each), the colour model, the primaries, the
    transfer function and the flags (u8 each), the first four elements of
    [texelBlockDimension] and the first eight of [bytesPlane] (u8 each),
    and 16 bytes per sample. An array element that is absent is stored as
    0, further elements are ignored, and the bounds of a sample are stored
    as the low 32 bits of their two's complement whether or not the sample
    is signed. *)
Theorem dfd_block_layout (dfd : KTX2DataFormatDescriptorBasicFormat)
    (dim : list Z) :
  texelBlockDimension dfd = TBD_array dim ->
  exists block,
    dfdBuffer dfd = Ok block
    /\ block
       = u32le (28 + 16 * Z.of_nat (length (samples dfd)))
         ++ u16le (vendorId dfd) ++ u16le (descriptorType dfd)
         ++ u16le (versionNumber dfd)
         ++ u16le (24 + 16 * Z.of_nat (length (samples dfd)))
         ++ u8 (colorModel dfd) ++ u8 (colorPrimaries dfd)
         ++ u8 (transferFunction dfd) ++ u8 (flags dfd)
         ++ List.concat (map (fun i => u8 (default 0 (dim !! i))) (seq 0 4))
         ++ List.concat
              (map (fun i => u8 (default 0 (bytesPlane dfd !! i))) (seq 0 8))
         ++ List.concat
              (map (fun sample =>
                      u16le (bitOffset sample) ++ u8 (bitLength sample)
                      ++ u8 (channelType sample)
                      ++ List.concat
                           (map (fun i =>
                                   u8 (default 0 (samplePosition sample !! i)))
                              (seq 0 4))
                      ++ u32le (sampleLower sample)
                      ++ u32le (sampleUpper sample))
                 (samples dfd))
    /\ length block = (28 + 16 * length (samples dfd))%nat.
Proof.
  intros Hdim. exists (spec_dfd_block dfd dim).
  split; [now apply dfdBuffer_array|].
  split; [|apply length_spec_dfd_block].
  unfold spec_dfd_block. cbn [seq map List.concat].
  rewrite !u8_elt_default, !app_nil_r, <- !app_assoc.
  do 22 f_equal. apply map_ext. intros sample.
  unfold spec_sample. rewrite !u8_elt_default, app_nil_r, <- !app_assoc.
  reflexivity.
Qed.

Lemma ToInt32_ToUint32 (v : Z) : ToInt32 (ToUint32 v) = ToInt32 v.
Proof.
  unfold ToInt32, ToUint32. rewrite Zplus_mod_idemp_l. reflexivity.
Qed.

Lemma getInt32_getUint32 (buf : list byte) (off : Z) :
  getInt32 buf off = ToInt32 (getUint32 buf off).
Proof. reflexivity. Qed.

(** The two bounds of sample [i], in the DFD block. *)
Lemma spec_dfd_block_sample dfd dim (i : nat) sample :
  samples dfd !! i = Some sample ->
  exists pre post,
    spec_dfd_block dfd dim
    = pre ++ (u32le (sampleLower sample) ++ u32le (sampleUpper sample)) ++ post
    /\ Z.of_nat (length pre) = 28 + 16 * Z.of_nat i + 8.
Proof.
  intros Hi.
  assert (length (take i (samples dfd)) = i) as Hlen.
  { apply length_take_le, Nat.lt_le_incl. eapply lookup_lt_Some; eauto. }
  set (before := List.concat (map spec_sample (take i (samples dfd)))).
  set (after := List.concat (map spec_sample (drop (S i) (samples dfd)))).
  assert (List.concat (map spec_sample (samples dfd))
          = before ++ spec_sample sample ++ after) as Hsplit.
  { subst before after.
    rewrite <- (take_drop_middle (samples dfd) i sample Hi) at 1.
    rewrite map_app, concat_app. reflexivity. }
  assert (length before = (i * 16)%nat) as Hbefore.
  { subst before. rewrite (length_concat_fixed _ 16), Hlen; [reflexivity|].
    apply length_spec_sample. }
  unfold spec_dfd_block. rewrite Hsplit. unfold spec_sample.
  exists (u32le (28 + 16 * Z.of_nat (length (samples dfd)))
          ++ u16le (vendorId dfd) ++ u16le (descriptorType dfd)
          ++ u16le (versionNumber dfd)
          ++ u16le (24 + 16 * Z.of_nat (length (samples dfd)))
          ++ u8 (colorModel dfd) ++ u8 (colorPrimaries dfd)
          ++ u8 (transferFunction dfd) ++ u8 (flags dfd)
          ++ u8_elt (dim !! 0%nat) ++ u8_elt (dim !! 1%nat)
          ++ u8_elt (dim !! 2%nat) ++ u8_elt (dim !! 3%nat)
          ++ List.concat (map (fun i => u8_elt (bytesPlane dfd !! i)) (seq 0 8))
          ++ before
          ++ u16le (bitOffset sample) ++ u8 (bitLength sample)
          ++ u8 (channelType sample)
          ++ u8_elt (samplePosition sample !! 0%nat)
          ++ u8_elt (samplePosition sample !! 1%nat)
          ++ u8_elt (samplePosition sample !! 2%nat)
          ++ u8_elt (samplePosition sample !! 3%nat)), after.
  split; [rewrite <- !app_assoc; reflexivity|].
  cbn [seq map List.concat]. rewrite !length_app, Hbefore. len.
Qed.

(** X12. The bounds of sample [i] read back from the DFD block at
    28 + 16 * i + 8 and + 12: an unsigned read gives the bound modulo 2^32
    and a signed read gives it as a 32-bit two's complement value, whether
    the sample is signed or not. So a bound between -2^31 and 2^31 - 1 is
    read back unchanged by a signed read, and a bound between 0 and
    2^32 - 1 by an unsigned read. *)
Theorem sample_bounds_read_back (dfd : KTX2DataFormatDescriptorBasicFormat)
    (dim : list Z) (i : nat) (sample : KTX2BasicFormatSample) :
  texelBlockDimension dfd = TBD_array dim ->
  samples dfd !! i = Some sample ->
  exists block,
    dfdBuffer dfd = Ok block
    /\ let lower := 28 + 16 * Z.of_nat i + 8 in
       let upper := 28 + 16 * Z.of_nat i + 12 in
       getUint32 block lower = ToUint32 (sampleLower sample)
       /\ getUint32 block upper = ToUint32 (sampleUpper sample)
       /\ getInt32 block lower = ToInt32 (sampleLower sample)
       /\ getInt32 block upper = ToInt32 (sampleUpper sample)
       /\ (- 2 ^ 31 <= sampleLower sample < 2 ^ 31 ->
           getInt32 block lower = sampleLower sample)
       /\ (- 2 ^ 31 <= sampleUpper sample < 2 ^ 31 ->
           getInt32 block upper = sampleUpper sample)
       /\ (0 <= sampleLower sample < 2 ^ 32 ->
           getUint32 block lower = sampleLower sample)
       /\ (0 <= sampleUpper sample < 2 ^ 32 ->
           getUint32 block upper = sampleUpper sample).
Proof.
  intros Hdim Hi. exists (spec_dfd_block dfd dim).
  split; [now apply dfdBuffer_array|].
  intros lower upper.
  destruct (spec_dfd_block_sample dfd dim i sample Hi)
    as (pre & post & Hblock & Hpre).
  assert (getUint32 (spec_dfd_block dfd dim) lower
          = ToUint32 (sampleLower sample)) as Hlower.
  { rewrite Hblock, <- app_assoc. rewrite getUint32_skip by lia.
    apply getUint32_here. lia. }
  assert (getUint32 (spec_dfd_block dfd dim) upper
          = ToUint32 (sampleUpper sample)) as Hupper.
  { rewrite Hblock, <- app_assoc. rewrite getUint32_skip by lia.
    rewrite getUint32_skip by (rewrite length_u32le; lia).
    apply getUint32_here. rewrite length_u32le. lia. }
  rewrite !getInt32_getUint32, Hlower, Hupper, !ToInt32_ToUint32.
  unfold ToInt32, ToUint32.
  repeat split; try reflexivity; intros Hrange; rewrite Z.mod_small; lia.
Qed.

End Write.

(** * The model on the sample inputs *)

Local Abbreviation sample_write :=
  (write sample_KTX2_ID sample_KTX_WRITER sample_BASICFORMAT sample_SIGNED
     sample_NONE sample_getBlockByteLength).

(** C1, a caller-supplied "KTXwriter" entry without [keepWriter]: the value
    serialized is the generated one, not the caller's. *)
Lemma kvd_writer_entry_counterexample :
  keyValue writer_container = [(jsstr "KTXwriter", KVString (jsstr "my-tool"))]
  /\ keyValueList sample_KTX_WRITER writer_container
       (merge_options DEFAULT_OPTIONS {| keepWriter := Some false |})
     = [(jsstr "KTXwriter", KVString (jsstr "KTX-Parse v1.0.0"))]
  /\ kvdBuffer sample_KTX_WRITER writer_container
       (merge_options DEFAULT_OPTIONS {| keepWriter := Some false |})
     = kvRecord (jsstr "KTXwriter", KVString (jsstr "KTX-Parse v1.0.0")).
Proof. repeat split; vm_compute; reflexivity. Qed.

Lemma kvd_writer_entry_witness :
  (jsstr "KTXwriter", KVString sample_KTX_WRITER)
    ∈ keyValueList sample_KTX_WRITER writer_container
        (merge_options DEFAULT_OPTIONS {| keepWriter := None |})
  /\ (jsstr "KTXwriter", KVString (jsstr "my-tool"))
       ∈ keyValueList sample_KTX_WRITER writer_container
           (merge_options DEFAULT_OPTIONS {| keepWriter := Some true |}).
Proof.
  split.
  - destruct (proj1 (kvd_writer_entry sample_KTX_WRITER writer_container
                       {| keepWriter := None |}) ltac:(discriminate))
      as [Hwriter _].
    apply Hwriter. reflexivity.
  - apply (proj2 (kvd_writer_entry sample_KTX_WRITER writer_container
                    {| keepWriter := Some true |}) eq_refl).
    vm_compute. left.
Defined.

(** C2, a [texelBlockDimension] array of three elements: no error. *)
Lemma write_throws_iff_counterexample :
  (exists dfd, dataFormatDescriptor short_dimension_container = [dfd]
               /\ texelBlockDimension dfd = TBD_array [0; 0; 0])
  /\ is_ok (sample_write short_dimension_container {| keepWriter := None |}) = true.
Proof. split; [eexists; split; reflexivity | vm_compute; reflexivity]. Qed.

Lemma write_throws_iff_witness :
  block_byte_length_readable sample_NONE legacy_dimension_container
  /\ (exists e,
        sample_write legacy_dimension_container {| keepWriter := None |}
        = Throw e)
  /\ block_byte_length_readable sample_NONE short_dimension_container
  /\ ~ (exists e,
          sample_write short_dimension_container {| keepWriter := None |}
          = Throw e).
Proof.
  assert (block_byte_length_readable sample_NONE legacy_dimension_container)
    as Hlegacy by (intros _; discriminate).
  assert (block_byte_length_readable sample_NONE short_dimension_container)
    as Hshort by (intros _; discriminate).
  split; [exact Hlegacy|]. split.
  - apply (write_throws_iff sample_KTX2_ID sample_KTX_WRITER
             sample_BASICFORMAT sample_SIGNED sample_NONE
             sample_getBlockByteLength legacy_dimension_container
             {| keepWriter := None |} Hlegacy).
    right. eexists. exists 0. split; reflexivity.
  - split; [exact Hshort|]. intros Hthrow.
    apply (write_throws_iff sample_KTX2_ID sample_KTX_WRITER
             sample_BASICFORMAT sample_SIGNED sample_NONE
             sample_getBlockByteLength short_dimension_container
             {| keepWriter := None |} Hshort) in Hthrow.
    destruct Hthrow as [Hbad|(dfd & n & Hd & Hn)].
    + exact (Hbad _ eq_refl eq_refl).
    + injection Hd as <-. discriminate Hn.
Defined.

Local Abbreviation sample_valid container :=
  (valid_container sample_BASICFORMAT container sample_dfd [0; 0; 0; 0]).

Lemma sample_container_valid : sample_valid sample_container.
Proof. repeat split. Qed.

Lemma scenario_container_valid : sample_valid scenario_container.
Proof. repeat split. Qed.

(** The file of a sample container is shorter than 2^32 bytes. *)
Ltac sample_size Hwrite :=
  let H := fresh in
  pose proof Hwrite as H; vm_compute in H;
  injection H as <-; reflexivity.

Lemma level_index_correct_witness :
  sample_valid sample_container
  /\ exists out,
       sample_write sample_container {| keepWriter := None |} = Ok out
       /\ byteLength out < 2 ^ 32
       /\ forall i level,
            levels sample_container !! i = Some level ->
            let offset := getBigUint64 out (levelIndex_entry_offset sample_KTX2_ID i) in
            let len := getBigUint64 out (levelIndex_entry_offset sample_KTX2_ID i + 8) in
            len = byteLength (levelData level)
            /\ slice out offset (offset + len) = levelData level
            /\ getBigUint64 out (levelIndex_entry_offset sample_KTX2_ID i + 16)
               = ToBigUint64 (uncompressedByteLength level)
            /\ forall j level',
                 (i < j)%nat -> levels sample_container !! j = Some level' ->
                 getBigUint64 out (levelIndex_entry_offset sample_KTX2_ID j)
                 + byteLength (levelData level') <= offset.
Proof.
  split; [exact sample_container_valid|].
  destruct (level_index_correct sample_KTX2_ID sample_KTX_WRITER
              sample_BASICFORMAT sample_SIGNED sample_NONE
              sample_getBlockByteLength sample_container
              {| keepWriter := None |} sample_dfd [0; 0; 0; 0]
              sample_container_valid) as (out & Hwrite & Hentries).
  assert (byteLength out < 2 ^ 32) as Hsize by sample_size Hwrite.
  exists out. split; [exact Hwrite|]. split; [exact Hsize|].
  exact (Hentries Hsize).
Defined.

Lemma huge_container_valid : sample_valid huge_container.
Proof. repeat split. Qed.

Lemma byteLength_huge_payload : byteLength huge_payload = 2 ^ 32.
Proof. unfold byteLength, huge_payload. rewrite length_replicate. lia. Qed.

(** The level data of the huge container starts at offset 172; level 1 is
    stored there and level 0 after it. *)
Lemma huge_container_offsets :
  let align := levelAlign sample_NONE sample_getBlockByteLength huge_container in
  let start := spec_levelsStart sample_KTX2_ID sample_KTX_WRITER huge_container
                 {| keepWriter := Some true |} sample_dfd in
  level_offset align start (levels huge_container) 1 = 172
  /\ level_offset align start (levels huge_container) 0 = 172 + 2 ^ 32.
Proof.
  intros align start.
  assert (align = 0) as -> by reflexivity.
  assert (start = 172) as -> by reflexivity.
  unfold level_offset.
  change (drop 2 (levels huge_container)) with (@nil KTX2Level).
  change (drop 1 (levels huge_container))
    with [ {| levelData := huge_payload; uncompressedByteLength := 2 ^ 32 |} ].
  cbn [level_end levelData]. rewrite !round_up_0, byteLength_huge_payload.
  split; reflexivity.
Qed.

Lemma level_offsets_truncated_witness :
  sample_valid huge_container
  /\ exists out,
       sample_write huge_container {| keepWriter := Some true |} = Ok out
       /\ slice out (172 + 2 ^ 32) (172 + 2 ^ 32 + 1) = [x07]
       /\ getBigUint64 out (levelIndex_entry_offset sample_KTX2_ID 0) = 172
       /\ getBigUint64 out (levelIndex_entry_offset sample_KTX2_ID 0)
          < 172 + 2 ^ 32.
Proof.
  split; [exact huge_container_valid|].
  destruct (level_offsets_truncated sample_KTX2_ID sample_KTX_WRITER
              sample_BASICFORMAT sample_SIGNED sample_NONE
              sample_getBlockByteLength huge_container
              {| keepWriter := Some true |} sample_dfd [0; 0; 0; 0]
              huge_container_valid) as (out & Hwrite & Hentries).
  destruct (Hentries 0%nat {| levelData := [x07]; uncompressedByteLength := 1 |}
              eq_refl) as (Hslice & Hfield & Htrunc).
  destruct huge_container_offsets as (_ & Hoffset).
  cbv zeta in Hslice, Hfield, Htrunc, Hoffset.
  rewrite Hoffset in Hslice, Hfield, Htrunc.
  exists out. split; [exact Hwrite|]. split; [exact Hslice|].
  split; [exact Hfield|]. apply Htrunc. lia.
Defined.

(** C3 at the huge container: the level index entry of level 0 holds the
    offset 172 and the length 1, and the byte of the file at offset 172 is
    the first byte of level 1, not the payload of level 0. *)
Lemma level_index_wrong_beyond_4GiB :
  sample_valid huge_container
  /\ levels huge_container !! 0%nat
     = Some {| levelData := [x07]; uncompressedByteLength := 1 |}
  /\ exists out,
       sample_write huge_container {| keepWriter := Some true |} = Ok out
       /\ getBigUint64 out (levelIndex_entry_offset sample_KTX2_ID 0) = 172
       /\ getBigUint64 out (levelIndex_entry_offset sample_KTX2_ID 0 + 8) = 1
       /\ slice out 172 (172 + 1) = [x00].
Proof.
  split; [exact huge_container_valid|]. split; [reflexivity|].
  exists (spec_file sample_KTX2_ID sample_KTX_WRITER sample_NONE
            sample_getBlockByteLength huge_container
            {| keepWriter := Some true |} sample_dfd [0; 0; 0; 0]).
  split; [apply write_valid, huge_container_valid|].
  destruct huge_container_offsets as (Hoff1 & Hoff0).
  cbv zeta in Hoff1, Hoff0.
  destruct (level_entry_fields sample_KTX2_ID sample_KTX_WRITER sample_NONE
              sample_getBlockByteLength huge_container
              {| keepWriter := Some true |} sample_dfd [0; 0; 0; 0] 0
              {| levelData := [x07]; uncompressedByteLength := 1 |} eq_refl)
    as (_ & Hfield & Hlen & _).
  destruct (spec_file_level_payload sample_KTX2_ID sample_KTX_WRITER sample_NONE
              sample_getBlockByteLength huge_container
              {| keepWriter := Some true |} sample_dfd [0; 0; 0; 0] 1
              {| levelData := huge_payload; uncompressedByteLength := 2 ^ 32 |}
              eq_refl) as (pre & post & Hfile & Hpre).
  cbv zeta in Hfield, Hlen. rewrite Hoff0 in Hfield. rewrite Hoff1 in Hpre.
  split; [rewrite Hfield; reflexivity|].
  split; [rewrite Hlen; reflexivity|].
  rewrite Hfile. cbn [levelData].
  assert (huge_payload = [x00] ++ replicate (Z.to_nat (2 ^ 32 - 1)) x00) as ->.
  { unfold huge_payload.
    replace (Z.to_nat (2 ^ 32)) with (S (Z.to_nat (2 ^ 32 - 1))) by lia.
    reflexivity. }
  rewrite <- app_assoc. apply slice_app_middle; cbn [length]; lia.
Qed.

Lemma header_layout_witness :
  sample_valid sample_container
  /\ exists out,
       sample_write sample_container {| keepWriter := None |} = Ok out
       /\ spec_kvdEnd sample_KTX2_ID sample_KTX_WRITER sample_container
            {| keepWriter := None |} sample_dfd < 2 ^ 32
       /\ byteLength out < 2 ^ 64
       /\ let T := Z.of_nat (length sample_KTX2_ID) in
          let dfdOffset := getUint32 out (T + 36) in
          let dfdLength := getUint32 out (T + 40) in
          let kvdOffset := getUint32 out (T + 44) in
          let kvdLength := getUint32 out (T + 48) in
          let sgdOffset := getBigUint64 out (T + 52) in
          let sgdLength := getBigUint64 out (T + 60) in
          dfdOffset = T + HEADER_BYTE_LENGTH + 24 * 2
          /\ (exists dfdBuf,
                dfdBuffer sample_SIGNED sample_dfd = Ok dfdBuf
                /\ dfdLength = byteLength dfdBuf
                /\ slice out dfdOffset (dfdOffset + dfdLength) = dfdBuf)
          /\ kvdOffset = dfdOffset + dfdLength
          /\ kvdLength
             = byteLength
                 (kvdBuffer sample_KTX_WRITER sample_container
                    (merge_options DEFAULT_OPTIONS {| keepWriter := None |}))
          /\ slice out kvdOffset (kvdOffset + kvdLength)
             = kvdBuffer sample_KTX_WRITER sample_container
                 (merge_options DEFAULT_OPTIONS {| keepWriter := None |})
          /\ (exists sgdBuf,
                sgdBuffer sample_container = Ok sgdBuf
                /\ sgdLength = byteLength sgdBuf
                /\ slice out sgdOffset (sgdOffset + sgdLength) = sgdBuf)
          /\ sgdOffset mod 8 = 0
          /\ kvdOffset + kvdLength <= sgdOffset < kvdOffset + kvdLength + 8
          /\ slice out (kvdOffset + kvdLength) sgdOffset
             = ArrayBuffer (sgdOffset - (kvdOffset + kvdLength))
          /\ 20 <= sgdLength.
Proof.
  split; [exact sample_container_valid|].
  destruct (header_layout sample_KTX2_ID sample_KTX_WRITER
              sample_BASICFORMAT sample_SIGNED sample_NONE
              sample_getBlockByteLength sample_container
              {| keepWriter := None |} sample_dfd [0; 0; 0; 0]
              sample_container_valid) as (out & Hwrite & Hfields).
  assert (spec_kvdEnd sample_KTX2_ID sample_KTX_WRITER sample_container
            {| keepWriter := None |} sample_dfd < 2 ^ 32) as Hkvd
    by (vm_compute; reflexivity).
  assert (byteLength out < 2 ^ 64) as Hsize by sample_size Hwrite.
  exists out. split; [exact Hwrite|]. split; [exact Hkvd|].
  split; [exact Hsize|]. exact (Hfields Hkvd Hsize).
Defined.

Lemma alignment_witness :
  sample_valid scenario_container
  /\ supercompressionScheme scenario_container = sample_NONE
  /\ supercompressionScheme sample_container <> sample_NONE
  /\ (exists out,
        sample_write scenario_container {| keepWriter := None |} = Ok out
        /\ (forall i level,
              levels scenario_container !! i = Some level ->
              exists offset,
                slice out offset (offset + byteLength (levelData level))
                = levelData level
                /\ getBigUint64 out (levelIndex_entry_offset sample_KTX2_ID i)
                   = offset mod 2 ^ 32
                /\ (leastCommonMultiple
                      (sample_getBlockByteLength scenario_container) 4 | offset))
        /\ Forall (fun entry => (4 | Z.of_nat (length (kvRecord entry))))
             (keyValueList sample_KTX_WRITER scenario_container
                (merge_options DEFAULT_OPTIONS {| keepWriter := None |})))
  /\ (exists out,
        sample_write sample_container {| keepWriter := None |} = Ok out
        /\ slice out
             (spec_levelsStart sample_KTX2_ID sample_KTX_WRITER sample_container
                {| keepWriter := None |} sample_dfd)
             (byteLength out)
           = [x21; x22; x23] ++ [x11; x12; x13; x14; x15]).
Proof.
  split; [exact scenario_container_valid|].
  split; [reflexivity|]. split; [discriminate|]. split.
  - destruct (alignment sample_KTX2_ID sample_KTX_WRITER
                sample_BASICFORMAT sample_SIGNED sample_NONE
                sample_getBlockByteLength scenario_container
                {| keepWriter := None |} sample_dfd [0; 0; 0; 0]
                scenario_container_valid)
      as (out & Hwrite & Haligned & _ & _ & Hrecords).
    exists out. split; [exact Hwrite|]. split; [|exact Hrecords].
    apply Haligned; [reflexivity|discriminate].
  - destruct (alignment sample_KTX2_ID sample_KTX_WRITER
                sample_BASICFORMAT sample_SIGNED sample_NONE
                sample_getBlockByteLength sample_container
                {| keepWriter := None |} sample_dfd [0; 0; 0; 0]
                sample_container_valid)
      as (out & Hwrite & _ & Hpacked & _).
    exists out. split; [exact Hwrite|].
    apply Hpacked. discriminate.
Defined.

Lemma scenario_layout_witness :
  sample_valid scenario_container
  /\ exists out,
       sample_write scenario_container {| keepWriter := Some false |} = Ok out
       /\ keyValueList sample_KTX_WRITER scenario_container
            (merge_options DEFAULT_OPTIONS {| keepWriter := Some false |})
          = [(jsstr "KTXwriter", KVString sample_KTX_WRITER);
             (jsstr "Orientation", KVString (jsstr "S"))]
       /\ byteLength out < 2 ^ 32
       /\ let T := Z.of_nat (length sample_KTX2_ID) in
          let kvdOffset := getUint32 out (T + 44) in
          let kvdLength := getUint32 out (T + 48) in
          let levelOffset := getBigUint64 out (T + 68) in
          getUint32 out (T + 28) = 1
          /\ slice out kvdOffset (kvdOffset + kvdLength)
             = kvRecord (jsstr "KTXwriter", KVString sample_KTX_WRITER)
               ++ kvRecord (jsstr "Orientation", KVString (jsstr "S"))
          /\ getBigUint64 out (T + 52) = 0
          /\ getBigUint64 out (T + 60) = 0
          /\ levelOffset
             = round_up (kvdOffset + kvdLength)
                 (leastCommonMultiple
                    (sample_getBlockByteLength scenario_container) 4)
          /\ getBigUint64 out (T + 68 + 8) = 4
          /\ getBigUint64 out (T + 68 + 16) = 4
          /\ slice out levelOffset (levelOffset + 4) = [x01; x02; x03; x04].
Proof.
  split; [exact scenario_container_valid|].
  destruct (scenario_layout sample_KTX2_ID sample_KTX_WRITER
              sample_BASICFORMAT sample_SIGNED sample_NONE
              sample_getBlockByteLength scenario_container
              {| keepWriter := Some false |} sample_dfd [0; 0; 0; 0]
              {| levelData := [x01; x02; x03; x04];
                 uncompressedByteLength := 4 |}
              scenario_container_valid eq_refl eq_refl eq_refl eq_refl
              eq_refl eq_refl eq_refl)
    as (out & Hwrite & Hlist & Hfields).
  assert (byteLength out < 2 ^ 32) as Hsize by sample_size Hwrite.
  exists out. split; [exact Hwrite|]. split; [exact Hlist|].
  split; [exact Hsize|]. exact (Hfields Hsize).
Defined.

Lemma sgd_block_layout_witness :
  globalData sample_container = Some sample_globalData
  /\ exists block,
       sgdBuffer sample_container = Ok block
       /\ length block = (20 + 20 * 1 + 2 + 1 + 3 + 0)%nat
       /\ exists out pre levelData,
            sample_write sample_container {| keepWriter := None |} = Ok out
            /\ out = pre ++ block ++ levelData
            /\ Z.of_nat (length pre) mod 8 = 0.
Proof.
  split; [reflexivity|].
  destruct (sgd_block_layout sample_KTX2_ID sample_KTX_WRITER
              sample_BASICFORMAT sample_SIGNED sample_NONE
              sample_getBlockByteLength sample_container
              {| keepWriter := None |} sample_globalData eq_refl)
    as (block & Hblock & _ & Hlen & Hfile).
  exists block. split; [exact Hblock|]. split; [exact Hlen|].
  destruct (sample_write sample_container {| keepWriter := None |})
    as [out|e] eqn:Hwrite; [|vm_compute in Hwrite; discriminate].
  destruct (Hfile out eq_refl) as (pre & levelData & Hout & Hpre & _).
  exists out, pre, levelData.
  split; [reflexivity|]. split; [exact Hout|exact Hpre].
Defined.

Lemma write_deterministic_witness :
  same_container sample_container sample_container_reordered
  /\ sample_write sample_container {| keepWriter := None |}
     = sample_write sample_container_reordered {| keepWriter := Some false |}.
Proof.
  assert (same_container sample_container sample_container_reordered) as Hsame.
  { repeat split. vm_compute. apply perm_swap. }
  split; [exact Hsame|].
  apply (write_deterministic sample_KTX2_ID sample_KTX_WRITER
           sample_BASICFORMAT sample_SIGNED sample_NONE
           sample_getBlockByteLength sample_container
           sample_container_reordered {| keepWriter := None |}
           {| keepWriter := Some false |} Hsame);
    reflexivity.
Defined.

Lemma kvd_key_order_witness :
  Forall (fun entry => Forall is_scalar_unit (fst entry))
    (keyValueList sample_KTX_WRITER sample_container
       (merge_options DEFAULT_OPTIONS {| keepWriter := None |}))
  /\ StronglySorted utf8_key_lt
       (keyValueList sample_KTX_WRITER sample_container
          (merge_options DEFAULT_OPTIONS {| keepWriter := None |})).
Proof.
  assert (Forall (fun entry => Forall is_scalar_unit (fst entry))
            (keyValueList sample_KTX_WRITER sample_container
               (merge_options DEFAULT_OPTIONS {| keepWriter := None |})))
    as Hscalar.
  { replace (keyValueList sample_KTX_WRITER sample_container
               (merge_options DEFAULT_OPTIONS {| keepWriter := None |}))
      with [(jsstr "KTXwriter", KVString sample_KTX_WRITER);
            (jsstr "a", KVString (jsstr "x"));
            (jsstr "b", KVBytes [x01; x02])]
      by (vm_compute; reflexivity).
    repeat first [apply List.Forall_cons | apply List.Forall_nil];
      unfold is_scalar_unit; cbn; lia. }
  split; [exact Hscalar|].
  exact (proj2 (proj2 (kvd_key_order sample_KTX_WRITER sample_container
                         {| keepWriter := None |})) Hscalar).
Defined.

(** C6, two keys outside ASCII: the entry of U+1F600 (code units D83D DE00,
    UTF-8 F0 9F 98 80) is serialized before the entry of U+FF5E (UTF-8
    EF BD 9E), whose UTF-8 bytes are the smaller ones. *)
Lemma kvd_key_order_counterexample :
  map fst (keyValueList sample_KTX_WRITER unicode_container
             (merge_options DEFAULT_OPTIONS {| keepWriter := Some true |}))
  = [[0xD83D; 0xDE00]; [0xFF5E]]
  /\ encodeText [0xD83D; 0xDE00] = [xf0; x9f; x98; x80]
  /\ encodeText [0xFF5E] = [xef; xbd; x9e]
  /\ bytes_lt (encodeText [0xFF5E]) (encodeText [0xD83D; 0xDE00]) = true
  /\ bytes_lt (encodeText [0xD83D; 0xDE00]) (encodeText [0xFF5E]) = false.
Proof. repeat split; vm_compute; reflexivity. Qed.

(** C7, the scenario: the first record of the KVD is "KTXwriter", the
    second is "Orientation". *)
Lemma scenario_layout_counterexample :
  map fst (keyValueList sample_KTX_WRITER scenario_container
             (merge_options DEFAULT_OPTIONS {| keepWriter := Some false |}))
  = [jsstr "KTXwriter"; jsstr "Orientation"]
  /\ kvdBuffer sample_KTX_WRITER scenario_container
       (merge_options DEFAULT_OPTIONS {| keepWriter := Some false |})
     = kvRecord (jsstr "KTXwriter", KVString sample_KTX_WRITER)
       ++ kvRecord (jsstr "Orientation", KVString (jsstr "S")).
Proof. split; vm_compute; reflexivity. Qed.

(** ** The further properties on the sample inputs *)

Lemma kvd_uniquely_decodable_witness :
  kvdBuffer sample_KTX_WRITER sample_container
    (merge_options DEFAULT_OPTIONS {| keepWriter := None |})
  = kvdBuffer sample_KTX_WRITER bytes_value_container
      (merge_options DEFAULT_OPTIONS {| keepWriter := None |})
  /\ map kvRecord
       (keyValueList sample_KTX_WRITER sample_container
          (merge_options DEFAULT_OPTIONS {| keepWriter := None |}))
     = map kvRecord
         (keyValueList sample_KTX_WRITER bytes_value_container
            (merge_options DEFAULT_OPTIONS {| keepWriter := None |})).
Proof.
  assert (kvdBuffer sample_KTX_WRITER sample_container
            (merge_options DEFAULT_OPTIONS {| keepWriter := None |})
          = kvdBuffer sample_KTX_WRITER bytes_value_container
              (merge_options DEFAULT_OPTIONS {| keepWriter := None |})) as Hkvd
    by (vm_compute; reflexivity).
  split; [exact Hkvd|].
  apply (kvd_uniquely_decodable sample_KTX_WRITER sample_container
           bytes_value_container
           (merge_options DEFAULT_OPTIONS {| keepWriter := None |})
           (merge_options DEFAULT_OPTIONS {| keepWriter := None |}));
    [ | |exact Hkvd].
  - replace (keyValueList sample_KTX_WRITER sample_container
               (merge_options DEFAULT_OPTIONS {| keepWriter := None |}))
      with [(jsstr "KTXwriter", KVString sample_KTX_WRITER);
            (jsstr "a", KVString (jsstr "x"));
            (jsstr "b", KVBytes [x01; x02])]
      by (vm_compute; reflexivity).
    repeat first [apply List.Forall_cons | apply List.Forall_nil];
      vm_compute; reflexivity.
  - replace (keyValueList sample_KTX_WRITER bytes_value_container
               (merge_options DEFAULT_OPTIONS {| keepWriter := None |}))
      with [(jsstr "KTXwriter", KVString sample_KTX_WRITER);
            (jsstr "a", KVBytes [x78; x00]);
            (jsstr "b", KVBytes [x01; x02])]
      by (vm_compute; reflexivity).
    repeat first [apply List.Forall_cons | apply List.Forall_nil];
      vm_compute; reflexivity.
Defined.

Lemma kvRecord_determines_entry_witness :
  kvRecord (jsstr "a", KVString (jsstr "x"))
  = kvRecord (jsstr "a", KVBytes [x78; x00])
  /\ encodeText (jsstr "a") = encodeText (jsstr "a")
  /\ kv_valueData (KVString (jsstr "x")) = kv_valueData (KVBytes [x78; x00]).
Proof.
  assert (kvRecord (jsstr "a", KVString (jsstr "x"))
          = kvRecord (jsstr "a", KVBytes [x78; x00])) as Hrecord
    by (vm_compute; reflexivity).
  assert (x00 ∉ encodeText (jsstr "a")) as Hkey.
  { change (encodeText (jsstr "a")) with [x61].
    apply not_elem_of_cons. split; [discriminate|apply not_elem_of_nil]. }
  split; [exact Hrecord|].
  exact (kvRecord_determines_entry (jsstr "a", KVString (jsstr "x"))
           (jsstr "a", KVBytes [x78; x00]) Hkey Hkey Hrecord).
Defined.

(** Two key/value sections with the same bytes and not the same records:
    one record of 260 bytes, whose length field holds 4, against a record
    of 4 bytes and one of 252. *)
Lemma kvd_ambiguous_from_256 :
  kvdBuffer sample_KTX_WRITER long_record_container
    (merge_options DEFAULT_OPTIONS {| keepWriter := Some true |})
  = kvdBuffer sample_KTX_WRITER split_record_container
      (merge_options DEFAULT_OPTIONS {| keepWriter := Some true |})
  /\ map kv_byteLength
       (keyValueList sample_KTX_WRITER long_record_container
          (merge_options DEFAULT_OPTIONS {| keepWriter := Some true |}))
     = [260]
  /\ map kv_byteLength
       (keyValueList sample_KTX_WRITER split_record_container
          (merge_options DEFAULT_OPTIONS {| keepWriter := Some true |}))
     = [4; 252].
Proof. repeat split; vm_compute; reflexivity. Qed.

Lemma write_error_messages_witness :
  sample_write legacy_dimension_container {| keepWriter := None |}
  = Throw (Error "texelBlockDimension is now an array. For dimensionality `d`, set `d - 1`.")
  /\ sample_write foreign_descriptor_container {| keepWriter := None |}
     = Throw (Error "Only BASICFORMAT Data Format Descriptor output supported.").
Proof.
  split.
  - destruct (write_error_messages sample_KTX2_ID sample_KTX_WRITER
                sample_BASICFORMAT sample_SIGNED sample_NONE
                sample_getBlockByteLength legacy_dimension_container
                {| keepWriter := None |}) as (_ & [_ Hlegacy] & _).
    apply Hlegacy. eexists. exists 0. repeat split.
  - destruct (write_error_messages sample_KTX2_ID sample_KTX_WRITER
                sample_BASICFORMAT sample_SIGNED sample_NONE
                sample_getBlockByteLength foreign_descriptor_container
                {| keepWriter := None |}) as ([_ Hforeign] & _).
    apply Hforeign. intros dfd [= <-]. discriminate.
Defined.

Lemma keepWriter_redundant_witness :
  (KTXwriter, KVString sample_KTX_WRITER)
    ∈ obj_spread [] (keyValue stamped_container)
  /\ sample_write stamped_container {| keepWriter := Some true |}
     = sample_write stamped_container {| keepWriter := None |}.
Proof.
  assert ((KTXwriter, KVString sample_KTX_WRITER)
            ∈ obj_spread [] (keyValue stamped_container)) as Hin
    by (vm_compute; right; left).
  split; [exact Hin|].
  apply (keepWriter_redundant sample_KTX2_ID sample_KTX_WRITER
           sample_BASICFORMAT sample_SIGNED sample_NONE
           sample_getBlockByteLength stamped_container
           {| keepWriter := Some true |} {| keepWriter := None |} Hin).
Defined.

Lemma kvd_record_fields_witness :
  sample_valid sample_container
  /\ exists out,
       sample_write sample_container {| keepWriter := None |} = Ok out
       /\ let p := kv_record_offset sample_KTX2_ID sample_KTX_WRITER
                     sample_container {| keepWriter := None |} sample_dfd 1 in
          getUint32 out p = 4
          /\ slice out (p + 4) (p + 4 + 4) = [x61; x00; x78; x00].
Proof.
  split; [exact sample_container_valid|].
  destruct (kvd_record_fields sample_KTX2_ID sample_KTX_WRITER
              sample_BASICFORMAT sample_SIGNED sample_NONE
              sample_getBlockByteLength sample_container
              {| keepWriter := None |} sample_dfd [0; 0; 0; 0]
              sample_container_valid) as (out & Hwrite & Hfields).
  exists out. split; [exact Hwrite|].
  assert (keyValueList sample_KTX_WRITER sample_container
            (merge_options DEFAULT_OPTIONS {| keepWriter := None |}) !! 1%nat
          = Some (jsstr "a", KVString (jsstr "x"))) as Hentry
    by (vm_compute; reflexivity).
  destruct (Hfields 1%nat (jsstr "a", KVString (jsstr "x")) Hentry)
    as (_ & _ & Hshort & _ & Hbody & _).
  split; [apply Hshort; vm_compute; reflexivity|exact Hbody].
Defined.

Lemma file_ends_with_level_0_witness :
  sample_valid scenario_container
  /\ (exists out,
        sample_write scenario_container {| keepWriter := None |} = Ok out
        /\ byteLength out
           = level_offset
               (levelAlign sample_NONE sample_getBlockByteLength
                  scenario_container)
               (spec_levelsStart sample_KTX2_ID sample_KTX_WRITER
                  scenario_container {| keepWriter := None |} sample_dfd)
               (levels scenario_container) 0
             + 4)
  /\ sample_valid no_levels_container
  /\ (exists out,
        sample_write no_levels_container {| keepWriter := None |} = Ok out
        /\ byteLength out
           = spec_kvdEnd sample_KTX2_ID sample_KTX_WRITER no_levels_container
               {| keepWriter := None |} sample_dfd
             + spec_sgdPadding sample_KTX2_ID sample_KTX_WRITER
                 no_levels_container {| keepWriter := None |} sample_dfd
             + byteLength (spec_sgd no_levels_container)).
Proof.
  assert (sample_valid no_levels_container) as Hvalid by (repeat split).
  split; [exact scenario_container_valid|]. split.
  - destruct (file_ends_with_level_0 sample_KTX2_ID sample_KTX_WRITER
                sample_BASICFORMAT sample_SIGNED sample_NONE
                sample_getBlockByteLength scenario_container
                {| keepWriter := None |} sample_dfd [0; 0; 0; 0]
                scenario_container_valid) as (Hend & _).
    apply (Hend {| levelData := [x01; x02; x03; x04];
                   uncompressedByteLength := 4 |} eq_refl).
    intros _. discriminate.
  - split; [exact Hvalid|].
    destruct (file_ends_with_level_0 sample_KTX2_ID sample_KTX_WRITER
                sample_BASICFORMAT sample_SIGNED sample_NONE
                sample_getBlockByteLength no_levels_container
                {| keepWriter := None |} sample_dfd [0; 0; 0; 0]
                Hvalid) as (_ & Hempty).
    apply Hempty; [reflexivity|discriminate].
Defined.

Lemma level_padding_witness :
  sample_valid scenario_container
  /\ exists out,
       sample_write scenario_container {| keepWriter := None |} = Ok out
       /\ let offset := level_offset
                          (levelAlign sample_NONE sample_getBlockByteLength
                             scenario_container)
                          (spec_levelsStart sample_KTX2_ID sample_KTX_WRITER
                             scenario_container {| keepWriter := None |}
                             sample_dfd)
                          (levels scenario_container) 0 in
          let gap := level_gap_start sample_KTX2_ID sample_KTX_WRITER
                       sample_NONE sample_getBlockByteLength
                       scenario_container {| keepWriter := None |}
                       sample_dfd 0 in
          gap <= offset < gap + 16
          /\ slice out gap offset = replicate (Z.to_nat (offset - gap)) x00.
Proof.
  split; [exact scenario_container_valid|].
  destruct (level_padding sample_KTX2_ID sample_KTX_WRITER
              sample_BASICFORMAT sample_SIGNED sample_NONE
              sample_getBlockByteLength scenario_container
              {| keepWriter := None |} sample_dfd [0; 0; 0; 0]
              scenario_container_valid) as (out & Hwrite & Hpad).
  exists out. split; [exact Hwrite|].
  destruct (Hpad 0%nat {| levelData := [x01; x02; x03; x04];
                          uncompressedByteLength := 4 |} eq_refl)
    as (Hge & _ & Hlt & Hzero).
  split; [split; [exact Hge|exact (Hlt eq_refl)]|exact Hzero].
Defined.

Lemma level_lengths_exact_witness :
  sample_valid huge_container
  /\ exists out,
       sample_write huge_container {| keepWriter := Some true |} = Ok out
       /\ getBigUint64 out (levelIndex_entry_offset sample_KTX2_ID 1 + 8)
          = 2 ^ 32
       /\ getBigUint64 out (levelIndex_entry_offset sample_KTX2_ID 1 + 16)
          = 2 ^ 32.
Proof.
  split; [exact huge_container_valid|].
  destruct (level_lengths_exact sample_KTX2_ID sample_KTX_WRITER
              sample_BASICFORMAT sample_SIGNED sample_NONE
              sample_getBlockByteLength huge_container
              {| keepWriter := Some true |} sample_dfd [0; 0; 0; 0]
              huge_container_valid) as (out & Hwrite & Hentries).
  exists out. split; [exact Hwrite|].
  destruct (Hentries 1%nat {| levelData := huge_payload;
                              uncompressedByteLength := 2 ^ 32 |} eq_refl)
    as (Hlen & Hunc).
  assert (forall data size,
            levelData {| levelData := data; uncompressedByteLength := size |}
            = data) as Hdata by reflexivity.
  rewrite Hdata, byteLength_huge_payload in Hlen.
  split; [exact Hlen|exact Hunc].
Defined.

Lemma header_scalar_fields_witness :
  sample_valid scenario_container
  /\ exists out,
       sample_write scenario_container {| keepWriter := None |} = Ok out
       /\ slice out 0 12
          = [xab; x4b; x54; x58; x20; x32; x30; xbb; x0d; x0a; x1a; x0a]
       /\ getUint32 out (12 + 0) = 37
       /\ getUint32 out (12 + 28) = 1
       /\ getUint32 out (12 + 32) = 0.
Proof.
  split; [exact scenario_container_valid|].
  destruct (header_scalar_fields sample_KTX2_ID sample_KTX_WRITER
              sample_BASICFORMAT sample_SIGNED sample_NONE
              sample_getBlockByteLength scenario_container
              {| keepWriter := None |} sample_dfd [0; 0; 0; 0]
              scenario_container_valid)
    as (out & Hwrite & Hid & Hformat & _ & _ & _ & _ & _ & _ & Hcount & Hscheme).
  exists out. split; [exact Hwrite|].
  split; [exact Hid|]. split; [exact Hformat|]. split; [exact Hcount|exact Hscheme].
Defined.

Lemma dfd_block_layout_witness :
  texelBlockDimension sample_dfd = TBD_array [0; 0; 0; 0]
  /\ exists block,
       dfdBuffer sample_SIGNED sample_dfd = Ok block
       /\ length block = 44%nat.
Proof.
  split; [reflexivity|].
  destruct (dfd_block_layout sample_SIGNED sample_dfd [0; 0; 0; 0] eq_refl)
    as (block & Hblock & _ & Hlen).
  exists block. split; [exact Hblock|exact Hlen].
Defined.

Lemma sample_bounds_read_back_witness :
  texelBlockDimension signed_dfd = TBD_array [0; 0; 0; 0]
  /\ exists block,
       dfdBuffer sample_SIGNED signed_dfd = Ok block
       /\ getInt32 block (28 + 16 * 0 + 8) = -128
       /\ getInt32 block (28 + 16 * 0 + 12) = 127
       /\ getUint32 block (28 + 16 * 1 + 12) = 4294967295.
Proof.
  split; [reflexivity|].
  destruct (sample_bounds_read_back sample_SIGNED signed_dfd [0; 0; 0; 0] 0%nat
              {| bitOffset := 0; bitLength := 7; channelType := 0x40;
                 samplePosition := [0; 0; 0; 0];
                 sampleLower := -128; sampleUpper := 127 |} eq_refl eq_refl)
    as (block & Hblock & _ & _ & _ & _ & Hlower & Hupper & _).
  exists block. split; [exact Hblock|].
  split; [apply Hlower; cbn; lia|]. split; [apply Hupper; cbn; lia|].
  destruct (sample_bounds_read_back sample_SIGNED signed_dfd [0; 0; 0; 0] 1%nat
              {| bitOffset := 8; bitLength := 7; channelType := 1;
                 samplePosition := [0; 0; 0; 0];
                 sampleLower := 0; sampleUpper := 4294967295 |} eq_refl eq_refl)
    as (block' & Hblock' & _ & _ & _ & _ & _ & _ & _ & Hupper').
  rewrite Hblock in Hblock'. injection Hblock' as <-.
  apply Hupper'. cbn. lia.
Defined.
